(** * EgisTec EH576 probe scripts: response classifier and probe runner

    A shallow embedding of two functions that the reverse-engineering
    scripts duplicate from file to file:

    - [analyze_capture_quality] (adaptive_calibration.py, lines 61-89, and
      eh575_calibration_protocol.py, lines 65-85), the data-density
      heuristic the specification calls [classify];
    - [send_and_receive] (capture_fingerprint.py, lines 35-58, and
      adaptive_calibration.py, lines 35-59), the request/response exchange
      the specification calls [probe].

    The functions that call them are embedded as well, over a journal of
    what they print, send, save and sleep: [test_calibration_variant],
    [test_parameter_variations] and [run_adaptive_calibration]
    (adaptive_calibration.py), [capture_fingerprint_sequence]
    (capture_fingerprint.py), and [send_and_receive],
    [execute_eh575_calibration] and [execute_repeat_cycle]
    (eh575_calibration_protocol.py).  [connect_device] and [main] only
    drive the USB library and are left out.

    Modelling conventions.

    - A response buffer (a pyusb [array('B')] or a [bytes] object) is a
      [list byte]; the integer value of an element is [int_of].
    - Python's [float] results are modelled by exact rationals ([Q]) where
      the classifier is studied on its own: the percentage, the entropy
      [k / 256] and the status they decide do not depend on rounding.  The
      quality score does: the functions that call the classifier compare
      it with 10, 15, 20 and the best score so far, and for them the
      classifier is embedded a second time in IEEE 754 binary64
      ([AdaptiveCalibration64]), the arithmetic of Python's [float].  What
      binary64 does not fix, the value of [x ** 2] (the C library's [pow])
      and of [sum] over floats (added in order up to CPython 3.11,
      compensated from 3.12 on), is taken from the platform.
    - The formatted f-string that the classifier returns is kept as a
      structured [message] holding the status word and the numbers that
      are interpolated, not as rendered text.
    - Python exceptions are values of type [exception]: the instances of
      Python's class [Exception], split into [usb.core.USBError] and the
      rest.  Interrupts that derive from [BaseException] only
      (KeyboardInterrupt, SystemExit) are asynchronous signals and not
      transport failures; they are not modelled. *)

From Stdlib Require Import List NArith ZArith QArith Qpower Bool Lia Permutation Sorted.
From Stdlib Require Import Strings.String Strings.Ascii Strings.Byte.
From Stdlib Require Import Numbers.DecimalString.
From Stdlib Require Import Floats.
Import ListNotations.

Local Open Scope Z_scope.

(** ** Python values shared by the scripts *)

Module Py.

(** The integer a byte stands for when Python iterates a buffer. *)
Definition int_of (b : byte) : Z := Z.of_N (Byte.to_N b).

(** [sum(xs)] over integers. *)
Definition sum (xs : list Z) : Z := fold_left Z.add xs 0.

(** [sum(xs)] over floats (as rationals). *)
Definition fsum (xs : list Q) : Q := fold_left Qplus xs (0 # 1).

(** [len(xs)]. *)
Definition len {A : Type} (xs : list A) : Z := Z.of_nat (List.length xs).

(** [len(set(data))]: the number of distinct elements. *)
Definition len_set (data : list byte) : Z :=
  len (nodup Byte.byte_eq_dec data).

(** [b != 0] for an element of a buffer. *)
Definition nonzero (b : byte) : bool := negb (int_of b =? 0).

(** The 256 values a byte can take. *)
Definition all_bytes : list byte :=
  map (fun n => match Byte.of_N (N.of_nat n) with Some b => b | None => "000"%byte end)
      (seq 0 256).

(** [x > y] on floats. *)
Definition gt (x y : Q) : bool := negb (Qle_bool x y).

(** [x / y] for two integers (true division). *)
Definition truediv (x y : Z) : Q := (inject_Z x / inject_Z y)%Q.

End Py.

(** ** The status words of the classifier *)

Module Quality.
Inductive status : Set := EXCELLENT | GOOD | FAIR | POOR.
End Quality.
Import Quality.

(** ** adaptive_calibration.py *)

Module AdaptiveCalibration.

(** The local variables of [analyze_capture_quality] once the guard of
    line 63 has been passed, in the order the source assigns them. *)
Record analysis : Set := mk_analysis {
  non_zero_bytes : Z;
  total_bytes : Z;
  percentage : Q;
  unique_values : Z;
  entropy : Q;
  mean : Q;
  variance : Q;
  quality_score : Q;
  verdict : status
}.

(** The second component of the returned pair: either the literal
    ["No data"] or the f-string of line 89 with its interpolated values. *)
Inductive message : Set :=
| No_data
| Report (st : status) (percentage entropy variance quality_score : Q).

(** Lines 80-87. *)
Definition status_of (percentage entropy : Q) : status :=
  if Py.gt percentage 30 && Py.gt entropy 0.4 then EXCELLENT
  else if Py.gt percentage 15 && Py.gt entropy 0.2 then GOOD
  else if Py.gt percentage 5 && Py.gt entropy 0.1 then FAIR
  else POOR.

(** Line 63: [not data or len(data) < 100]. *)
Definition no_data (data : list byte) : bool :=
  match data with [] => true | _ => false end || (Py.len data <? 100).

(** Lines 66-87: [None] when line 64 returns early. *)
Definition analyze (data : list byte) : option analysis :=
  if no_data data then None
  else
    let non_zero_bytes :=
      Py.sum (map (fun _ => 1) (filter Py.nonzero data)) in
    let total_bytes := Py.len data in
    let percentage := (Py.truediv non_zero_bytes total_bytes * 100)%Q in
    let unique_values := Py.len_set data in
    let entropy := Py.truediv unique_values 256 in
    let mean := Py.truediv (Py.sum (map Py.int_of data)) (Py.len data) in
    let variance :=
      (Py.fsum (map (fun b => (inject_Z (Py.int_of b) - mean) ^ 2) data)
       / inject_Z (Py.len data))%Q in
    let quality_score := (percentage * entropy * (variance / 100))%Q in
    Some (mk_analysis non_zero_bytes total_bytes percentage unique_values
            entropy mean variance quality_score
            (status_of percentage entropy)).

(** [analyze_capture_quality(data)]: the pair [(score, text)]. *)
Definition analyze_capture_quality (data : list byte) : Q * message :=
  match analyze data with
  | None => (0%Q, No_data)
  | Some a =>
      (quality_score a,
       Report (verdict a) (percentage a) (entropy a) (variance a) (quality_score a))
  end.

(** The quotient [non_zero_bytes / total_bytes] of line 68, the
    specification's non-zero ratio. *)
Definition non_zero_ratio (a : analysis) : Q :=
  Py.truediv (non_zero_bytes a) (total_bytes a).

End AdaptiveCalibration.

(** ** eh575_calibration_protocol.py *)

Module Eh575CalibrationProtocol.

(** The returned string: the literal ["No data"] or one of the four
    f-strings of lines 79-85 with its interpolated values. *)
Inductive message : Set :=
| No_data
| Report (st : status) (percentage entropy : Q).

(** Lines 78-85. *)
Definition status_of (percentage entropy : Q) : status :=
  if Py.gt percentage 50 && Py.gt entropy 0.3 then EXCELLENT
  else if Py.gt percentage 20 && Py.gt entropy 0.1 then GOOD
  else if Py.gt percentage 5 then FAIR
  else POOR.

(** Line 67: [not data or len(data) < 100]. *)
Definition no_data (data : list byte) : bool :=
  match data with [] => true | _ => false end || (Py.len data <? 100).

(** [analyze_capture_quality(data)], lines 65-85. *)
Definition analyze_capture_quality (data : list byte) : message :=
  if no_data data then No_data
  else
    let non_zero_bytes :=
      Py.sum (map (fun _ => 1) (filter Py.nonzero data)) in
    let total_bytes := Py.len data in
    let percentage := (Py.truediv non_zero_bytes total_bytes * 100)%Q in
    let unique_values := Py.len_set data in
    let entropy := Py.truediv unique_values 256 in
    Report (status_of percentage entropy) percentage entropy.

End Eh575CalibrationProtocol.

(** ** Python's float: IEEE 754 binary64 *)

Module Binary64.

(** [float(n)] for an integer [n] as the classifier meets them: a count, a
    length or a sum of bytes.  For a buffer of fewer than 2^45 bytes these
    are below 2^53, where the conversion is exact and Python's quotient of
    two integers is the correctly rounded quotient of their floats. *)
Definition of_int (z : Z) : float := PrimFloat.of_uint63 (Uint63.of_Z z).

(** [x > y] and [x < y] on floats; a NaN compares false with everything. *)
Definition gt (x y : float) : bool := PrimFloat.ltb y x.

Definition lt (x y : float) : Prop := PrimFloat.ltb x y = true.

(** [x == x]: [x] is not a NaN. *)
Definition is_number (x : float) : bool := PrimFloat.eqb x x.

Arguments gt : simpl never.
Arguments lt : simpl never.
Arguments is_number : simpl never.

(** [x ** 2] where the C library's [pow] rounds correctly, and [sum] over
    floats as CPython computes it up to version 3.11, adding in order
    from the integer 0. *)
Definition square (x : float) : float := PrimFloat.mul x x.

Definition sum_in_order (xs : list float) : float :=
  fold_left PrimFloat.add xs (of_int 0).

End Binary64.

(** ** adaptive_calibration.py, the classifier in binary64 *)

Module AdaptiveCalibration64.
Import Binary64.
#[local] Set Warnings "-inexact-float".

(** The second component of the returned pair, with the floats that the
    f-string of line 89 formats. *)
Inductive message : Set :=
| No_data
| Report (st : status) (percentage entropy variance quality_score : float).

(** Lines 80-87; the literals denote the nearest binary64 values, as they
    do in Python. *)
Definition status_of (percentage entropy : float) : status :=
  if gt percentage 30 && gt entropy 0.4 then EXCELLENT
  else if gt percentage 15 && gt entropy 0.2 then GOOD
  else if gt percentage 5 && gt entropy 0.1 then FAIR
  else POOR.

(** [analyze_capture_quality(data)], lines 61-89, on a platform where
    [x ** 2] is [pow_2 x] and [sum] over floats is [float_sum]. *)
Definition analyze_capture_quality (pow_2 : float -> float)
    (float_sum : list float -> float) (data : list byte) : float * message :=
  if AdaptiveCalibration.no_data data then (0%float, No_data)
  else
    let non_zero_bytes :=
      Py.sum (map (fun _ => 1) (filter Py.nonzero data)) in
    let total_bytes := Py.len data in
    let percentage :=
      (of_int non_zero_bytes / of_int total_bytes * 100)%float in
    let unique_values := Py.len_set data in
    let entropy := (of_int unique_values / 256)%float in
    let mean :=
      (of_int (Py.sum (map Py.int_of data)) / of_int (Py.len data))%float in
    let variance :=
      (float_sum (map (fun b => pow_2 (of_int (Py.int_of b) - mean)%float) data)
       / of_int (Py.len data))%float in
    let quality_score := (percentage * entropy * (variance / 100))%float in
    (quality_score,
     Report (status_of percentage entropy) percentage entropy variance
       quality_score).

End AdaptiveCalibration64.

(** ** The USB transport and the effects of a probe *)

Module Usb.

(** Instances of Python's [Exception]: [usb.core.USBError], or any other
    subclass; both carry the text that [str(e)] yields. *)
Inductive exception : Set :=
| USBError (text : string)
| Exception (text : string).

Definition str (e : exception) : string :=
  match e with USBError t => t | Exception t => t end.

Definition is_USBError (e : exception) : bool :=
  match e with USBError _ => true | Exception _ => false end.

(** How a Python call completes. *)
Inductive completion (A : Type) : Type :=
| Return (a : A)
| Raise (e : exception).
Arguments Return {A} a.
Arguments Raise {A} e.

(** A device object with internal state [D]: [dev.write(endpoint, data,
    timeout)] and [dev.read(endpoint, size, timeout)]. *)
Record Device (D : Type) : Type := mk_device {
  write : Z -> list byte -> Z -> D -> completion Z * D;
  read : Z -> Z -> Z -> D -> completion (list byte) * D
}.
Arguments write {D} _ _ _ _ _.
Arguments read {D} _ _ _ _ _.

(** The lines the probe prints. *)
Inductive line : Set :=
| Sent (label cmd_str : string)
| Response (resp_str : string)
| Read_error (e : string)
| Send_error (e : string).

(** What an exchange does to the outside, in order. *)
Inductive event : Set :=
| Call_write (endpoint : Z) (data : list byte) (timeout : Z)
| Call_read (endpoint : Z) (size : Z) (timeout : Z)
| Print (l : line).

Record world (D : Type) : Type := mk_world {
  dev_state : D;
  trace : list event
}.
Arguments mk_world {D} _ _.
Arguments dev_state {D} _.
Arguments trace {D} _.

(** Computations that act on the world and may raise. *)
Definition M (D A : Type) : Type := world D -> completion A * world D.

Definition ret {D A} (a : A) : M D A := fun w => (Return a, w).

Definition bind {D A B} (m : M D A) (f : A -> M D B) : M D B :=
  fun w =>
    match m w with
    | (Return a, w') => f a w'
    | (Raise e, w') => (Raise e, w')
    end.

Definition emit {D} (ev : event) (w : world D) : world D :=
  mk_world (dev_state w) (trace w ++ [ev]).

Definition print {D} (l : line) : M D unit :=
  fun w => (Return tt, emit (Print l) w).

Definition call_write {D} (dev : Device D) (endpoint : Z) (data : list byte)
    (timeout : Z) : M D Z :=
  fun w =>
    let (r, d) := write dev endpoint data timeout (dev_state w) in
    (r, mk_world d (trace w ++ [Call_write endpoint data timeout])).

Definition call_read {D} (dev : Device D) (endpoint size timeout : Z)
    : M D (list byte) :=
  fun w =>
    let (r, d) := read dev endpoint size timeout (dev_state w) in
    (r, mk_world d (trace w ++ [Call_read endpoint size timeout])).

(** [try: body / except <class> as e: handler e]. *)
Definition try_except {D A} (body : M D A) (catches : exception -> bool)
    (handler : exception -> M D A) : M D A :=
  fun w =>
    match body w with
    | (Return a, w') => (Return a, w')
    | (Raise e, w') => if catches e then handler e w' else (Raise e, w')
    end.

Declare Scope py_scope.
Delimit Scope py_scope with py.
Notation "x <- m ;; k" := (bind m (fun x => k))
  (at level 61, m at next level, right associativity) : py_scope.
Notation "m ;; k" := (bind m (fun _ => k))
  (at level 61, right associativity) : py_scope.

(** *** Text helpers *)

Definition hex_digit (n : N) : ascii :=
  ascii_of_N (if (n <? 10)%N then 48 + n else 87 + n)%N.

(** [f'{b:02x}']. *)
Definition hex2 (b : byte) : string :=
  let n := Byte.to_N b in
  String (hex_digit (n / 16)) (String (hex_digit (n mod 16)) EmptyString).

(** [' '.join(f'{b:02x}' for b in data)]. *)
Definition join_hex (data : list byte) : string :=
  String.concat " " (map hex2 data).

(** [f"{n}"] for a length. *)
Definition decimal (n : nat) : string :=
  NilEmpty.string_of_uint (Nat.to_uint n).

(** [s.lower()] on ASCII text. *)
Definition lower_ascii (c : ascii) : ascii :=
  let n := N_of_ascii c in
  if ((65 <=? n) && (n <=? 90))%N then ascii_of_N (n + 32) else c.

Fixpoint lower (s : string) : string :=
  match s with
  | EmptyString => EmptyString
  | String c s' => String (lower_ascii c) (lower s')
  end.

(** [needle in hay]. *)
Fixpoint contains (needle hay : string) : bool :=
  String.prefix needle hay
  || match hay with
     | EmptyString => false
     | String _ hay' => contains needle hay'
     end.

(** Lines 46-48 of the scripts: the preview of a response. *)
Definition preview (response : list byte) : string :=
  let resp_str := join_hex (firstn 20 response) in
  if Py.len response >? 20
  then resp_str ++ "... (" ++ decimal (List.length response) ++ " total bytes)"
  else resp_str.

End Usb.

(** ** capture_fingerprint.py *)

Module CaptureFingerprint.
Import Usb.
Local Open Scope py_scope.

(** [send_and_receive(dev, cmd, expected_response_size, timeout)],
    lines 35-58.  The Python value returned is [None] or the response. *)
Definition send_and_receive {D} (dev : Device D) (cmd : list byte)
    (expected_response_size timeout : Z) : M D (option (list byte)) :=
  try_except
    (call_write dev 1 cmd timeout ;;
     let cmd_str := join_hex cmd in
     print (Sent "Sent" cmd_str) ;;
     try_except
       (response <- call_read dev 130 expected_response_size timeout ;;
        print (Response (preview response)) ;;
        ret (Some response))
       is_USBError
       (fun e =>
          (if negb (contains "timeout" (lower (str e)))
           then print (Read_error (str e))
           else ret tt) ;;
          ret None))
    (fun _ => true)
    (fun e => print (Send_error (str e)) ;; ret None).

End CaptureFingerprint.

(** ** adaptive_calibration.py, the probe *)

Module AdaptiveProbe.
Import Usb.
Local Open Scope py_scope.

(** [send_and_receive(dev, cmd, expected_response_size, timeout,
    description)], lines 35-59 of adaptive_calibration.py. *)
Definition send_and_receive {D} (dev : Device D) (cmd : list byte)
    (expected_response_size timeout : Z) (description : string)
    : M D (option (list byte)) :=
  try_except
    (call_write dev 1 cmd timeout ;;
     let cmd_str := join_hex cmd in
     print (Sent description cmd_str) ;;
     try_except
       (response <- call_read dev 130 expected_response_size timeout ;;
        print (Response (preview response)) ;;
        ret (Some response))
       is_USBError
       (fun e =>
          (if negb (contains "timeout" (lower (str e)))
           then print (Read_error (str e))
           else ret tt) ;;
          ret None))
    (fun _ => true)
    (fun e => print (Send_error (str e)) ;; ret None).

End AdaptiveProbe.

(** ** The vocabulary of the specification *)

Module Spec.

(** The qualitative tiers of the classification result, lowest first. *)
Inductive Tier : Set := EMPTY | POOR | FAIR | GOOD | EXCELLENT.

Definition rank (t : Tier) : nat :=
  match t with EMPTY => 0 | POOR => 1 | FAIR => 2 | GOOD => 3 | EXCELLENT => 4 end.

(** The scripts print four status words and the literal ["No data"]; the
    status words are the tiers of the same name and ["No data"], the
    verdict below all of them, is read as [EMPTY]. *)
Definition tier_of_status (st : option status) : Tier :=
  match st with
  | None => EMPTY
  | Some Quality.POOR => POOR
  | Some Quality.FAIR => FAIR
  | Some Quality.GOOD => GOOD
  | Some Quality.EXCELLENT => EXCELLENT
  end.

(** The error kinds and outcomes of [probe]. *)
Inductive ErrorKind : Set :=
  DeviceNotFound | PermissionDenied | SendFailed | ReadFailed.

Inductive Outcome : Set :=
| Received (buffer : list byte)
| TimedOut
| Error (kind : ErrorKind).

End Spec.

(** The status word inside a returned message, if any. *)
Definition adaptive_status (m : AdaptiveCalibration.message) : option status :=
  match m with
  | AdaptiveCalibration.No_data => None
  | AdaptiveCalibration.Report st _ _ _ _ => Some st
  end.

Definition eh575_status (m : Eh575CalibrationProtocol.message) : option status :=
  match m with
  | Eh575CalibrationProtocol.No_data => None
  | Eh575CalibrationProtocol.Report st _ _ => Some st
  end.

(** ** Concrete buffers and transport stubs *)

Definition zeros100 : list byte := repeat "000"%byte 100.

Definition pattern1234 : list byte :=
  List.concat (repeat ["001"; "002"; "003"; "004"]%byte 25).

Definition frame : list byte := ["E"; "G"; "I"; "S"; "d"; "020"; "236"]%byte.

Module Stub.
Import Usb.

(** A device whose write raises. *)
Definition write_fails : Device unit :=
  mk_device unit
    (fun _ _ _ d => (Raise (USBError "[Errno 19] No such device"), d))
    (fun _ _ _ d => (Return [], d)).

(** A device that accepts the frame and never answers. *)
Definition silent : Device unit :=
  mk_device unit
    (fun _ data _ d => (Return (Py.len data), d))
    (fun _ _ _ d => (Raise (USBError "[Errno 110] Operation timeout"), d)).

(** A device that accepts the frame and whose read fails. *)
Definition broken_pipe : Device unit :=
  mk_device unit
    (fun _ data _ d => (Return (Py.len data), d))
    (fun _ _ _ d => (Raise (USBError "[Errno 32] Pipe error"), d)).


(** A device whose read raises something that is not a [USBError]. *)
Definition bad_backend : Device unit :=
  mk_device unit
    (fun _ data _ d => (Return (Py.len data), d))
    (fun _ _ _ d => (Raise (Exception "Invalid endpoint address 0x82"), d)).

(** A device that answers with the bytes SIGE. *)
Definition answering : Device unit :=
  mk_device unit
    (fun _ data _ d => (Return (Py.len data), d))
    (fun _ _ _ d => (Return ["S"; "I"; "G"; "E"]%byte, d)).

Definition fresh : world unit := mk_world tt [].

End Stub.

(** ** Reading a trace *)

Module Trace.
Import Usb.

(** The [dev.write] calls of a trace: endpoint, frame and timeout. *)
Definition writes_in (t : list event) : list (Z * list byte * Z) :=
  flat_map (fun ev => match ev with
                      | Call_write endpoint data timeout => [(endpoint, data, timeout)]
                      | _ => []
                      end) t.

(** The [dev.read] calls of a trace: endpoint, size and timeout. *)
Definition reads_in (t : list event) : list (Z * Z * Z) :=
  flat_map (fun ev => match ev with
                      | Call_read endpoint size timeout => [(endpoint, size, timeout)]
                      | _ => []
                      end) t.

End Trace.

(** ** The callers of the probe: printing, sleeping, saving *)

Module Host.

(** The lines printed by the calling functions: first those of
    adaptive_calibration.py, then those of capture_fingerprint.py, then
    those of eh575_calibration_protocol.py. *)
Inductive note : Set :=
| Testing (variant_name : string)
| Rule (width : nat)
| Executing_capture
| Place_finger
| Quality (quality : AdaptiveCalibration64.message)
| Saved_to (filename : string)
| Best_so_far (filename : string)
| Best_parameter (best_param : option string) (best_param_score : float)
| Testing_parameter_variations
| Adaptive_calibration
| Testing_multiple_approaches
| Multiple_background_captures
| Calibration_results
| Best_approach (best_variant : option string)
| Best_score (best_score : float)
| Found_good
| Found_decent
| All_poor
| Starting_sequence
| Phase_1
| Init_command (number : nat)
| Phase_2
| Press_enter
| Capture_attempt (number : nat)
| Saved_bytes (count : Z) (filename : string)
| Success_non_zero (non_zero_bytes : Z)
| Mostly_zeros
| Phase_3
| Keep_finger
| Monitoring (number : nat)
| Good_capture (non_zero_bytes : Z) (filename : string)
| Valid_SIGE
| Eh_phase_1
| Packet_header (description : string) (number count : nat)
| Pre_init_quality (quality : Eh575CalibrationProtocol.message)
| Saved_pre_init (filename : string)
| Pre_init_complete
| Eh_phase_2
| Post_init_quality (quality : Eh575CalibrationProtocol.message)
| Saved_post_init (filename : string)
| Post_init_complete
| Eh_phase_3
| Capture_cycle (cycle_count : nat)
| Fingerprint_quality (quality : Eh575CalibrationProtocol.message)
| Success_saved (filename : string)
| Fair_saved (filename : string)
| Results (successful_captures cycle_count : nat).

(** What a calling function does to the outside, in order. *)
Inductive action : Set :=
| Exchange (ev : Usb.event)
| Say (n : note)
| Sleep (seconds : Q)
| Save (filename : string) (data : list byte)
| Input.

(** The platform as the scripts use it, over the same state [D] as the
    device: [time.sleep], [datetime.now().strftime('%H%M%S')],
    [open(filename, 'wb')] followed by [f.write(data)], and [input()];
    and the two float operations whose value is the platform's, [x ** 2]
    and [sum] over floats. *)
Record Os (D : Type) : Type := mk_os {
  sleep_for : Q -> D -> D;
  strftime_HMS : D -> string;
  write_file : string -> list byte -> D -> Usb.completion unit * D;
  input_line : D -> Usb.completion string * D;
  pow_2 : float -> float;
  float_sum : list float -> float
}.
Arguments sleep_for {D} _ _ _.
Arguments strftime_HMS {D} _ _.
Arguments write_file {D} _ _ _ _.
Arguments input_line {D} _ _.
Arguments pow_2 {D} _ _.
Arguments float_sum {D} _ _.

(** [analyze_capture_quality(data)] of adaptive_calibration.py as the
    callers run it. *)
Definition analyze_capture_quality {D} (os : Os D) (data : list byte)
    : float * AdaptiveCalibration64.message :=
  AdaptiveCalibration64.analyze_capture_quality (pow_2 os) (float_sum os) data.

Record world (D : Type) : Type := mk_world {
  state : D;
  journal : list action
}.
Arguments mk_world {D} _ _.
Arguments state {D} _.
Arguments journal {D} _.

Definition M (D A : Type) : Type := world D -> Usb.completion A * world D.

Definition ret {D A} (a : A) : M D A := fun w => (Usb.Return a, w).

Definition bind {D A B} (m : M D A) (f : A -> M D B) : M D B :=
  fun w =>
    match m w with
    | (Usb.Return a, w') => f a w'
    | (Usb.Raise e, w') => (Usb.Raise e, w')
    end.

Declare Scope host_scope.
Delimit Scope host_scope with host.
Notation "x <- m ;; k" := (bind m (fun x => k))
  (at level 61, m at next level, right associativity) : host_scope.
Notation "m ;; k" := (bind m (fun _ => k))
  (at level 61, right associativity) : host_scope.

Definition say {D} (n : note) : M D unit :=
  fun w => (Usb.Return tt, mk_world (state w) (journal w ++ [Say n])).

Definition sleep {D} (os : Os D) (seconds : Q) : M D unit :=
  fun w => (Usb.Return tt,
            mk_world (sleep_for os seconds (state w)) (journal w ++ [Sleep seconds])).

Definition now_HMS {D} (os : Os D) : M D string :=
  fun w => (Usb.Return (strftime_HMS os (state w)), w).

Definition save {D} (os : Os D) (filename : string) (data : list byte) : M D unit :=
  fun w =>
    let (r, d) := write_file os filename data (state w) in
    (r, mk_world d (journal w ++ [Save filename data])).

(** A call of [send_and_receive]: it runs on the device state of the
    caller and its events are appended to the caller's journal. *)
Definition exchange {D A} (m : Usb.M D A) : M D A :=
  fun w =>
    let (r, u) := m (Usb.mk_world (state w) []) in
    (r, mk_world (Usb.dev_state u) (journal w ++ map Exchange (Usb.trace u))).

(** The steps of a probe written out in the caller's world, for a probe
    that also prints a line of its caller's kind. *)
Definition call_write {D} (dev : Usb.Device D) (endpoint : Z) (data : list byte)
    (timeout : Z) : M D Z :=
  fun w =>
    let (r, d) := Usb.write dev endpoint data timeout (state w) in
    (r, mk_world d (journal w ++ [Exchange (Usb.Call_write endpoint data timeout)])).

Definition call_read {D} (dev : Usb.Device D) (endpoint size timeout : Z)
    : M D (list byte) :=
  fun w =>
    let (r, d) := Usb.read dev endpoint size timeout (state w) in
    (r, mk_world d (journal w ++ [Exchange (Usb.Call_read endpoint size timeout)])).

Definition print {D} (l : Usb.line) : M D unit :=
  fun w => (Usb.Return tt,
            mk_world (state w) (journal w ++ [Exchange (Usb.Print l)])).

(** [try: body / except <class> as e: handler e]. *)
Definition try_except {D A} (body : M D A) (catches : Usb.exception -> bool)
    (handler : Usb.exception -> M D A) : M D A :=
  fun w =>
    match body w with
    | (Usb.Return a, w') => (Usb.Return a, w')
    | (Usb.Raise e, w') => if catches e then handler e w' else (Usb.Raise e, w')
    end.

(** [input()]: the line read is dropped by the caller. *)
Definition input {D} (os : Os D) : M D string :=
  fun w =>
    let (r, d) := input_line os (state w) in
    (r, mk_world d (journal w ++ [Input])).

(** [for x in xs: body x]. *)
Fixpoint for_each {D A} (xs : list A) (body : A -> M D unit) : M D unit :=
  match xs with
  | [] => ret tt
  | x :: rest => bind (body x) (fun _ => for_each rest body)
  end.

(** [enumerate(xs)] and [range(n)]. *)
Definition enumerate {A} (xs : list A) : list (nat * A) :=
  combine (seq 0 (List.length xs)) xs.

Definition range (n : nat) : list nat := seq 0 n.

(** The truth value of a response: [None] and the empty buffer are false. *)
Definition truthy (response : option (list byte)) : bool :=
  match response with
  | Some (_ :: _) => true
  | _ => false
  end.

(** The frame a list of integers stands for ([bytes(cmd)]). *)
Definition frame_of (cmd : list N) : list byte :=
  map (fun n => match Byte.of_N n with Some b => b | None => "000"%byte end) cmd.

(** [s.replace(' ', '_')]. *)
Fixpoint replace_spaces (s : string) : string :=
  match s with
  | EmptyString => EmptyString
  | String c s' =>
      String (if Ascii.eqb c " " then "_"%char else c) (replace_spaces s')
  end.

(** The frames written, the files saved and the seconds slept in a journal. *)
Definition writes_in (j : list action) : list (Z * list byte * Z) :=
  flat_map (fun a => match a with
                     | Exchange (Usb.Call_write endpoint data timeout) =>
                         [(endpoint, data, timeout)]
                     | _ => []
                     end) j.

Definition saves_in (j : list action) : list (string * list byte) :=
  flat_map (fun a => match a with
                     | Save filename data => [(filename, data)]
                     | _ => []
                     end) j.

End Host.

(** ** adaptive_calibration.py, the calibration variants *)

Module AdaptiveVariant.
Import Host.
Local Open Scope host_scope.

(** The loop of lines 97-99: [for i, cmd in enumerate(pre_commands)]. *)
Fixpoint pre_commands_loop {D} (os : Os D) (dev : Usb.Device D) (i : nat)
    (pre_commands : list (list byte)) : M D unit :=
  match pre_commands with
  | [] => ret tt
  | cmd :: rest =>
      exchange (AdaptiveProbe.send_and_receive dev cmd 64 3000
                  ("Pre-cmd " ++ Usb.decimal (i + 1))) ;;
      sleep os 0.2 ;;
      pre_commands_loop os dev (S i) rest
  end.

(** [test_calibration_variant(dev, variant_name, pre_commands,
    capture_command, capture_size)], lines 91-120.  A response is truthy
    when it is not [None] and not empty. *)
Definition test_calibration_variant {D} (os : Os D) (dev : Usb.Device D)
    (variant_name : string) (pre_commands : list (list byte))
    (capture_command : list byte) (capture_size : Z)
    : M D (float * option (list byte)) :=
  say (Testing variant_name) ;;
  say (Rule 50) ;;
  pre_commands_loop os dev 0 pre_commands ;;
  say Executing_capture ;;
  say Place_finger ;;
  sleep os 2 ;;
  response <- exchange (AdaptiveProbe.send_and_receive dev capture_command
                          capture_size 5000 "CAPTURE") ;;
  match response with
  | Some (b :: rest) =>
      let data := b :: rest in
      let (score, quality) := analyze_capture_quality os data in
      say (Quality quality) ;;
      (if Binary64.gt score 10
       then
         stamp <- now_HMS os ;;
         let filename :=
           (replace_spaces (Usb.lower variant_name) ++ "_" ++ stamp ++ ".bin")%string in
         save os filename data ;;
         say (Saved_to filename)
       else ret tt) ;;
      ret (score, Some data)
  | _ => ret (0%float, None)
  end.

(** The frames of the tables of adaptive_calibration.py. *)
Definition post_init_1 : list byte := frame_of [0x45; 0x47; 0x49; 0x53; 0x60; 0x00; 0xfc]%N.
Definition post_init_2 : list byte := frame_of [0x45; 0x47; 0x49; 0x53; 0x60; 0x01; 0xfc]%N.
Definition post_init_3 : list byte := frame_of [0x45; 0x47; 0x49; 0x53; 0x60; 0x40; 0xfc]%N.
Definition config_18 : list byte :=
  frame_of [0x45; 0x47; 0x49; 0x53; 0x63; 0x09; 0x0b; 0x83; 0x24; 0x00; 0x44;
            0x0f; 0x08; 0x20; 0x20; 0x01; 0x05; 0x12]%N.
Definition config_13 : list byte :=
  frame_of [0x45; 0x47; 0x49; 0x53; 0x63; 0x26; 0x06; 0x06; 0x60; 0x06; 0x05;
            0x2f; 0x06]%N.
Definition capture_ec : list byte := frame_of [0x45; 0x47; 0x49; 0x53; 0x64; 0x14; 0xec]%N.
Definition background_ec : list byte := frame_of [0x45; 0x47; 0x49; 0x53; 0x73; 0x14; 0xec]%N.

(** Lines 244-248 and 256-262. *)
Definition base_setup : list (list byte) := [post_init_1; post_init_2; post_init_3].

Definition capture_variants : list (list byte * string) :=
  [(capture_ec, "Original (0xec)"%string);
   (frame_of [0x45; 0x47; 0x49; 0x53; 0x64; 0x14; 0xfc]%N, "Variant fc"%string);
   (frame_of [0x45; 0x47; 0x49; 0x53; 0x64; 0x14; 0x00]%N, "Variant 00"%string);
   (background_ec, "Background style"%string);
   (frame_of [0x45; 0x47; 0x49; 0x53; 0x64; 0x40; 0xec]%N, "Different param"%string)].

(** The loop of lines 267-287; the locals [best_param_score] and
    [best_param] are threaded through the iterations. *)
Fixpoint capture_variants_loop {D} (os : Os D) (dev : Usb.Device D)
    (variants : list (list byte * string)) (best : float * option string)
    : M D (float * option string) :=
  match variants with
  | [] => ret best
  | (cmd, name) :: rest =>
      say (Testing name) ;;
      say Place_finger ;;
      sleep os 1.5 ;;
      response <- exchange (AdaptiveProbe.send_and_receive dev cmd 6000 5000 name) ;;
      best' <- match response with
               | Some (b :: tail) =>
                   let data := b :: tail in
                   let (score, quality) := analyze_capture_quality os data in
                   say (Quality quality) ;;
                   if Binary64.gt score (fst best)
                   then
                     stamp <- now_HMS os ;;
                     let filename :=
                       ("param_test_" ++ replace_spaces (Usb.lower name) ++ "_"
                        ++ stamp ++ ".bin")%string in
                     save os filename data ;;
                     say (Best_so_far filename) ;;
                     ret (score, Some name)
                   else ret best
               | _ => ret best
               end ;;
      sleep os 1 ;;
      capture_variants_loop os dev rest best'
  end.

(** [test_parameter_variations(dev)], lines 238-290. *)
Definition test_parameter_variations {D} (os : Os D) (dev : Usb.Device D)
    : M D bool :=
  say Testing_parameter_variations ;;
  say (Rule 50) ;;
  for_each base_setup (fun cmd =>
    exchange (AdaptiveProbe.send_and_receive dev cmd 64 3000 "") ;;
    sleep os 0.2) ;;
  best <- capture_variants_loop os dev capture_variants (0%float, None) ;;
  say (Best_parameter (snd best) (fst best)) ;;
  ret (Binary64.gt (fst best) 15).

(** Lines 133-139, 149-155, 165-172 and 182-186. *)
Definition variant1_pre : list (list byte) :=
  [post_init_1; post_init_2; post_init_3; config_18; config_13].

Definition variant2_pre : list (list byte) :=
  [frame_of [0x45; 0x47; 0x49; 0x53; 0x60; 0x00; 0x00]%N;
   frame_of [0x45; 0x47; 0x49; 0x53; 0x60; 0x01; 0x00]%N;
   frame_of [0x45; 0x47; 0x49; 0x53; 0x61; 0x0a; 0xfc]%N;
   config_13;
   background_ec].

Definition variant3_pre : list (list byte) :=
  [post_init_1; post_init_2;
   frame_of [0x45; 0x47; 0x49; 0x53; 0x61; 0x0a; 0xfd]%N;
   frame_of [0x45; 0x47; 0x49; 0x53; 0x61; 0x50; 0x03]%N;
   frame_of [0x45; 0x47; 0x49; 0x53; 0x60; 0x50; 0x03]%N;
   background_ec].

Definition variant4_pre : list (list byte) := [post_init_1; post_init_2; post_init_3].

(** [if score > best_score: best_score, best_variant, best_data = ...]. *)
Definition keep_best (score : float) (name : string) (data : option (list byte))
    (best : float * option string * option (list byte))
    : float * option string * option (list byte) :=
  if Binary64.gt score (fst (fst best)) then (score, Some name, data) else best.

(** [run_adaptive_calibration(dev)], lines 122-236. *)
Definition run_adaptive_calibration {D} (os : Os D) (dev : Usb.Device D)
    : M D (bool * option string) :=
  say Adaptive_calibration ;;
  say Testing_multiple_approaches ;;
  say (Rule 60) ;;
  let best := (0%float, None, None) in
  r1 <- test_calibration_variant os dev "EH576 Original" variant1_pre capture_ec 6000 ;;
  let best := keep_best (fst r1) "EH576 Original" (snd r1) best in
  sleep os 1 ;;
  r2 <- test_calibration_variant os dev "EH575 Minimal" variant2_pre capture_ec 6000 ;;
  let best := keep_best (fst r2) "EH575 Minimal" (snd r2) best in
  sleep os 1 ;;
  r3 <- test_calibration_variant os dev "Hybrid EH575/576" variant3_pre capture_ec 6000 ;;
  let best := keep_best (fst r3) "Hybrid EH575/576" (snd r3) best in
  sleep os 1 ;;
  say (Testing "Timing Sensitive") ;;
  say (Rule 50) ;;
  for_each (enumerate variant4_pre) (fun ic =>
    exchange (AdaptiveProbe.send_and_receive dev (snd ic) 64 3000
                ("Timing-cmd " ++ Usb.decimal (fst ic + 1))) ;;
    sleep os 1) ;;
  say Multiple_background_captures ;;
  for_each (range 3) (fun i =>
    exchange (AdaptiveProbe.send_and_receive dev background_ec 6000 5000
                ("Background " ++ Usb.decimal (i + 1))) ;;
    sleep os 0.5) ;;
  say Place_finger ;;
  sleep os 2 ;;
  response <- exchange (AdaptiveProbe.send_and_receive dev capture_ec 6000 5000
                          "CAPTURE") ;;
  best <- match response with
          | Some (b :: tail) =>
              let data := b :: tail in
              let (score4, quality) := analyze_capture_quality os data in
              say (Quality quality) ;;
              (if Binary64.gt score4 10
               then
                 stamp <- now_HMS os ;;
                 let filename := ("timing_sensitive_" ++ stamp ++ ".bin")%string in
                 save os filename data ;;
                 say (Saved_to filename)
               else ret tt) ;;
              ret (keep_best score4 "Timing Sensitive" (Some data) best)
          | _ => ret best
          end ;;
  let best_score := fst (fst best) in
  let best_variant := snd (fst best) in
  say Calibration_results ;;
  say (Rule 50) ;;
  say (Best_approach best_variant) ;;
  say (Best_score best_score) ;;
  if Binary64.gt best_score 20
  then say Found_good ;; ret (true, best_variant)
  else if Binary64.gt best_score 10
  then say Found_decent ;; ret (true, best_variant)
  else say All_poor ;; ret (false, best_variant).

End AdaptiveVariant.

(** ** capture_fingerprint.py, the capture sequence *)

Module CaptureSequence.
Import Host.
Local Open Scope host_scope.

(** Lines 67-74 and 84. *)
Definition init_commands : list (list byte) :=
  [AdaptiveVariant.post_init_1; AdaptiveVariant.post_init_2;
   AdaptiveVariant.post_init_3; AdaptiveVariant.config_18;
   AdaptiveVariant.config_13].

Definition image_command : list byte := AdaptiveVariant.capture_ec.

(** [sum(1 for b in response if b != 0)]. *)
Definition non_zero_count (response : list byte) : Z :=
  Py.sum (map (fun _ => 1) (filter Py.nonzero response)).

(** The body of the loop of lines 92-112. *)
Definition capture_attempt {D} (os : Os D) (dev : Usb.Device D) (attempt : nat)
    : M D unit :=
  say (Capture_attempt (attempt + 1)) ;;
  response <- exchange (CaptureFingerprint.send_and_receive dev image_command
                          6000 5000) ;;
  match response with
  | Some data =>
      if truthy response && (Py.len data >? 100)
      then
        stamp <- now_HMS os ;;
        let filename :=
          ("fingerprint_capture_" ++ Usb.decimal (attempt + 1) ++ "_" ++ stamp
           ++ ".bin")%string in
        save os filename data ;;
        say (Saved_bytes (Py.len data) filename) ;;
        let non_zero_bytes := non_zero_count data in
        if Py.gt (inject_Z non_zero_bytes) (inject_Z (Py.len data) * 0.1)
        then say (Success_non_zero non_zero_bytes)
        else say Mostly_zeros
      else ret tt
  | None => ret tt
  end ;;
  sleep os 1.

(** The body of the loop of lines 118-130. *)
Definition monitor_step {D} (os : Os D) (dev : Usb.Device D) (i : nat)
    : M D unit :=
  say (Monitoring (i + 1)) ;;
  response <- exchange (CaptureFingerprint.send_and_receive dev image_command
                          6000 2000) ;;
  match response with
  | Some data =>
      if truthy response && (Py.len data >? 100)
      then
        let non_zero_bytes := non_zero_count data in
        if Py.gt (inject_Z non_zero_bytes) (inject_Z (Py.len data) * 0.2)
        then
          stamp <- now_HMS os ;;
          let filename :=
            ("fingerprint_monitor_" ++ Usb.decimal (i + 1) ++ "_" ++ stamp
             ++ ".bin")%string in
          save os filename data ;;
          say (Good_capture non_zero_bytes filename)
        else ret tt
      else ret tt
  | None => ret tt
  end ;;
  sleep os 0.5.

(** [capture_fingerprint_sequence(dev)], lines 60-133.  The handler for
    [KeyboardInterrupt] around the last loop is outside this model. *)
Definition capture_fingerprint_sequence {D} (os : Os D) (dev : Usb.Device D)
    : M D unit :=
  say Starting_sequence ;;
  say (Rule 50) ;;
  say Phase_1 ;;
  for_each (enumerate init_commands) (fun ic =>
    say (Init_command (fst ic + 1)) ;;
    exchange (CaptureFingerprint.send_and_receive dev (snd ic) 64 2000) ;;
    sleep os 0.2) ;;
  say Phase_2 ;;
  say Place_finger ;;
  say Press_enter ;;
  input os ;;
  for_each (range 3) (capture_attempt os dev) ;;
  say Phase_3 ;;
  say Keep_finger ;;
  for_each (range 10) (monitor_step os dev).

End CaptureSequence.

(** ** eh575_calibration_protocol.py, the probe and the protocol phases *)

Module Eh575Protocol.
Import Host.
Local Open Scope host_scope.

(** [bytes([0x53, 0x49, 0x47, 0x45])], line 52. *)
Definition sige : list byte := frame_of [0x53; 0x49; 0x47; 0x45]%N.

Definition same_status (a b : status) : bool :=
  match a, b with
  | EXCELLENT, EXCELLENT | GOOD, GOOD | FAIR, FAIR | POOR, POOR => true
  | _, _ => false
  end.

(** ["EXCELLENT" in quality] and the like.  The status word opens the
    returned string and is its only upper-case text apart from the N of
    "No data", so a status word occurs in it exactly when it is the status
    reported. *)
Definition mentions (word : status)
    (quality : Eh575CalibrationProtocol.message) : bool :=
  match quality with
  | Eh575CalibrationProtocol.Report st _ _ => same_status st word
  | Eh575CalibrationProtocol.No_data => false
  end.

(** Lines 94-124, 149-168 and 199-209: command, expected size, description. *)
Definition pre_init_packets : list (list byte * Z * string) :=
  [(frame_of [0x45; 0x47; 0x49; 0x53; 0x60; 0x00; 0x00]%N,
    7, "PRE_INIT 1"%string);
   (frame_of [0x45; 0x47; 0x49; 0x53; 0x60; 0x01; 0x00]%N,
    7, "PRE_INIT 2"%string);
   (frame_of [0x45; 0x47; 0x49; 0x53; 0x61; 0x0a; 0xfd]%N,
    7, "PRE_INIT 3"%string);
   (frame_of [0x45; 0x47; 0x49; 0x53; 0x61; 0x35; 0x02]%N,
    7, "PRE_INIT 4"%string);
   (frame_of [0x45; 0x47; 0x49; 0x53; 0x61; 0x80; 0x00]%N,
    7, "PRE_INIT 5"%string);
   (frame_of [0x45; 0x47; 0x49; 0x53; 0x60; 0x80; 0x00]%N,
    7, "PRE_INIT 6"%string);
   (frame_of [0x45; 0x47; 0x49; 0x53; 0x61; 0x0a; 0xfc]%N,
    7, "PRE_INIT 7"%string);
   (frame_of [0x45; 0x47; 0x49; 0x53; 0x63; 0x01; 0x02; 0x0f; 0x03]%N,
    9, "PRE_INIT 8"%string);
   (frame_of [0x45; 0x47; 0x49; 0x53; 0x61; 0x0c; 0x22]%N,
    7, "PRE_INIT 9"%string);
   (frame_of [0x45; 0x47; 0x49; 0x53; 0x61; 0x09; 0x83]%N,
    7, "PRE_INIT 10"%string);
   (frame_of [0x45; 0x47; 0x49; 0x53; 0x63; 0x26; 0x06; 0x06; 0x60; 0x06; 0x05; 0x2f; 0x06]%N,
    13, "PRE_INIT 11 - Config"%string);
   (frame_of [0x45; 0x47; 0x49; 0x53; 0x61; 0x0a; 0xf4]%N,
    7, "PRE_INIT 12"%string);
   (frame_of [0x45; 0x47; 0x49; 0x53; 0x61; 0x0c; 0x44]%N,
    7, "PRE_INIT 13"%string);
   (frame_of [0x45; 0x47; 0x49; 0x53; 0x61; 0x50; 0x03]%N,
    7, "PRE_INIT 14"%string);
   (frame_of [0x45; 0x47; 0x49; 0x53; 0x60; 0x50; 0x03]%N,
    7, "PRE_INIT 15"%string);
   (frame_of [0x45; 0x47; 0x49; 0x53; 0x73; 0x14; 0xec]%N,
    5356, "PRE_INIT 16 - BIG CAPTURE"%string);
   (frame_of [0x45; 0x47; 0x49; 0x53; 0x60; 0x40; 0xec]%N,
    7, "PRE_INIT 17"%string);
   (frame_of [0x45; 0x47; 0x49; 0x53; 0x63; 0x09; 0x0b; 0x83; 0x24; 0x00; 0x44; 0x0f; 0x08; 0x20; 0x20; 0x01; 0x05; 0x12]%N,
    18, "PRE_INIT 18 - Config"%string);
   (frame_of [0x45; 0x47; 0x49; 0x53; 0x63; 0x26; 0x06; 0x06; 0x60; 0x06; 0x05; 0x2f; 0x06]%N,
    13, "PRE_INIT 19 - Config"%string);
   (frame_of [0x45; 0x47; 0x49; 0x53; 0x61; 0x23; 0x00]%N,
    7, "PRE_INIT 20"%string);
   (frame_of [0x45; 0x47; 0x49; 0x53; 0x61; 0x24; 0x33]%N,
    7, "PRE_INIT 21"%string);
   (frame_of [0x45; 0x47; 0x49; 0x53; 0x61; 0x20; 0x00]%N,
    7, "PRE_INIT 22"%string);
   (frame_of [0x45; 0x47; 0x49; 0x53; 0x61; 0x21; 0x66]%N,
    7, "PRE_INIT 23"%string);
   (frame_of [0x45; 0x47; 0x49; 0x53; 0x60; 0x00; 0x66]%N,
    7, "PRE_INIT 24"%string);
   (frame_of [0x45; 0x47; 0x49; 0x53; 0x60; 0x01; 0x66]%N,
    7, "PRE_INIT 25"%string);
   (frame_of [0x45; 0x47; 0x49; 0x53; 0x60; 0x40; 0x66]%N,
    7, "PRE_INIT 26"%string);
   (frame_of [0x45; 0x47; 0x49; 0x53; 0x61; 0x0c; 0x22]%N,
    7, "PRE_INIT 27"%string);
   (frame_of [0x45; 0x47; 0x49; 0x53; 0x61; 0x0b; 0x03]%N,
    7, "PRE_INIT 28"%string);
   (frame_of [0x45; 0x47; 0x49; 0x53; 0x61; 0x0a; 0xfc]%N,
    7, "PRE_INIT 29 - Final"%string)].

Definition post_init_packets : list (list byte * Z * string) :=
  [(frame_of [0x45; 0x47; 0x49; 0x53; 0x60; 0x00; 0xfc]%N,
    7, "POST_INIT 1"%string);
   (frame_of [0x45; 0x47; 0x49; 0x53; 0x60; 0x01; 0xfc]%N,
    7, "POST_INIT 2"%string);
   (frame_of [0x45; 0x47; 0x49; 0x53; 0x60; 0x40; 0xfc]%N,
    7, "POST_INIT 3"%string);
   (frame_of [0x45; 0x47; 0x49; 0x53; 0x63; 0x09; 0x0b; 0x83; 0x24; 0x00; 0x44; 0x0f; 0x08; 0x20; 0x20; 0x01; 0x05; 0x12]%N,
    18, "POST_INIT 4 - Config"%string);
   (frame_of [0x45; 0x47; 0x49; 0x53; 0x63; 0x26; 0x06; 0x06; 0x60; 0x06; 0x05; 0x2f; 0x06]%N,
    13, "POST_INIT 5 - Config"%string);
   (frame_of [0x45; 0x47; 0x49; 0x53; 0x61; 0x23; 0x00]%N,
    7, "POST_INIT 6"%string);
   (frame_of [0x45; 0x47; 0x49; 0x53; 0x61; 0x24; 0x33]%N,
    7, "POST_INIT 7"%string);
   (frame_of [0x45; 0x47; 0x49; 0x53; 0x61; 0x20; 0x00]%N,
    7, "POST_INIT 8"%string);
   (frame_of [0x45; 0x47; 0x49; 0x53; 0x61; 0x21; 0x66]%N,
    7, "POST_INIT 9"%string);
   (frame_of [0x45; 0x47; 0x49; 0x53; 0x60; 0x00; 0x66]%N,
    7, "POST_INIT 10"%string);
   (frame_of [0x45; 0x47; 0x49; 0x53; 0x60; 0x01; 0x66]%N,
    7, "POST_INIT 11"%string);
   (frame_of [0x45; 0x47; 0x49; 0x53; 0x63; 0x2c; 0x02; 0x00; 0x57]%N,
    9, "POST_INIT 12"%string);
   (frame_of [0x45; 0x47; 0x49; 0x53; 0x60; 0x2d; 0x02]%N,
    7, "POST_INIT 13"%string);
   (frame_of [0x45; 0x47; 0x49; 0x53; 0x62; 0x67; 0x03]%N,
    10, "POST_INIT 14"%string);
   (frame_of [0x45; 0x47; 0x49; 0x53; 0x60; 0x0f; 0x03]%N,
    7, "POST_INIT 15"%string);
   (frame_of [0x45; 0x47; 0x49; 0x53; 0x63; 0x2c; 0x02; 0x00; 0x13]%N,
    9, "POST_INIT 16"%string);
   (frame_of [0x45; 0x47; 0x49; 0x53; 0x60; 0x00; 0x02]%N,
    7, "POST_INIT 17"%string);
   (frame_of [0x45; 0x47; 0x49; 0x53; 0x64; 0x14; 0xec]%N,
    5356, "POST_INIT 18 - IMAGE CAPTURE"%string)].

Definition repeat_packets : list (list byte * Z * string) :=
  [(frame_of [0x45; 0x47; 0x49; 0x53; 0x61; 0x2d; 0x20]%N,
    7, "REPEAT 1"%string);
   (frame_of [0x45; 0x47; 0x49; 0x53; 0x60; 0x00; 0x20]%N,
    7, "REPEAT 2"%string);
   (frame_of [0x45; 0x47; 0x49; 0x53; 0x60; 0x01; 0x20]%N,
    7, "REPEAT 3"%string);
   (frame_of [0x45; 0x47; 0x49; 0x53; 0x63; 0x2c; 0x02; 0x00; 0x57]%N,
    9, "REPEAT 4"%string);
   (frame_of [0x45; 0x47; 0x49; 0x53; 0x60; 0x2d; 0x02]%N,
    7, "REPEAT 5"%string);
   (frame_of [0x45; 0x47; 0x49; 0x53; 0x62; 0x67; 0x03]%N,
    10, "REPEAT 6"%string);
   (frame_of [0x45; 0x47; 0x49; 0x53; 0x63; 0x2c; 0x02; 0x00; 0x13]%N,
    9, "REPEAT 7"%string);
   (frame_of [0x45; 0x47; 0x49; 0x53; 0x60; 0x00; 0x02]%N,
    7, "REPEAT 8"%string);
   (frame_of [0x45; 0x47; 0x49; 0x53; 0x64; 0x14; 0xec]%N,
    5356, "REPEAT 9 - FINGERPRINT CAPTURE"%string)].

Section Protocol.
Context {D : Type}.

(** The outcome of [response[:4] == bytes([...])] on line 52 depends on the
    type in which the USB library hands the response over (an [array]
    never equals a [bytes] object, a [bytes] object does when the bytes
    agree); the comparison is a parameter. *)
Variable slice_equals : list byte -> list byte -> bool.

Variables (os : Os D) (dev : Usb.Device D).

(** [send_and_receive(dev, cmd, expected_response_size, timeout,
    description)], lines 35-63. *)
Definition send_and_receive (cmd : list byte)
    (expected_response_size timeout : Z) (description : string)
    : M D (option (list byte)) :=
  try_except
    (call_write dev 1 cmd timeout ;;
     let cmd_str := Usb.join_hex cmd in
     print (Usb.Sent description cmd_str) ;;
     try_except
       (response <- call_read dev 130 expected_response_size timeout ;;
        print (Usb.Response (Usb.preview response)) ;;
        (if (Py.len response >=? 4) && slice_equals (firstn 4 response) sige
         then say Valid_SIGE
         else ret tt) ;;
        ret (Some response))
       Usb.is_USBError
       (fun e =>
          (if negb (Usb.contains "timeout" (Usb.lower (Usb.str e)))
           then print (Usb.Read_error (Usb.str e))
           else ret tt) ;;
          ret None))
    (fun _ => true)
    (fun e => print (Usb.Send_error (Usb.str e)) ;; ret None).

(** The body of the loop of lines 127-141. *)
Definition pre_init_step (ip : nat * (list byte * Z * string)) : M D unit :=
  let '(i, (cmd, expected_size, description)) := ip in
  say (Packet_header description (i + 1) 29) ;;
  response <- send_and_receive cmd expected_size 5000 description ;;
  match response with
  | Some data =>
      if (i =? 15)%nat && truthy response
      then
        let quality := Eh575CalibrationProtocol.analyze_capture_quality data in
        say (Pre_init_quality quality) ;;
        if mentions EXCELLENT quality || mentions GOOD quality
        then
          stamp <- now_HMS os ;;
          let filename := ("pre_init_calibration_" ++ stamp ++ ".bin")%string in
          save os filename data ;;
          say (Saved_pre_init filename)
        else ret tt
      else ret tt
  | None => ret tt
  end ;;
  sleep os 0.3.

(** The body of the loop of lines 171-185. *)
Definition post_init_step (ip : nat * (list byte * Z * string)) : M D unit :=
  let '(i, (cmd, expected_size, description)) := ip in
  say (Packet_header description (i + 1) 18) ;;
  response <- send_and_receive cmd expected_size 5000 description ;;
  match response with
  | Some data =>
      if (i =? 17)%nat && truthy response
      then
        let quality := Eh575CalibrationProtocol.analyze_capture_quality data in
        say (Post_init_quality quality) ;;
        if mentions EXCELLENT quality || mentions GOOD quality
        then
          stamp <- now_HMS os ;;
          let filename := ("post_init_image_" ++ stamp ++ ".bin")%string in
          save os filename data ;;
          say (Saved_post_init filename)
        else ret tt
      else ret tt
  | None => ret tt
  end ;;
  sleep os 0.2.

(** [execute_eh575_calibration(dev)], lines 87-189. *)
Definition execute_eh575_calibration : M D bool :=
  say Eh_phase_1 ;;
  say (Rule 60) ;;
  for_each (enumerate pre_init_packets) pre_init_step ;;
  say Pre_init_complete ;;
  say Eh_phase_2 ;;
  say (Rule 60) ;;
  for_each (enumerate post_init_packets) post_init_step ;;
  say Post_init_complete ;;
  ret true.

(** The loop of lines 220-240; the local [successful_captures] is threaded
    through the iterations. *)
Fixpoint repeat_packets_loop (packets : list (nat * (list byte * Z * string)))
    (cycle_count successful_captures : nat) : M D nat :=
  match packets with
  | [] => ret successful_captures
  | (i, (cmd, expected_size, description)) :: rest =>
      response <- send_and_receive cmd expected_size 3000 description ;;
      successful_captures <-
        match response with
        | Some data =>
            if (i =? 8)%nat && truthy response
            then
              let quality :=
                Eh575CalibrationProtocol.analyze_capture_quality data in
              say (Fingerprint_quality quality) ;;
              if mentions EXCELLENT quality || mentions GOOD quality
              then
                let successful_captures := (successful_captures + 1)%nat in
                stamp <- now_HMS os ;;
                let filename :=
                  ("fingerprint_cycle_" ++ Usb.decimal cycle_count ++ "_"
                   ++ stamp ++ ".bin")%string in
                save os filename data ;;
                say (Success_saved filename) ;;
                ret successful_captures
              else if mentions FAIR quality
              then
                stamp <- now_HMS os ;;
                let filename :=
                  ("fingerprint_fair_" ++ Usb.decimal cycle_count ++ "_"
                   ++ stamp ++ ".bin")%string in
                save os filename data ;;
                say (Fair_saved filename) ;;
                ret successful_captures
              else ret successful_captures
            else ret successful_captures
        | None => ret successful_captures
        end ;;
      sleep os 0.1 ;;
      repeat_packets_loop rest cycle_count successful_captures
  end.

(** The loop of lines 215-242, [while cycle_count < 10], unrolled at most
    [fuel] times; it returns the two counters. *)
Fixpoint cycles_loop (fuel cycle_count successful_captures : nat)
    : M D (nat * nat) :=
  match fuel with
  | O => ret (cycle_count, successful_captures)
  | S fuel' =>
      if (cycle_count <? 10)%nat
      then
        let cycle_count := (cycle_count + 1)%nat in
        say (Capture_cycle cycle_count) ;;
        successful_captures <-
          repeat_packets_loop (enumerate repeat_packets) cycle_count
            successful_captures ;;
        sleep os 1 ;;
        cycles_loop fuel' cycle_count successful_captures
      else ret (cycle_count, successful_captures)
  end.

(** [execute_repeat_cycle(dev)], lines 191-248.  Ten rounds of the loop
    are enough for its condition to fail.  The handler for
    [KeyboardInterrupt] is outside this model. *)
Definition execute_repeat_cycle : M D bool :=
  say Eh_phase_3 ;;
  say (Rule 60) ;;
  say Place_finger ;;
  counts <- cycles_loop 10 0 0 ;;
  say (Results (snd counts) (fst counts)) ;;
  ret (0 <? snd counts)%nat.

End Protocol.

End Eh575Protocol.

(** ** What a computation of a caller may be observed to do *)

Module Effects.
Import Host.

(** [m] never raises. *)
Definition total {D A} (m : M D A) : Prop :=
  forall w, exists a w', m w = (Usb.Return a, w').

(** When [m] returns, it has written exactly [frames], in order. *)
Definition sends {D A} (m : M D A) (frames : list (Z * list byte * Z)) : Prop :=
  forall w a w',
    m w = (Usb.Return a, w') ->
    writes_in (journal w') = writes_in (journal w) ++ frames.

(** Every file in the journal satisfies [P], before and after [m],
    whether [m] returns or raises. *)
Definition keeps {D A} (P : string * list byte -> Prop) (m : M D A) : Prop :=
  forall w,
    Forall P (saves_in (journal w)) ->
    Forall P (saves_in (journal (snd (m w)))).

(** [m] saves no file, whether it returns or raises. *)
Definition saves_nothing {D A} (m : M D A) : Prop :=
  forall w, saves_in (journal (snd (m w))) = saves_in (journal w).

(** The quality score of the capture held by a saved file, as the platform
    computes it. *)
Definition score_of {D} (os : Os D) (fd : string * list byte) : float :=
  fst (analyze_capture_quality os (snd fd)).

(** The loop invariant of [test_parameter_variations]: the scores saved so
    far are increasing and positive, and the best score is the last of
    them, or 0 when there is none. *)
Definition best_so_far (best_score : float) (scores : list float) : Prop :=
  StronglySorted Binary64.lt scores
  /\ Forall (Binary64.lt 0) scores
  /\ ((scores = [] /\ best_score = 0%float)
      \/ exists earlier, scores = earlier ++ [best_score]).

(** The invariant of [run_adaptive_calibration]: the best score exceeds 10
    exactly when something has been saved, a best score without a variant
    name is 0, and the best score is never a NaN. *)
Definition best_matches_saved
    (best : float * option string * option (list byte))
    (saved : list (string * list byte)) : Prop :=
  (Binary64.gt (fst (fst best)) 10 = true <-> saved <> [])
  /\ (snd (fst best) = None -> fst (fst best) = 0%float)
  /\ Binary64.is_number (fst (fst best)) = true.


(** What holds of every file in the journal of
    [capture_fingerprint_sequence]: it was there before ([old]), or it
    holds more than 100 bytes and, when it is a file of the monitoring
    phase, more than 20% of them are non-zero. *)
Definition capture_file_ok (old : list (string * list byte))
    (fd : string * list byte) : Prop :=
  In fd old
  \/ ((100 < List.length (snd fd))%nat
      /\ (String.prefix "fingerprint_monitor_" (fst fd) = true ->
          Z.of_nat (List.length (snd fd))
          < 5 * Z.of_nat (List.length (filter Py.nonzero (snd fd))))).

(** What [test_calibration_variant] does with the response of its capture
    exchange: lines 109-120. *)
Definition after_capture {D} (os : Os D) (variant_name : string)
    (response : option (list byte)) : M D (float * option (list byte)) :=
  match response with
  | Some (b :: rest) =>
      let data := b :: rest in
      let (score, quality) := analyze_capture_quality os data in
      bind (say (Quality quality)) (fun _ =>
      bind (if Binary64.gt score 10
            then
              bind (now_HMS os) (fun stamp =>
              let filename :=
                (replace_spaces (Usb.lower variant_name) ++ "_"
                 ++ stamp ++ ".bin")%string in
              bind (save os filename data) (fun _ =>
              say (Saved_to filename)))
            else ret tt) (fun _ =>
      ret (score, Some data)))
  | _ => ret (0%float, None)
  end.

(** The files of successful cycles among the saved ones, and their number
    in the journal of a world. *)
Definition cycle_files (saved : list (string * list byte))
    : list (string * list byte) :=
  filter (fun fd => String.prefix "fingerprint_cycle_" (fst fd)) saved.

Definition successes {D} (w : world D) : nat :=
  List.length (cycle_files (saves_in (journal w))).

(** When [m] returns having started with the counter at [n], the counter
    it returns has grown by the number of files of successful cycles that
    [m] saved. *)
Definition tallies {D A} (count : A -> nat) (m : M D A) (n : nat) : Prop :=
  forall w a w',
    m w = (Usb.Return a, w') ->
    (successes w' + n = successes w + count a)%nat.

(** The line that only the probe of eh575_calibration_protocol.py prints,
    after the lines of the other probes. *)
Definition sige_line {D} (slice_equals : list byte -> list byte -> bool)
    (response : option (list byte)) : M D unit :=
  match response with
  | Some data =>
      if (Py.len data >=? 4) && slice_equals (firstn 4 data) Eh575Protocol.sige
      then say Valid_SIGE
      else ret tt
  | None => ret tt
  end.

(** The status of the capture held by a saved file, for the classifier of
    eh575_calibration_protocol.py. *)
Definition eh575_status_of (fd : string * list byte) : option status :=
  eh575_status (Eh575CalibrationProtocol.analyze_capture_quality (snd fd)).

(** What holds of every file in the journal of
    [execute_eh575_calibration]: it was there before ([old]), or its capture
    is EXCELLENT or GOOD. *)
Definition calibration_file_ok (old : list (string * list byte))
    (fd : string * list byte) : Prop :=
  In fd old
  \/ eh575_status_of fd = Some EXCELLENT
  \/ eh575_status_of fd = Some GOOD.

(** What holds of every file in the journal of [execute_repeat_cycle]: it
    was there before ([old]), or its name starts with "fingerprint_cycle_"
    and its capture is EXCELLENT or GOOD, or its name starts with
    "fingerprint_fair_" and its capture is FAIR. *)
Definition cycle_file_ok (old : list (string * list byte))
    (fd : string * list byte) : Prop :=
  In fd old
  \/ (String.prefix "fingerprint_cycle_" (fst fd) = true
      /\ (eh575_status_of fd = Some EXCELLENT
          \/ eh575_status_of fd = Some GOOD))
  \/ (String.prefix "fingerprint_fair_" (fst fd) = true
      /\ eh575_status_of fd = Some FAIR).

End Effects.

(** ** An operating system and a device for the examples *)

Module HostStub.

(** Nothing fails, the clock always reads 12:00:00, squares are rounded
    correctly and sums are added in order. *)
Definition os_over (D : Type) : Host.Os D :=
  Host.mk_os D (fun _ d => d) (fun _ => "120000"%string)
    (fun _ _ d => (Usb.Return tt, d))
    (fun d => (Usb.Return EmptyString, d))
    Binary64.square Binary64.sum_in_order.

Definition os : Host.Os unit := os_over unit.

(** A device that answers every read with the 256 byte values in order. *)
Definition imaging : Usb.Device unit :=
  Usb.mk_device unit
    (fun _ data _ d => (Usb.Return (Py.len data), d))
    (fun _ _ _ d => (Usb.Return Py.all_bytes, d)).

Definition fresh : Host.world unit := Host.mk_world tt [].

(** The calling functions run on that device from an empty journal. *)
Definition parameter_run : Usb.completion bool * Host.world unit :=
  AdaptiveVariant.test_parameter_variations os imaging fresh.

Definition calibration_run
    : Usb.completion (bool * option string) * Host.world unit :=
  AdaptiveVariant.run_adaptive_calibration os imaging fresh.

(** A capture of 102 bytes whose score is 10 in exact arithmetic and
    10.000000000000002 in binary64, and a device that answers every read
    with it. *)
Definition faint : list byte :=
  Host.frame_of (repeat 0 17 ++ repeat 64 51 ++ repeat 96 34)%N.

Definition faint_device : Usb.Device unit :=
  Usb.mk_device unit
    (fun _ data _ d => (Usb.Return (Py.len data), d))
    (fun _ _ _ d => (Usb.Return faint, d)).

Definition faint_variant_run
    : Usb.completion (float * option (list byte)) * Host.world unit :=
  AdaptiveVariant.test_calibration_variant os faint_device "EH576 Original"
    [frame] frame 6000 fresh.

Definition faint_calibration_run
    : Usb.completion (bool * option string) * Host.world unit :=
  AdaptiveVariant.run_adaptive_calibration os faint_device fresh.

(** A capture of 100 bytes whose score is 15 in exact arithmetic; in
    binary64 it scores 15.000000000000005, and 14.999999999999996 when
    its bytes are reversed.  The device counts its reads and answers the
    first four with the reversed capture, the later ones with the
    capture. *)
Definition rising : list byte :=
  Host.frame_of (repeat 0 68 ++ repeat 94 14 ++ repeat 158 18)%N.

Definition rising_device : Usb.Device nat :=
  Usb.mk_device nat
    (fun _ data _ reads => (Usb.Return (Py.len data), reads))
    (fun _ _ _ reads =>
       (Usb.Return (if (reads <? 4)%nat then rev rising else rising), S reads)).

Definition rising_run : Usb.completion bool * Host.world nat :=
  AdaptiveVariant.test_parameter_variations (os_over nat) rising_device
    (Host.mk_world 0%nat []).

(** The comparison of line 52 of eh575_calibration_protocol.py for a
    response handed over as an [array]: never equal. *)
Definition array_equals (slice header : list byte) : bool := false.

Definition eh575_calibration_run : Usb.completion bool * Host.world unit :=
  Eh575Protocol.execute_eh575_calibration array_equals os imaging fresh.

Definition repeat_cycle_run : Usb.completion bool * Host.world unit :=
  Eh575Protocol.execute_repeat_cycle array_equals os imaging fresh.

End HostStub.

(** * Properties *)

(** ** Helper lemmas on Python's list operations *)

Section ListFacts.

Lemma fold_add_ones (A : Type) (l : list A) (acc : Z) :
  fold_left Z.add (map (fun _ => 1) l) acc = acc + Z.of_nat (List.length l).
Proof.
  revert acc; induction l as [|x l IH]; intros acc.
  - simpl. lia.
  - cbn [map fold_left List.length]. rewrite IH. lia.
Qed.

Lemma sum_ones (A : Type) (l : list A) :
  Py.sum (map (fun _ => 1) l) = Z.of_nat (List.length l).
Proof. unfold Py.sum. rewrite fold_add_ones. lia. Qed.

Lemma int_of_zero (b : byte) : Py.int_of b = 0 <-> b = "000"%byte.
Proof.
  unfold Py.int_of. split.
  - intros H. assert (Hn : Byte.to_N b = Byte.to_N "000"%byte) by (cbn; lia).
    pose proof (Byte.of_to_N b) as Hb. rewrite Hn in Hb. cbn in Hb. congruence.
  - intros ->. reflexivity.
Qed.

Lemma nonzero_false (b : byte) : Py.nonzero b = false <-> b = "000"%byte.
Proof.
  unfold Py.nonzero. rewrite negb_false_iff, Z.eqb_eq. apply int_of_zero.
Qed.

(** No non-zero byte is counted exactly when every byte is zero. *)
Lemma filter_nonzero_nil (data : list byte) :
  filter Py.nonzero data = [] <-> Forall (fun b => b = "000"%byte) data.
Proof.
  induction data as [|b data IH]; cbn [filter].
  - split; auto.
  - destruct (Py.nonzero b) eqn:E.
    + split; [discriminate|].
      intros H. inversion H as [|? ? Hb Hr].
      apply nonzero_false in Hb. congruence.
    + apply nonzero_false in E. rewrite IH. split.
      * intros H. constructor; assumption.
      * intros H. now inversion H.
Qed.

Lemma in_all_bytes (b : byte) : In b Py.all_bytes.
Proof.
  unfold Py.all_bytes. apply in_map_iff.
  exists (N.to_nat (Byte.to_N b)). split.
  - rewrite N2Nat.id, Byte.of_to_N. reflexivity.
  - apply in_seq. pose proof (Byte.to_N_bounded b). lia.
Qed.

Lemma len_set_bounds (data : list byte) : 0 <= Py.len_set data <= 256.
Proof.
  unfold Py.len_set, Py.len. split; [lia|].
  assert (H : (List.length (nodup Byte.byte_eq_dec data) <= List.length Py.all_bytes)%nat).
  { apply NoDup_incl_length; [apply NoDup_nodup|].
    intros b _. apply in_all_bytes. }
  unfold Py.all_bytes in H. rewrite length_map, length_seq in H. lia.
Qed.

Lemma nodup_all_zero (data : list byte) :
  Forall (fun b => b = "000"%byte) data -> data <> [] ->
  nodup Byte.byte_eq_dec data = ["000"%byte].
Proof.
  induction data as [|b data IH]; intros H Hne; [congruence|].
  inversion H as [|? ? Hb Hrest]; subst. cbn [nodup].
  destruct data as [|c data].
  - reflexivity.
  - destruct (in_dec Byte.byte_eq_dec "000"%byte (c :: data)) as [_|Hn].
    + apply IH; [assumption|discriminate].
    + exfalso. apply Hn. inversion Hrest; subst. now left.
Qed.

Lemma filter_length_le (A : Type) (f : A -> bool) (l : list A) :
  (List.length (filter f l) <= List.length l)%nat.
Proof.
  induction l as [|x l IH]; cbn [filter List.length]; [lia|].
  destruct (f x); cbn [List.length]; lia.
Qed.

End ListFacts.

(** ** Helper lemmas on the quotients *)

Section RatioFacts.

Lemma truediv_nonneg (x y : Z) : 0 <= x -> 0 < y -> (0 <= Py.truediv x y)%Q.
Proof.
  intros Hx Hy. unfold Py.truediv. apply Qle_shift_div_l.
  - change 0%Q with (inject_Z 0). rewrite <- Zlt_Qlt. exact Hy.
  - rewrite Qmult_0_l. change 0%Q with (inject_Z 0). rewrite <- Zle_Qle. exact Hx.
Qed.

Lemma truediv_le_1 (x y : Z) : x <= y -> 0 < y -> (Py.truediv x y <= 1)%Q.
Proof.
  intros Hx Hy. unfold Py.truediv. apply Qle_shift_div_r.
  - change 0%Q with (inject_Z 0). rewrite <- Zlt_Qlt. exact Hy.
  - rewrite Qmult_1_l. rewrite <- Zle_Qle. exact Hx.
Qed.

Lemma truediv_zero_iff (x y : Z) : 0 < y -> (Py.truediv x y == 0)%Q <-> x = 0.
Proof.
  intros Hy. unfold Py.truediv. split.
  - intros H.
    assert (Hy' : ~ (inject_Z y == 0)%Q).
    { change 0%Q with (inject_Z 0). rewrite inject_Z_injective. lia. }
    assert (Hx : (inject_Z x == 0)%Q).
    { rewrite <- (Qmult_div_r (inject_Z x) (inject_Z y) Hy'), H. apply Qmult_0_r. }
    unfold Qeq in Hx. simpl in Hx. lia.
  - intros ->. unfold Qdiv. apply Qmult_0_l.
Qed.

Lemma gt_false_of_zero (p bound : Q) :
  (p == 0)%Q -> (0 <= bound)%Q -> Py.gt p bound = false.
Proof.
  intros Hp Hb. unfold Py.gt. apply negb_false_iff, Qle_bool_iff.
  rewrite Hp. exact Hb.
Qed.

End RatioFacts.

(** ** The classifier *)

Section Classifier.
Import AdaptiveCalibration.

Lemma no_data_iff (data : list byte) :
  no_data data = true <-> (List.length data < 100)%nat.
Proof.
  unfold no_data, Py.len. destruct data as [|b data].
  - cbn. split; [lia|reflexivity].
  - rewrite orb_false_l, Z.ltb_lt. lia.
Qed.

Lemma eh575_no_data_iff (data : list byte) :
  Eh575CalibrationProtocol.no_data data = true <-> (List.length data < 100)%nat.
Proof. exact (no_data_iff data). Qed.

Lemma analyze_short (data : list byte) :
  (List.length data < 100)%nat -> analyze data = None.
Proof. intros H. unfold analyze. apply no_data_iff in H. now rewrite H. Qed.

(** Past the guard every local variable has the value its defining
    expression gives it. *)
Lemma analyze_long (data : list byte) :
  (100 <= List.length data)%nat ->
  exists a, analyze data = Some a
    /\ non_zero_bytes a = Z.of_nat (List.length (filter Py.nonzero data))
    /\ total_bytes a = Z.of_nat (List.length data)
    /\ percentage a = (Py.truediv (non_zero_bytes a) (total_bytes a) * 100)%Q
    /\ unique_values a = Py.len_set data
    /\ entropy a = Py.truediv (unique_values a) 256
    /\ quality_score a = (percentage a * entropy a * (variance a / 100))%Q
    /\ verdict a = status_of (percentage a) (entropy a).
Proof.
  intros H. unfold analyze.
  destruct (no_data data) eqn:E.
  - apply no_data_iff in E. lia.
  - eexists. split; [reflexivity|]. cbn.
    rewrite sum_ones. repeat split; reflexivity.
Qed.

Lemma analyze_None_iff (data : list byte) :
  (List.length data < 100)%nat <-> analyze data = None.
Proof.
  split; [apply analyze_short|].
  intros H. destruct (Nat.lt_ge_cases (List.length data) 100) as [Hl|Hl]; [exact Hl|].
  destruct (analyze_long data Hl) as (a & Ha & _). congruence.
Qed.

Lemma ratio_of_analysis (data : list byte) (a : analysis) :
  analyze data = Some a ->
  (100 <= List.length data)%nat
  /\ non_zero_bytes a = Z.of_nat (List.length (filter Py.nonzero data))
  /\ total_bytes a = Z.of_nat (List.length data).
Proof.
  intros Ha.
  destruct (Nat.lt_ge_cases (List.length data) 100) as [Hl|Hl].
  - rewrite (analyze_short data Hl) in Ha. discriminate.
  - destruct (analyze_long data Hl) as (a' & Ha' & Hnz & Htot & _).
    assert (a' = a) by congruence. subst a'. auto.
Qed.

End Classifier.

(** C9.  A buffer shorter than 100 bytes, whatever it holds, makes both
    variants of [analyze_capture_quality] return the sentinel (score 0 and
    ["No data"]) before any ratio, distinct-value count or status is
    computed; the computation is reached exactly by the buffers of 100
    bytes or more. *)
Theorem C9_short_buffer_sentinel (data : list byte) :
  ((List.length data < 100)%nat <-> AdaptiveCalibration.analyze data = None)
  /\ ((List.length data < 100)%nat <->
      AdaptiveCalibration.analyze_capture_quality data
      = (0%Q, AdaptiveCalibration.No_data))
  /\ ((List.length data < 100)%nat <->
      Eh575CalibrationProtocol.analyze_capture_quality data
      = Eh575CalibrationProtocol.No_data).
Proof.
  split; [apply analyze_None_iff|]. split.
  - unfold AdaptiveCalibration.analyze_capture_quality. split.
    + intros H. now rewrite (analyze_short data H).
    + intros H. apply analyze_None_iff.
      destruct (AdaptiveCalibration.analyze data); [discriminate|reflexivity].
  - unfold Eh575CalibrationProtocol.analyze_capture_quality.
    rewrite <- eh575_no_data_iff.
    destruct (Eh575CalibrationProtocol.no_data data); split;
      intros H; try reflexivity; discriminate.
Qed.

(** A short buffer full of non-zero data gets the same sentinel as the
    empty buffer. *)
Example short_nonzero_buffer :
  AdaptiveCalibration.analyze_capture_quality (repeat "255"%byte 99)
  = AdaptiveCalibration.analyze_capture_quality [].
Proof. vm_compute. reflexivity. Qed.

(** C7.  Whenever the classifier computes its figures (the buffer has at
    least 100 bytes) the non-zero ratio lies in [0,1] and the
    distinct-value count in [0,256]; otherwise it returns the sentinel
    with score 0. *)
Theorem C7_ratio_and_count_ranges (data : list byte) :
  match AdaptiveCalibration.analyze data with
  | Some a =>
      (0 <= AdaptiveCalibration.non_zero_ratio a)%Q
      /\ (AdaptiveCalibration.non_zero_ratio a <= 1)%Q
      /\ 0 <= AdaptiveCalibration.unique_values a <= 256
  | None =>
      (List.length data < 100)%nat
      /\ AdaptiveCalibration.analyze_capture_quality data
         = (0%Q, AdaptiveCalibration.No_data)
  end.
Proof.
  destruct (Nat.lt_ge_cases (List.length data) 100) as [Hl|Hl].
  - pose proof (C9_aux := analyze_short data Hl).
    unfold AdaptiveCalibration.analyze_capture_quality. rewrite C9_aux. auto.
  - destruct (analyze_long data Hl) as (a & Ha & Hnz & Htot & _ & Hu & _).
    rewrite Ha. unfold AdaptiveCalibration.non_zero_ratio.
    rewrite Hnz, Htot, Hu.
    pose proof (filter_length_le _ Py.nonzero data).
    repeat split.
    + apply truediv_nonneg; lia.
    + apply truediv_le_1; lia.
    + apply len_set_bounds.
    + apply len_set_bounds.
Qed.

(** C6, as the code has it.  For a buffer of at least 100 bytes the
    non-zero ratio is 0 exactly when every byte is zero; for a shorter
    buffer, the empty one included, no ratio is computed and the sentinel
    is returned. *)
Theorem C6_ratio_zero_iff_all_zero (data : list byte) :
  match AdaptiveCalibration.analyze data with
  | Some a =>
      (100 <= List.length data)%nat
      /\ ((AdaptiveCalibration.non_zero_ratio a == 0)%Q
          <-> Forall (fun b => b = "000"%byte) data)
  | None =>
      (List.length data < 100)%nat
      /\ AdaptiveCalibration.analyze_capture_quality data
         = (0%Q, AdaptiveCalibration.No_data)
  end.
Proof.
  destruct (AdaptiveCalibration.analyze data) as [a|] eqn:Ha.
  - destruct (ratio_of_analysis data a Ha) as (Hl & Hnz & Htot).
    split; [exact Hl|].
    unfold AdaptiveCalibration.non_zero_ratio.
    rewrite truediv_zero_iff by lia.
    rewrite Hnz, <- filter_nonzero_nil.
    destruct (filter Py.nonzero data); cbn [List.length]; split;
      intros; try reflexivity; try discriminate; lia.
  - split; [now apply analyze_None_iff|].
    unfold AdaptiveCalibration.analyze_capture_quality. now rewrite Ha.
Qed.

(** C6, as the specification states it, fails: the one-byte buffer [01]
    and the empty buffer get the very same result, so no reading of a
    ratio off the result is 0 for exactly the empty and all-zero buffers. *)
Lemma C6_counterexample :
  ~ (exists ratio_of : Q * AdaptiveCalibration.message -> Q,
       forall b : list byte,
         (ratio_of (AdaptiveCalibration.analyze_capture_quality b) == 0)%Q
         <-> (b = [] \/ Forall (fun x => x = "000"%byte) b)).
Proof.
  intros [ratio_of H].
  pose proof (proj2 (H []) (or_introl eq_refl)) as H0.
  apply (H ["001"%byte]) in H0.
  destruct H0 as [H0|H0]; [discriminate|].
  inversion H0; discriminate.
Qed.

Lemma status_of_zero_percentage (p e : Q) :
  (p == 0)%Q -> AdaptiveCalibration.status_of p e = POOR.
Proof.
  intros Hp. unfold AdaptiveCalibration.status_of.
  rewrite !(gt_false_of_zero p) by (assumption || discriminate).
  reflexivity.
Qed.

Lemma all_zero_zeros100 : Forall (fun b => b = "000"%byte) zeros100.
Proof. apply Forall_forall. intros b Hb. now apply repeat_spec in Hb. Qed.

(** C1, as the code has it.  An empty or all-zero buffer gets score 0 and
    one of the two lowest verdicts: below 100 bytes (the empty buffer
    included) the sentinel ["No data"], with no ratio, count or status
    computed; from 100 bytes on the status POOR, with non-zero ratio 0 and
    one distinct value. *)
Theorem C1_all_zero_buffers (data : list byte) :
  Forall (fun b => b = "000"%byte) data ->
  (fst (AdaptiveCalibration.analyze_capture_quality data) == 0)%Q
  /\ match AdaptiveCalibration.analyze data with
     | None =>
         (List.length data < 100)%nat
         /\ snd (AdaptiveCalibration.analyze_capture_quality data)
            = AdaptiveCalibration.No_data
     | Some a =>
         (100 <= List.length data)%nat
         /\ (AdaptiveCalibration.non_zero_ratio a == 0)%Q
         /\ AdaptiveCalibration.unique_values a = 1
         /\ adaptive_status (snd (AdaptiveCalibration.analyze_capture_quality data))
            = Some POOR
     end.
Proof.
  intros Hz.
  destruct (Nat.lt_ge_cases (List.length data) 100) as [Hl|Hl].
  - unfold AdaptiveCalibration.analyze_capture_quality.
    rewrite (analyze_short data Hl). cbn [fst snd].
    split; [reflexivity|]. split; [exact Hl|reflexivity].
  - destruct (analyze_long data Hl)
      as (a & Ha & Hnz & Htot & Hp & Hu & He & Hq & Hv).
    assert (Hnz0 : AdaptiveCalibration.non_zero_bytes a = 0).
    { rewrite Hnz. apply filter_nonzero_nil in Hz. now rewrite Hz. }
    assert (Hr : (AdaptiveCalibration.non_zero_ratio a == 0)%Q).
    { unfold AdaptiveCalibration.non_zero_ratio.
      apply truediv_zero_iff; [lia|exact Hnz0]. }
    assert (Hp0 : (AdaptiveCalibration.percentage a == 0)%Q).
    { rewrite Hp. fold (AdaptiveCalibration.non_zero_ratio a). rewrite Hr.
      apply Qmult_0_l. }
    unfold AdaptiveCalibration.analyze_capture_quality. rewrite Ha. cbn [fst snd].
    split.
    + rewrite Hq, Hp0. rewrite !Qmult_0_l. reflexivity.
    + split; [exact Hl|]. split; [exact Hr|]. split.
      * rewrite Hu. unfold Py.len_set.
        rewrite nodup_all_zero; [reflexivity|exact Hz|].
        destruct data; [cbn in Hl; lia|discriminate].
      * cbn. rewrite Hv. now rewrite status_of_zero_percentage.
Qed.

Lemma C1_all_zero_buffers_witness :
  (fst (AdaptiveCalibration.analyze_capture_quality zeros100) == 0)%Q
  /\ match AdaptiveCalibration.analyze zeros100 with
     | None =>
         (List.length zeros100 < 100)%nat
         /\ snd (AdaptiveCalibration.analyze_capture_quality zeros100)
            = AdaptiveCalibration.No_data
     | Some a =>
         (100 <= List.length zeros100)%nat
         /\ (AdaptiveCalibration.non_zero_ratio a == 0)%Q
         /\ AdaptiveCalibration.unique_values a = 1
         /\ adaptive_status (snd (AdaptiveCalibration.analyze_capture_quality zeros100))
            = Some POOR
     end.
Proof. exact (C1_all_zero_buffers zeros100 all_zero_zeros100). Defined.

(** C1, as the specification states it, fails: the buffer of 100 zero
    bytes is given the status POOR, not the lowest verdict, which the
    empty buffer gets. *)
Lemma C1_counterexample :
  Spec.tier_of_status
    (adaptive_status (snd (AdaptiveCalibration.analyze_capture_quality zeros100)))
  <> Spec.EMPTY
  /\ Spec.tier_of_status
       (adaptive_status (snd (AdaptiveCalibration.analyze_capture_quality zeros100)))
     <> Spec.tier_of_status
          (adaptive_status (snd (AdaptiveCalibration.analyze_capture_quality []))).
Proof. split; vm_compute; discriminate. Qed.

(** C3.  On the 100-byte buffer [1,2,3,4]*25 the non-zero ratio is 1 (the
    percentage is 100), four distinct values are counted, and the status
    is POOR in adaptive_calibration.py and FAIR in
    eh575_calibration_protocol.py: both above the ["No data"] verdict. *)
Theorem C3_pattern_buffer :
  (exists a,
     AdaptiveCalibration.analyze pattern1234 = Some a
     /\ (AdaptiveCalibration.non_zero_ratio a == 1)%Q
     /\ (AdaptiveCalibration.percentage a == 100)%Q
     /\ AdaptiveCalibration.unique_values a = 4
     /\ AdaptiveCalibration.verdict a = POOR)
  /\ adaptive_status (snd (AdaptiveCalibration.analyze_capture_quality pattern1234))
     = Some POOR
  /\ (Spec.rank Spec.EMPTY
      < Spec.rank (Spec.tier_of_status (adaptive_status
          (snd (AdaptiveCalibration.analyze_capture_quality pattern1234)))))%nat
  /\ (exists p e,
        Eh575CalibrationProtocol.analyze_capture_quality pattern1234
        = Eh575CalibrationProtocol.Report FAIR p e
        /\ (p == 100)%Q /\ (e == 4 # 256)%Q)
  /\ (Spec.rank Spec.EMPTY
      < Spec.rank (Spec.tier_of_status (eh575_status
          (Eh575CalibrationProtocol.analyze_capture_quality pattern1234))))%nat.
Proof.
  split.
  { eexists. split; [vm_compute; reflexivity|].
    repeat split; vm_compute; reflexivity. }
  split; [vm_compute; reflexivity|].
  split; [vm_compute; lia|].
  split.
  { eexists. eexists. split; [vm_compute; reflexivity|].
    split; vm_compute; reflexivity. }
  vm_compute; lia.
Qed.

(** ** The probe *)

Section Probe.
Import Usb.
Context {D : Type}.
Variables (dev : Device D) (cmd : list byte) (size timeout : Z).
Variable (description : string) (w : world D).

Let run := AdaptiveProbe.send_and_receive dev cmd size timeout description w.

(** The two scripts differ in the label of the first printed line only. *)
Lemma capture_fingerprint_probe :
  CaptureFingerprint.send_and_receive dev cmd size timeout
  = AdaptiveProbe.send_and_receive dev cmd size timeout "Sent".
Proof. reflexivity. Qed.

Lemma probe_write_raises (e : exception) (d1 : D) :
  write dev 1 cmd timeout (dev_state w) = (Raise e, d1) ->
  run = (Return None,
         mk_world d1 (trace w ++ [Call_write 1 cmd timeout;
                                  Print (Send_error (str e))])).
Proof.
  intros Hw. unfold run, AdaptiveProbe.send_and_receive, try_except, bind,
    call_write, print, ret, emit.
  rewrite Hw. cbn. now rewrite <- app_assoc.
Qed.

Lemma probe_read_returns (n : Z) (d1 d2 : D) (response : list byte) :
  write dev 1 cmd timeout (dev_state w) = (Return n, d1) ->
  read dev 130 size timeout d1 = (Return response, d2) ->
  run = (Return (Some response),
         mk_world d2 (trace w ++ [Call_write 1 cmd timeout;
                                  Print (Sent description (join_hex cmd));
                                  Call_read 130 size timeout;
                                  Print (Response (preview response))])).
Proof.
  intros Hw Hr. unfold run, AdaptiveProbe.send_and_receive, try_except, bind,
    call_write, call_read, print, ret, emit.
  rewrite Hw. cbn. rewrite Hr. cbn. now rewrite <- !app_assoc.
Qed.

Lemma probe_read_usb_error (n : Z) (d1 d2 : D) (text : string) :
  write dev 1 cmd timeout (dev_state w) = (Return n, d1) ->
  read dev 130 size timeout d1 = (Raise (USBError text), d2) ->
  run = (Return None,
         mk_world d2 (trace w ++ [Call_write 1 cmd timeout;
                                  Print (Sent description (join_hex cmd));
                                  Call_read 130 size timeout]
                              ++ (if contains "timeout" (lower text) then []
                                  else [Print (Read_error text)]))).
Proof.
  intros Hw Hr. unfold run, AdaptiveProbe.send_and_receive, try_except, bind,
    call_write, call_read, print, ret, emit.
  rewrite Hw. cbn. rewrite Hr. cbn.
  destruct (contains "timeout" (lower text)); cbn;
    now rewrite <- !app_assoc, ?app_nil_r.
Qed.

Lemma probe_read_other_exception (n : Z) (d1 d2 : D) (text : string) :
  write dev 1 cmd timeout (dev_state w) = (Return n, d1) ->
  read dev 130 size timeout d1 = (Raise (Exception text), d2) ->
  run = (Return None,
         mk_world d2 (trace w ++ [Call_write 1 cmd timeout;
                                  Print (Sent description (join_hex cmd));
                                  Call_read 130 size timeout;
                                  Print (Send_error text)])).
Proof.
  intros Hw Hr. unfold run, AdaptiveProbe.send_and_receive, try_except, bind,
    call_write, call_read, print, ret, emit.
  rewrite Hw. cbn. rewrite Hr. cbn. now rewrite <- !app_assoc.
Qed.

End Probe.

(** C4, as the code has it.  When the transport write raises,
    [send_and_receive] prints ["Send error"] with the exception's text and
    returns [None]; the only transport call made is the write, so the
    response endpoint is never read. *)
Theorem C4_write_failure_returns_none (D : Type) (dev : Usb.Device D)
    (cmd : list byte) (size timeout : Z) (w : Usb.world D)
    (e : Usb.exception) (d1 : D) :
  Usb.write dev 1 cmd timeout (Usb.dev_state w) = (Usb.Raise e, d1) ->
  CaptureFingerprint.send_and_receive dev cmd size timeout w
  = (Usb.Return None,
     Usb.mk_world d1 (Usb.trace w ++ [Usb.Call_write 1 cmd timeout;
                                      Usb.Print (Usb.Send_error (Usb.str e))])).
Proof.
  intros Hw. rewrite capture_fingerprint_probe.
  now apply probe_write_raises.
Qed.

Lemma C4_write_failure_returns_none_witness :
  CaptureFingerprint.send_and_receive Stub.write_fails frame 64 2000 Stub.fresh
  = (Usb.Return None,
     Usb.mk_world tt
       [Usb.Call_write 1 frame 2000;
        Usb.Print (Usb.Send_error "[Errno 19] No such device")]).
Proof.
  exact (C4_write_failure_returns_none unit Stub.write_fails frame 64 2000
           Stub.fresh (Usb.USBError "[Errno 19] No such device") tt eq_refl).
Defined.

(** C4, as the specification states it, fails: after a failed write the
    value returned is [None], the value a timeout returns, so the returned
    value cannot stand for [Error(SendFailed)] and for [TimedOut] at once. *)
Lemma C4_counterexample :
  fst (CaptureFingerprint.send_and_receive Stub.write_fails frame 64 2000 Stub.fresh)
  = Usb.Return None
  /\ ~ (exists decode : Usb.completion (option (list byte)) -> Spec.Outcome,
          decode (fst (CaptureFingerprint.send_and_receive
                         Stub.write_fails frame 64 2000 Stub.fresh))
          = Spec.Error Spec.SendFailed
          /\ decode (fst (CaptureFingerprint.send_and_receive
                            Stub.silent frame 64 2000 Stub.fresh))
             = Spec.TimedOut).
Proof.
  split; [reflexivity|].
  intros [decode [H1 H2]]. cbn in H1, H2. congruence.
Qed.



(** The complete behaviour of one exchange, by what the two transfers do. *)
Lemma probe_cases (D : Type) (dev : Usb.Device D)
    (cmd : list byte) (size timeout : Z) (label : string)
    (w : Usb.world D) :
  match Usb.write dev 1 cmd timeout (Usb.dev_state w) with
  | (Usb.Raise e, d1) =>
      AdaptiveProbe.send_and_receive dev cmd size timeout label w
      = (Usb.Return None,
         Usb.mk_world d1 (Usb.trace w ++ [Usb.Call_write 1 cmd timeout;
                                          Usb.Print (Usb.Send_error (Usb.str e))]))
  | (Usb.Return _, d1) =>
      match Usb.read dev 130 size timeout d1 with
      | (Usb.Return response, d2) =>
          AdaptiveProbe.send_and_receive dev cmd size timeout label w
          = (Usb.Return (Some response),
             Usb.mk_world d2
               (Usb.trace w ++ [Usb.Call_write 1 cmd timeout;
                                Usb.Print (Usb.Sent label (Usb.join_hex cmd));
                                Usb.Call_read 130 size timeout;
                                Usb.Print (Usb.Response (Usb.preview response))]))
      | (Usb.Raise (Usb.USBError text), d2) =>
          AdaptiveProbe.send_and_receive dev cmd size timeout label w
          = (Usb.Return None,
             Usb.mk_world d2
               (Usb.trace w ++ [Usb.Call_write 1 cmd timeout;
                                Usb.Print (Usb.Sent label (Usb.join_hex cmd));
                                Usb.Call_read 130 size timeout]
                           ++ (if Usb.contains "timeout" (Usb.lower text) then []
                               else [Usb.Print (Usb.Read_error text)])))
      | (Usb.Raise (Usb.Exception text), d2) =>
          AdaptiveProbe.send_and_receive dev cmd size timeout label w
          = (Usb.Return None,
             Usb.mk_world d2
               (Usb.trace w ++ [Usb.Call_write 1 cmd timeout;
                                Usb.Print (Usb.Sent label (Usb.join_hex cmd));
                                Usb.Call_read 130 size timeout;
                                Usb.Print (Usb.Send_error text)]))
      end
  end.
Proof.
  destruct (Usb.write dev 1 cmd timeout (Usb.dev_state w)) as [[n|e] d1] eqn:Hw.
  - destruct (Usb.read dev 130 size timeout d1) as [[response|[text|text]] d2] eqn:Hr.
    + now apply (probe_read_returns dev cmd size timeout label w n d1 d2).
    + now apply (probe_read_usb_error dev cmd size timeout label w n d1 d2).
    + now apply (probe_read_other_exception dev cmd size timeout label w n d1 d2).
  - now apply probe_write_raises.
Qed.

(** C2, as the code has it.  [send_and_receive] returns the response when
    both transfers succeed and [None] otherwise.  A timeout and every
    other transport error give the same returned value and differ only in
    what is printed: nothing after a read [USBError] whose text contains
    ["timeout"], ["Read error"] after any other read [USBError], and
    ["Send error"] after a failed write or a read exception of another
    class. *)
Theorem C2_errors_become_none (D : Type) (dev : Usb.Device D)
    (cmd : list byte) (size timeout : Z) (label : string)
    (w : Usb.world D) :
  match Usb.write dev 1 cmd timeout (Usb.dev_state w) with
  | (Usb.Raise e, d1) =>
      AdaptiveProbe.send_and_receive dev cmd size timeout label w
      = (Usb.Return None,
         Usb.mk_world d1 (Usb.trace w ++ [Usb.Call_write 1 cmd timeout;
                                          Usb.Print (Usb.Send_error (Usb.str e))]))
  | (Usb.Return _, d1) =>
      match Usb.read dev 130 size timeout d1 with
      | (Usb.Return response, d2) =>
          AdaptiveProbe.send_and_receive dev cmd size timeout label w
          = (Usb.Return (Some response),
             Usb.mk_world d2
               (Usb.trace w ++ [Usb.Call_write 1 cmd timeout;
                                Usb.Print (Usb.Sent label (Usb.join_hex cmd));
                                Usb.Call_read 130 size timeout;
                                Usb.Print (Usb.Response (Usb.preview response))]))
      | (Usb.Raise (Usb.USBError text), d2) =>
          AdaptiveProbe.send_and_receive dev cmd size timeout label w
          = (Usb.Return None,
             Usb.mk_world d2
               (Usb.trace w ++ [Usb.Call_write 1 cmd timeout;
                                Usb.Print (Usb.Sent label (Usb.join_hex cmd));
                                Usb.Call_read 130 size timeout]
                           ++ (if Usb.contains "timeout" (Usb.lower text) then []
                               else [Usb.Print (Usb.Read_error text)])))
      | (Usb.Raise (Usb.Exception text), d2) =>
          AdaptiveProbe.send_and_receive dev cmd size timeout label w
          = (Usb.Return None,
             Usb.mk_world d2
               (Usb.trace w ++ [Usb.Call_write 1 cmd timeout;
                                Usb.Print (Usb.Sent label (Usb.join_hex cmd));
                                Usb.Call_read 130 size timeout;
                                Usb.Print (Usb.Send_error text)]))
      end
  end
  /\ CaptureFingerprint.send_and_receive dev cmd size timeout w
     = AdaptiveProbe.send_and_receive dev cmd size timeout "Sent" w.
Proof.
  split; [apply probe_cases|reflexivity].
Qed.

(** C2, as the specification states it, fails: a read that fails with a
    pipe error is not surfaced; the caller gets [None], exactly what it
    gets after a timeout, in both scripts. *)
Lemma C2_counterexample :
  fst (CaptureFingerprint.send_and_receive Stub.broken_pipe frame 64 2000 Stub.fresh)
  = Usb.Return None
  /\ fst (CaptureFingerprint.send_and_receive Stub.broken_pipe frame 64 2000 Stub.fresh)
     = fst (CaptureFingerprint.send_and_receive Stub.silent frame 64 2000 Stub.fresh)
  /\ fst (AdaptiveProbe.send_and_receive Stub.broken_pipe frame 64 2000 "CAPTURE"
            Stub.fresh)
     = fst (AdaptiveProbe.send_and_receive Stub.silent frame 64 2000 "CAPTURE"
              Stub.fresh)
  /\ ~ (exists decode : Usb.completion (option (list byte)) -> Spec.Outcome,
          decode (fst (CaptureFingerprint.send_and_receive
                         Stub.silent frame 64 2000 Stub.fresh))
          = Spec.TimedOut
          /\ decode (fst (CaptureFingerprint.send_and_receive
                            Stub.broken_pipe frame 64 2000 Stub.fresh))
             = Spec.Error Spec.ReadFailed).
Proof.
  repeat split; try reflexivity.
  intros [decode [H1 H2]]. cbn in H1, H2. congruence.
Qed.

(** C10.  Whatever exception the transport write or read raises, both
    variants of [send_and_receive] complete normally: they return [None]
    when a transfer raised, the response otherwise, and never propagate an
    exception. *)
Theorem C10_probe_never_raises (D : Type) (dev : Usb.Device D)
    (cmd : list byte) (size timeout : Z) (description : string)
    (w : Usb.world D) :
  let capture := CaptureFingerprint.send_and_receive dev cmd size timeout w in
  let adaptive :=
    AdaptiveProbe.send_and_receive dev cmd size timeout description w in
  (forall e, fst capture <> Usb.Raise e)
  /\ (forall e, fst adaptive <> Usb.Raise e)
  /\ match Usb.write dev 1 cmd timeout (Usb.dev_state w) with
     | (Usb.Raise _, _) => fst capture = Usb.Return None /\ fst adaptive = Usb.Return None
     | (Usb.Return _, d1) =>
         match Usb.read dev 130 size timeout d1 with
         | (Usb.Raise _, _) =>
             fst capture = Usb.Return None /\ fst adaptive = Usb.Return None
         | (Usb.Return response, _) =>
             fst capture = Usb.Return (Some response)
             /\ fst adaptive = Usb.Return (Some response)
         end
     end.
Proof.
  cbv zeta. rewrite capture_fingerprint_probe.
  pose proof (probe_cases D dev cmd size timeout "Sent" w) as H1.
  pose proof (probe_cases D dev cmd size timeout description w) as H2.
  destruct (Usb.write dev 1 cmd timeout (Usb.dev_state w)) as [[n|e] d1].
  - destruct (Usb.read dev 130 size timeout d1) as [[response|[text|text]] d2];
      rewrite H1, H2; cbn [fst]; repeat split; discriminate.
  - rewrite H1, H2. cbn [fst]. repeat split; discriminate.
Qed.

(** * Further properties of the classifier *)

(** ** Comparisons as integer facts *)

Section Thresholds.

Lemma gt_iff (x y : Q) : Py.gt x y = true <-> (y < x)%Q.
Proof.
  unfold Py.gt. rewrite negb_true_iff, <- not_true_iff_false, Qle_bool_iff.
  split; [apply Qnot_le_lt|apply Qlt_not_le].
Qed.

Lemma truediv_num_den (n t : Z) :
  0 < t -> Qnum (Py.truediv n t) * t = n * QDen (Py.truediv n t).
Proof.
  intros Ht. unfold Py.truediv, Qdiv, Qmult, Qinv, inject_Z.
  destruct t as [|p|p]; try lia. cbn [Qnum Qden Z.mul].
  rewrite ?Pos.mul_1_l, ?Pos.mul_1_r, ?Z.mul_1_r. lia.
Qed.

(** [percentage > k] for an integer [k], with the percentage of line 68. *)
Lemma gt_percentage (n t k : Z) :
  0 < t ->
  Py.gt (Py.truediv n t * 100) (inject_Z k) = (k * t <? 100 * n).
Proof.
  intros Ht. apply eq_true_iff_eq. rewrite gt_iff, Z.ltb_lt.
  pose proof (truediv_num_den n t Ht) as H.
  unfold Qlt, Qmult, inject_Z. cbn [Qnum Qden].
  set (q := Py.truediv n t) in *.
  rewrite Pos2Z.inj_mul. change (Z.pos 1) with 1.
  assert (Hd : 0 < QDen q) by apply Pos2Z.is_pos.
  nia.
Qed.

(** [entropy > a / b] with the entropy of line 72. *)
Lemma gt_entropy (u a b : Z) :
  0 < b ->
  Py.gt (Py.truediv u 256) (a # Z.to_pos b) = (256 * a <? b * u).
Proof.
  intros Hb. apply eq_true_iff_eq. rewrite gt_iff, Z.ltb_lt.
  pose proof (truediv_num_den u 256 ltac:(lia)) as H.
  unfold Qlt. cbn [Qnum Qden].
  set (q := Py.truediv u 256) in *.
  rewrite Z2Pos.id by lia.
  assert (Hd : 0 < QDen q) by apply Pos2Z.is_pos.
  nia.
Qed.

Lemma ltb_as_leb (a b c d : Z) : (a < b <-> c <= d) -> (a <? b) = (c <=? d).
Proof. intros H. apply eq_true_iff_eq. now rewrite Z.ltb_lt, Z.leb_le. Qed.

Lemma adaptive_status_of_counts (n t u : Z) :
  0 < t ->
  AdaptiveCalibration.status_of (Py.truediv n t * 100) (Py.truediv u 256)
  = if (30 * t <? 100 * n) && (103 <=? u) then EXCELLENT
    else if (15 * t <? 100 * n) && (52 <=? u) then GOOD
    else if (5 * t <? 100 * n) && (26 <=? u) then FAIR
    else POOR.
Proof.
  intros Ht. unfold AdaptiveCalibration.status_of.
  change 30%Q with (inject_Z 30). change 15%Q with (inject_Z 15).
  change 5%Q with (inject_Z 5).
  change 0.4%Q with (4 # Z.to_pos 10). change 0.2%Q with (2 # Z.to_pos 10).
  change 0.1%Q with (1 # Z.to_pos 10).
  rewrite !gt_percentage by exact Ht. rewrite !gt_entropy by lia.
  rewrite (ltb_as_leb (256 * 4) (10 * u) 103 u) by lia.
  rewrite (ltb_as_leb (256 * 2) (10 * u) 52 u) by lia.
  rewrite (ltb_as_leb (256 * 1) (10 * u) 26 u) by lia.
  reflexivity.
Qed.

Lemma eh575_status_of_counts (n t u : Z) :
  0 < t ->
  Eh575CalibrationProtocol.status_of (Py.truediv n t * 100) (Py.truediv u 256)
  = if (50 * t <? 100 * n) && (77 <=? u) then EXCELLENT
    else if (20 * t <? 100 * n) && (26 <=? u) then GOOD
    else if 5 * t <? 100 * n then FAIR
    else POOR.
Proof.
  intros Ht. unfold Eh575CalibrationProtocol.status_of.
  change 50%Q with (inject_Z 50). change 20%Q with (inject_Z 20).
  change 5%Q with (inject_Z 5).
  change 0.3%Q with (3 # Z.to_pos 10). change 0.1%Q with (1 # Z.to_pos 10).
  rewrite !gt_percentage by exact Ht. rewrite !gt_entropy by lia.
  rewrite (ltb_as_leb (256 * 3) (10 * u) 77 u) by lia.
  rewrite (ltb_as_leb (256 * 1) (10 * u) 26 u) by lia.
  reflexivity.
Qed.

End Thresholds.

(** The three integers every figure of the classifier is computed from. *)
Lemma eh575_long (data : list byte) :
  (100 <= List.length data)%nat ->
  Eh575CalibrationProtocol.analyze_capture_quality data
  = Eh575CalibrationProtocol.Report
      (Eh575CalibrationProtocol.status_of
         (Py.truediv (Z.of_nat (List.length (filter Py.nonzero data)))
                     (Z.of_nat (List.length data)) * 100)
         (Py.truediv (Py.len_set data) 256))
      (Py.truediv (Z.of_nat (List.length (filter Py.nonzero data)))
                  (Z.of_nat (List.length data)) * 100)
      (Py.truediv (Py.len_set data) 256).
Proof.
  intros H. unfold Eh575CalibrationProtocol.analyze_capture_quality.
  destruct (Eh575CalibrationProtocol.no_data data) eqn:E.
  - apply eh575_no_data_iff in E. lia.
  - cbv zeta. rewrite sum_ones. reflexivity.
Qed.

Lemma adaptive_long (data : list byte) :
  (100 <= List.length data)%nat ->
  exists a, AdaptiveCalibration.analyze data = Some a
    /\ AdaptiveCalibration.percentage a
       = (Py.truediv (Z.of_nat (List.length (filter Py.nonzero data)))
                     (Z.of_nat (List.length data)) * 100)%Q
    /\ AdaptiveCalibration.entropy a = Py.truediv (Py.len_set data) 256
    /\ AdaptiveCalibration.mean a
       = Py.truediv (Py.sum (map Py.int_of data)) (Z.of_nat (List.length data))
    /\ AdaptiveCalibration.variance a
       = (Py.fsum (map (fun b => (inject_Z (Py.int_of b)
                                  - AdaptiveCalibration.mean a) ^ 2) data)
          / inject_Z (Z.of_nat (List.length data)))%Q
    /\ AdaptiveCalibration.quality_score a
       = (AdaptiveCalibration.percentage a * AdaptiveCalibration.entropy a
          * (AdaptiveCalibration.variance a / 100))%Q
    /\ AdaptiveCalibration.verdict a
       = AdaptiveCalibration.status_of (AdaptiveCalibration.percentage a)
           (AdaptiveCalibration.entropy a).
Proof.
  intros H. unfold AdaptiveCalibration.analyze.
  destruct (AdaptiveCalibration.no_data data) eqn:E.
  - apply no_data_iff in E. lia.
  - eexists. split; [reflexivity|]. cbn.
    rewrite sum_ones. repeat split; reflexivity.
Qed.

(** ** Sums, counts and permutations *)

Section CountFacts.

Lemma fold_fsum_nonneg (l : list Q) (acc : Q) :
  (0 <= acc)%Q -> Forall (fun x => (0 <= x)%Q) l ->
  (0 <= fold_left Qplus l acc)%Q.
Proof.
  revert acc. induction l as [|x l IH]; intros acc Hacc Hl; cbn [fold_left].
  - exact Hacc.
  - inversion Hl as [|? ? Hx Hrest]; subst. apply IH; [|exact Hrest].
    rewrite <- (Qplus_0_l 0). now apply Qplus_le_compat.
Qed.

Lemma fold_fsum_zero (l : list Q) (acc : Q) :
  Forall (fun x => (x == 0)%Q) l -> (fold_left Qplus l acc == acc)%Q.
Proof.
  revert acc. induction l as [|x l IH]; intros acc Hl; cbn [fold_left].
  - reflexivity.
  - inversion Hl as [|? ? Hx Hrest]; subst. rewrite (IH _ Hrest), Hx.
    apply Qplus_0_r.
Qed.

Lemma fold_sum_shift (l : list Z) (acc : Z) :
  fold_left Z.add l acc = acc + fold_left Z.add l 0.
Proof.
  revert acc. induction l as [|x l IH]; intros acc; cbn [fold_left].
  - lia.
  - rewrite (IH (acc + x)), (IH (0 + x)). lia.
Qed.

Lemma sum_repeat (c : Z) (n : nat) : Py.sum (repeat c n) = Z.of_nat n * c.
Proof.
  unfold Py.sum. induction n as [|n IH]; cbn [repeat fold_left].
  - reflexivity.
  - rewrite fold_sum_shift, IH. lia.
Qed.

Lemma filter_length_perm (A : Type) (f : A -> bool) (l l' : list A) :
  Permutation l l' -> List.length (filter f l) = List.length (filter f l').
Proof.
  induction 1 as [|x l l' _ IH|x y l|l l' l'' _ IH1 _ IH2]; cbn [filter].
  - reflexivity.
  - destruct (f x); cbn [List.length]; congruence.
  - destruct (f x), (f y); reflexivity.
  - congruence.
Qed.

Lemma nodup_length_perm (l l' : list byte) :
  Permutation l l' ->
  List.length (nodup Byte.byte_eq_dec l) = List.length (nodup Byte.byte_eq_dec l').
Proof.
  intros H. apply Nat.le_antisymm; apply NoDup_incl_length;
    try apply NoDup_nodup; intros x Hx; apply nodup_In; apply nodup_In in Hx.
  - now apply (Permutation_in x H).
  - now apply (Permutation_in x (Permutation_sym H)).
Qed.

Lemma nodup_length_le (l : list byte) :
  (List.length (nodup Byte.byte_eq_dec l) <= List.length l)%nat.
Proof.
  apply NoDup_incl_length; [apply NoDup_nodup|].
  intros x Hx. now apply nodup_In in Hx.
Qed.

Lemma nodup_length_pos (l : list byte) :
  l <> [] -> (1 <= List.length (nodup Byte.byte_eq_dec l))%nat.
Proof.
  destruct l as [|b l]; [congruence|]. intros _.
  assert (H : In b (nodup Byte.byte_eq_dec (b :: l))) by (apply nodup_In; now left).
  destruct (nodup Byte.byte_eq_dec (b :: l)); [destruct H|cbn; lia].
Qed.

Lemma nodup_repeat (b : byte) (n : nat) :
  nodup Byte.byte_eq_dec (repeat b (S n)) = [b].
Proof.
  induction n as [|n IH]; [reflexivity|].
  change (repeat b (S (S n))) with (b :: repeat b (S n)). cbn [nodup].
  destruct (in_dec Byte.byte_eq_dec b (repeat b (S n))) as [_|Hn].
  - exact IH.
  - exfalso. apply Hn. now left.
Qed.

Lemma filter_repeat (b : byte) (n : nat) :
  filter Py.nonzero (repeat b n) = if Py.nonzero b then repeat b n else [].
Proof.
  induction n as [|n IH]; cbn [repeat filter].
  - now destruct (Py.nonzero b).
  - rewrite IH. now destruct (Py.nonzero b).
Qed.

Lemma filter_all_iff (A : Type) (f : A -> bool) (l : list A) :
  List.length (filter f l) = List.length l <-> Forall (fun x => f x = true) l.
Proof.
  induction l as [|x l IH]; cbn [filter].
  - split; auto.
  - pose proof (filter_length_le A f l) as Hle.
    destruct (f x) eqn:E; cbn [List.length].
    + split.
      * intros H. constructor; [exact E|]. apply IH. lia.
      * intros H. inversion H; subst. f_equal. now apply IH.
    + split; [lia|]. intros H. inversion H; congruence.
Qed.

Lemma truediv_one_iff (x y : Z) : 0 < y -> (Py.truediv x y == 1)%Q <-> x = y.
Proof.
  intros Hy. pose proof (truediv_num_den x y Hy) as H.
  unfold Qeq. cbn [Qnum Qden]. set (q := Py.truediv x y) in *.
  assert (Hd : 0 < QDen q) by apply Pos2Z.is_pos.
  split; intros E; nia.
Qed.

End CountFacts.

(** ** What the figures and the status depend on *)

(** X1.  The quality score of adaptive_calibration.py is never negative:
    it is 0 for the sentinel and a product of a percentage, an entropy and
    a variance otherwise.  The callers compare it with 10, 15, 20 and with
    a best score that starts at 0. *)
Theorem adaptive_score_nonnegative (data : list byte) :
  (0 <= fst (AdaptiveCalibration.analyze_capture_quality data))%Q.
Proof.
  unfold AdaptiveCalibration.analyze_capture_quality.
  destruct (Nat.lt_ge_cases (List.length data) 100) as [Hl|Hl].
  - rewrite (analyze_short data Hl). cbn [fst]. apply Qle_refl.
  - destruct (adaptive_long data Hl) as (a & Ha & Hp & He & _ & Hv & Hq & _).
    rewrite Ha. cbn [fst]. rewrite Hq.
    assert (Hlen : 0 < Z.of_nat (List.length data)) by lia.
    assert (H0 : (0 <= AdaptiveCalibration.percentage a)%Q).
    { rewrite Hp. apply Qmult_le_0_compat; [|discriminate].
      apply truediv_nonneg; lia. }
    assert (H1 : (0 <= AdaptiveCalibration.entropy a)%Q).
    { rewrite He. apply truediv_nonneg; [apply len_set_bounds|lia]. }
    assert (H2 : (0 <= AdaptiveCalibration.variance a)%Q).
    { rewrite Hv. apply Qle_shift_div_l.
      - change 0%Q with (inject_Z 0). now rewrite <- Zlt_Qlt.
      - rewrite Qmult_0_l. apply fold_fsum_nonneg; [apply Qle_refl|].
        apply Forall_forall. intros x Hx. apply in_map_iff in Hx.
        destruct Hx as (b & <- & _). apply Qsqr_nonneg. }
    apply Qmult_le_0_compat; [apply Qmult_le_0_compat; assumption|].
    unfold Qdiv. apply Qmult_le_0_compat; [assumption|discriminate].
Qed.

(** X2.  In adaptive_calibration.py the status of a buffer of at least 100
    bytes is decided by three integers: the number [n] of non-zero bytes,
    the length [t] and the number [u] of distinct values.  EXCELLENT needs
    more than 30% non-zero bytes and at least 103 distinct values, GOOD
    more than 15% and at least 52, FAIR more than 5% and at least 26. *)
Theorem adaptive_status_by_counts (data : list byte) :
  (100 <= List.length data)%nat ->
  let n := Z.of_nat (List.length (filter Py.nonzero data)) in
  let t := Z.of_nat (List.length data) in
  let u := Py.len_set data in
  adaptive_status (snd (AdaptiveCalibration.analyze_capture_quality data))
  = Some (if (30 * t <? 100 * n) && (103 <=? u) then EXCELLENT
          else if (15 * t <? 100 * n) && (52 <=? u) then GOOD
          else if (5 * t <? 100 * n) && (26 <=? u) then FAIR
          else POOR).
Proof.
  intros Hl n t u.
  destruct (adaptive_long data Hl) as (a & Ha & Hp & He & _ & _ & _ & Hs).
  unfold AdaptiveCalibration.analyze_capture_quality. rewrite Ha.
  cbn [snd adaptive_status]. rewrite Hs, Hp, He.
  f_equal. apply adaptive_status_of_counts. lia.
Qed.

Lemma pattern1234_long : (100 <= List.length pattern1234)%nat.
Proof. apply Nat.leb_le. reflexivity. Qed.

Lemma adaptive_status_by_counts_witness :
  adaptive_status (snd (AdaptiveCalibration.analyze_capture_quality pattern1234))
  = Some POOR.
Proof. exact (adaptive_status_by_counts pattern1234 pattern1234_long). Defined.

(** X3.  In eh575_calibration_protocol.py the status of a buffer of at
    least 100 bytes is decided by the same three integers with other
    cut points: EXCELLENT needs more than 50% non-zero bytes and at least
    77 distinct values, GOOD more than 20% and at least 26, and FAIR more
    than 5% whatever the number of distinct values. *)
Theorem eh575_status_by_counts (data : list byte) :
  (100 <= List.length data)%nat ->
  let n := Z.of_nat (List.length (filter Py.nonzero data)) in
  let t := Z.of_nat (List.length data) in
  let u := Py.len_set data in
  eh575_status (Eh575CalibrationProtocol.analyze_capture_quality data)
  = Some (if (50 * t <? 100 * n) && (77 <=? u) then EXCELLENT
          else if (20 * t <? 100 * n) && (26 <=? u) then GOOD
          else if 5 * t <? 100 * n then FAIR
          else POOR).
Proof.
  intros Hl n t u. rewrite (eh575_long data Hl). cbn [eh575_status].
  f_equal. apply eh575_status_of_counts. lia.
Qed.

Lemma eh575_status_by_counts_witness :
  eh575_status (Eh575CalibrationProtocol.analyze_capture_quality pattern1234)
  = Some FAIR.
Proof. exact (eh575_status_by_counts pattern1234 pattern1234_long). Defined.

(** X4.  The two variants of the classifier agree on what they measure and
    differ in the cut points only: they return their sentinel on the same
    buffers, report the same percentage and the same entropy, and a buffer
    that eh575_calibration_protocol.py calls POOR is POOR for
    adaptive_calibration.py too. *)
Theorem variants_agree (data : list byte) :
  match AdaptiveCalibration.analyze data,
        Eh575CalibrationProtocol.analyze_capture_quality data with
  | None, Eh575CalibrationProtocol.No_data => (List.length data < 100)%nat
  | Some a, Eh575CalibrationProtocol.Report st p e =>
      (100 <= List.length data)%nat
      /\ p = AdaptiveCalibration.percentage a
      /\ e = AdaptiveCalibration.entropy a
      /\ (st = POOR -> AdaptiveCalibration.verdict a = POOR)
  | _, _ => False
  end.
Proof.
  destruct (Nat.lt_ge_cases (List.length data) 100) as [Hl|Hl].
  - rewrite (analyze_short data Hl).
    unfold Eh575CalibrationProtocol.analyze_capture_quality.
    apply eh575_no_data_iff in Hl as Hn. rewrite Hn. exact Hl.
  - destruct (adaptive_long data Hl) as (a & Ha & Hp & He & _ & _ & _ & Hs).
    rewrite Ha, (eh575_long data Hl), Hp, He.
    repeat split; try assumption.
    rewrite Hs, Hp, He.
    rewrite adaptive_status_of_counts, eh575_status_of_counts by lia.
    destruct (5 * Z.of_nat (List.length data)
              <? 100 * Z.of_nat (List.length (filter Py.nonzero data))) eqn:E5.
    + destruct (_ && _); [discriminate|]. destruct (_ && _); discriminate.
    + intros _.
      assert (H30 : (30 * Z.of_nat (List.length data)
                     <? 100 * Z.of_nat (List.length (filter Py.nonzero data))) = false)
        by (apply Z.ltb_ge; apply Z.ltb_ge in E5; lia).
      assert (H15 : (15 * Z.of_nat (List.length data)
                     <? 100 * Z.of_nat (List.length (filter Py.nonzero data))) = false)
        by (apply Z.ltb_ge; apply Z.ltb_ge in E5; lia).
      now rewrite H30, H15.
Qed.

(** X5.  The order of the bytes does not matter for what is reported as
    percentage, entropy and status: two buffers that are permutations of
    each other get the same result from eh575_calibration_protocol.py and
    the same percentage, entropy and status from adaptive_calibration.py.
    (The variance and the score are sums of floats taken in buffer order
    and are left out.) *)
Theorem status_ignores_byte_order (data data' : list byte) :
  Permutation data data' ->
  Eh575CalibrationProtocol.analyze_capture_quality data
  = Eh575CalibrationProtocol.analyze_capture_quality data'
  /\ option_map AdaptiveCalibration.percentage (AdaptiveCalibration.analyze data)
     = option_map AdaptiveCalibration.percentage (AdaptiveCalibration.analyze data')
  /\ option_map AdaptiveCalibration.entropy (AdaptiveCalibration.analyze data)
     = option_map AdaptiveCalibration.entropy (AdaptiveCalibration.analyze data')
  /\ adaptive_status (snd (AdaptiveCalibration.analyze_capture_quality data))
     = adaptive_status (snd (AdaptiveCalibration.analyze_capture_quality data')).
Proof.
  intros HP.
  pose proof (Permutation_length HP) as Hlen.
  pose proof (filter_length_perm byte Py.nonzero data data' HP) as Hnz.
  assert (Hu : Py.len_set data = Py.len_set data').
  { unfold Py.len_set, Py.len. now rewrite (nodup_length_perm data data' HP). }
  destruct (Nat.lt_ge_cases (List.length data) 100) as [Hl|Hl].
  - assert (Hl' : (List.length data' < 100)%nat) by lia.
    unfold AdaptiveCalibration.analyze_capture_quality,
      Eh575CalibrationProtocol.analyze_capture_quality.
    rewrite (analyze_short data Hl), (analyze_short data' Hl').
    apply eh575_no_data_iff in Hl. apply eh575_no_data_iff in Hl'.
    rewrite Hl, Hl'. repeat split; reflexivity.
  - assert (Hl' : (100 <= List.length data')%nat) by lia.
    destruct (adaptive_long data Hl) as (a & Ha & Hp & He & _ & _ & _ & Hs).
    destruct (adaptive_long data' Hl') as (a' & Ha' & Hp' & He' & _ & _ & _ & Hs').
    assert (Epct : AdaptiveCalibration.percentage a = AdaptiveCalibration.percentage a')
      by (rewrite Hp, Hp', Hnz, Hlen; reflexivity).
    assert (Eent : AdaptiveCalibration.entropy a = AdaptiveCalibration.entropy a')
      by (rewrite He, He', Hu; reflexivity).
    rewrite (eh575_long data Hl), (eh575_long data' Hl'), Hnz, Hlen, Hu.
    unfold AdaptiveCalibration.analyze_capture_quality. rewrite Ha, Ha'.
    cbn [option_map snd adaptive_status].
    rewrite Hs, Hs', Epct, Eent. repeat split; reflexivity.
Qed.

Lemma status_ignores_byte_order_witness :
  Eh575CalibrationProtocol.analyze_capture_quality pattern1234
  = Eh575CalibrationProtocol.analyze_capture_quality (rev pattern1234)
  /\ option_map AdaptiveCalibration.percentage (AdaptiveCalibration.analyze pattern1234)
     = option_map AdaptiveCalibration.percentage
         (AdaptiveCalibration.analyze (rev pattern1234))
  /\ option_map AdaptiveCalibration.entropy (AdaptiveCalibration.analyze pattern1234)
     = option_map AdaptiveCalibration.entropy
         (AdaptiveCalibration.analyze (rev pattern1234))
  /\ adaptive_status (snd (AdaptiveCalibration.analyze_capture_quality pattern1234))
     = adaptive_status
         (snd (AdaptiveCalibration.analyze_capture_quality (rev pattern1234))).
Proof.
  exact (status_ignores_byte_order pattern1234 (rev pattern1234)
           (Permutation_rev pattern1234)).
Defined.

(** X6.  Whenever the figures are computed, the count of distinct values
    is at least 1 and at most the length of the buffer (and at most 256),
    so the entropy is positive and at most 1, and the percentage of
    non-zero bytes lies between 0 and 100. *)
Theorem figures_in_range (data : list byte) :
  match AdaptiveCalibration.analyze data with
  | Some a =>
      1 <= AdaptiveCalibration.unique_values a
      /\ AdaptiveCalibration.unique_values a <= AdaptiveCalibration.total_bytes a
      /\ AdaptiveCalibration.unique_values a <= 256
      /\ (0 < AdaptiveCalibration.entropy a)%Q
      /\ (AdaptiveCalibration.entropy a <= 1)%Q
      /\ (0 <= AdaptiveCalibration.percentage a)%Q
      /\ (AdaptiveCalibration.percentage a <= 100)%Q
  | None => (List.length data < 100)%nat
  end.
Proof.
  destruct (Nat.lt_ge_cases (List.length data) 100) as [Hl|Hl].
  - now rewrite (analyze_short data Hl).
  - destruct (analyze_long data Hl) as (a & Ha & Hnz & Htot & Hp & Hu & He & _).
    rewrite Ha.
    assert (Hne : data <> []) by (destruct data; [cbn in Hl; lia|discriminate]).
    pose proof (nodup_length_pos data Hne) as H1.
    pose proof (nodup_length_le data) as H2.
    pose proof (len_set_bounds data) as H3.
    pose proof (filter_length_le _ Py.nonzero data) as H4.
    assert (U1 : 1 <= AdaptiveCalibration.unique_values a)
      by (rewrite Hu; unfold Py.len_set, Py.len; lia).
    assert (U2 : AdaptiveCalibration.unique_values a
                 <= AdaptiveCalibration.total_bytes a)
      by (rewrite Hu, Htot; unfold Py.len_set, Py.len; lia).
    assert (U3 : AdaptiveCalibration.unique_values a <= 256) by (rewrite Hu; lia).
    repeat split; try assumption.
    + rewrite He. unfold Py.truediv. apply Qlt_shift_div_l; [reflexivity|].
      rewrite Qmult_0_l. change 0%Q with (inject_Z 0). rewrite <- Zlt_Qlt. lia.
    + rewrite He. apply truediv_le_1; lia.
    + rewrite Hp. apply Qmult_le_0_compat; [|discriminate].
      apply truediv_nonneg; lia.
    + rewrite Hp. rewrite <- (Qmult_1_l 100) at 2.
      apply Qmult_le_compat_r; [|discriminate]. apply truediv_le_1; lia.
Qed.

(** X7.  For a buffer of at least 100 bytes the non-zero ratio is 1 (the
    percentage is 100) exactly when the buffer holds no zero byte. *)
Theorem ratio_one_iff_no_zero_byte (data : list byte) :
  match AdaptiveCalibration.analyze data with
  | Some a =>
      ((AdaptiveCalibration.non_zero_ratio a == 1)%Q
       <-> Forall (fun b => b <> "000"%byte) data)
      /\ ((AdaptiveCalibration.percentage a == 100)%Q
          <-> Forall (fun b => b <> "000"%byte) data)
  | None => (List.length data < 100)%nat
  end.
Proof.
  destruct (Nat.lt_ge_cases (List.length data) 100) as [Hl|Hl].
  - now rewrite (analyze_short data Hl).
  - destruct (analyze_long data Hl) as (a & Ha & Hnz & Htot & Hp & _).
    rewrite Ha.
    assert (Hall : AdaptiveCalibration.non_zero_bytes a
                   = AdaptiveCalibration.total_bytes a
                   <-> Forall (fun b => b <> "000"%byte) data).
    { rewrite Hnz, Htot, Nat2Z.inj_iff, filter_all_iff.
      rewrite !Forall_forall. split; intros H b Hb; specialize (H b Hb).
      - intros ->. discriminate H.
      - destruct (Py.nonzero b) eqn:E; [reflexivity|].
        apply nonzero_false in E. contradiction. }
    assert (Hr : (AdaptiveCalibration.non_zero_ratio a == 1)%Q
                 <-> Forall (fun b => b <> "000"%byte) data).
    { unfold AdaptiveCalibration.non_zero_ratio.
      rewrite truediv_one_iff by lia. exact Hall. }
    split; [exact Hr|]. rewrite <- Hr, Hp.
    fold (AdaptiveCalibration.non_zero_ratio a).
    split; intros E.
    + apply (Qmult_inj_r _ _ 100); [discriminate|]. now rewrite Qmult_1_l.
    + now rewrite E.
Qed.

Lemma truediv_cancel (n c : Z) :
  0 < n -> (Py.truediv (n * c) n == inject_Z c)%Q.
Proof.
  intros Hn. pose proof (truediv_num_den (n * c) n Hn) as H.
  unfold Qeq, inject_Z. cbn [Qnum Qden]. set (q := Py.truediv (n * c) n) in *.
  nia.
Qed.

(** X8.  A buffer of at least 100 copies of one byte value has variance 0,
    so adaptive_calibration.py gives it score 0 and status POOR even when
    the value is not zero, while eh575_calibration_protocol.py calls a
    constant non-zero buffer FAIR. *)
Theorem constant_buffer_scores_zero (b : byte) (n : nat) :
  (100 <= n)%nat ->
  (fst (AdaptiveCalibration.analyze_capture_quality (repeat b n)) == 0)%Q
  /\ adaptive_status (snd (AdaptiveCalibration.analyze_capture_quality (repeat b n)))
     = Some POOR
  /\ eh575_status (Eh575CalibrationProtocol.analyze_capture_quality (repeat b n))
     = Some (if Py.nonzero b then FAIR else POOR).
Proof.
  intros Hn.
  assert (Hlen : List.length (repeat b n) = n) by apply repeat_length.
  assert (Hl : (100 <= List.length (repeat b n))%nat) by lia.
  assert (Hu : Py.len_set (repeat b n) = 1).
  { unfold Py.len_set, Py.len. destruct n as [|m]; [lia|].
    now rewrite nodup_repeat. }
  destruct (adaptive_long _ Hl) as (a & Ha & Hp & He & Hm & Hv & Hq & Hs).
  unfold AdaptiveCalibration.analyze_capture_quality. rewrite Ha.
  cbn [fst snd adaptive_status]. split; [|split].
  - assert (Hmean : (AdaptiveCalibration.mean a == inject_Z (Py.int_of b))%Q).
    { rewrite Hm, map_repeat, sum_repeat, Hlen. apply truediv_cancel. lia. }
    assert (Hvar : (AdaptiveCalibration.variance a == 0)%Q).
    { rewrite Hv. unfold Py.fsum. rewrite fold_fsum_zero.
      - unfold Qdiv. apply Qmult_0_l.
      - apply Forall_forall. intros x Hx. apply in_map_iff in Hx.
        destruct Hx as (c & <- & Hc). apply repeat_spec in Hc. subst c.
        rewrite Hmean. unfold Qminus. rewrite Qplus_opp_r. reflexivity. }
    rewrite Hq, Hvar. unfold Qdiv. rewrite Qmult_0_l. apply Qmult_0_r.
  - rewrite Hs, Hp, He, Hu. rewrite adaptive_status_of_counts by lia.
    rewrite !andb_false_r. reflexivity.
  - rewrite (eh575_long _ Hl). cbn [eh575_status].
    rewrite eh575_status_of_counts by lia. rewrite Hu, !andb_false_r.
    rewrite filter_repeat. f_equal.
    destruct (Py.nonzero b); cbn [List.length]; rewrite ?Hlen.
    + now rewrite (proj2 (Z.ltb_lt _ _)) by lia.
    + now rewrite (proj2 (Z.ltb_ge _ _)) by lia.
Qed.

Lemma constant_buffer_scores_zero_witness :
  (fst (AdaptiveCalibration.analyze_capture_quality (repeat "255"%byte 100)) == 0)%Q
  /\ adaptive_status
       (snd (AdaptiveCalibration.analyze_capture_quality (repeat "255"%byte 100)))
     = Some POOR
  /\ eh575_status
       (Eh575CalibrationProtocol.analyze_capture_quality (repeat "255"%byte 100))
     = Some FAIR.
Proof. exact (constant_buffer_scores_zero "255"%byte 100 (le_n 100)). Defined.

(** * Properties of the probe and of its callers *)

Section JournalFacts.
Import Usb.

Lemma trace_writes_app (t1 t2 : list event) :
  Trace.writes_in (t1 ++ t2) = Trace.writes_in t1 ++ Trace.writes_in t2.
Proof. apply flat_map_app. Qed.

Lemma trace_reads_app (t1 t2 : list event) :
  Trace.reads_in (t1 ++ t2) = Trace.reads_in t1 ++ Trace.reads_in t2.
Proof. apply flat_map_app. Qed.

Lemma host_writes_app (j1 j2 : list Host.action) :
  Host.writes_in (j1 ++ j2) = Host.writes_in j1 ++ Host.writes_in j2.
Proof. apply flat_map_app. Qed.

Lemma host_saves_app (j1 j2 : list Host.action) :
  Host.saves_in (j1 ++ j2) = Host.saves_in j1 ++ Host.saves_in j2.
Proof. apply flat_map_app. Qed.

Lemma host_writes_exchange (t : list event) :
  Host.writes_in (map Host.Exchange t) = Trace.writes_in t.
Proof.
  induction t as [|ev t IH]; [reflexivity|].
  cbn [map]. change (Host.Exchange ev :: map Host.Exchange t)
    with ([Host.Exchange ev] ++ map Host.Exchange t).
  change (ev :: t) with ([ev] ++ t).
  rewrite host_writes_app, trace_writes_app, IH. now destruct ev.
Qed.

Lemma host_saves_exchange (t : list event) :
  Host.saves_in (map Host.Exchange t) = [].
Proof. induction t as [|ev t IH]; [reflexivity|exact IH]. Qed.

(** One exchange, as its caller sees it. *)
Lemma exchange_probe (D : Type) (dev : Device D) (cmd : list byte)
    (size timeout : Z) (label : string) (w : Host.world D) :
  exists (response : option (list byte)) (w' : Host.world D),
    Host.exchange (AdaptiveProbe.send_and_receive dev cmd size timeout label) w
    = (Return response, w')
    /\ Host.writes_in (Host.journal w')
       = Host.writes_in (Host.journal w) ++ [(1, cmd, timeout)]
    /\ Host.saves_in (Host.journal w') = Host.saves_in (Host.journal w).
Proof.
  unfold Host.exchange.
  pose proof (probe_cases D dev cmd size timeout label
                (mk_world (Host.state w) [])) as H.
  cbn [dev_state trace app] in H.
  destruct (write dev 1 cmd timeout (Host.state w)) as [[n|e] d1].
  - destruct (read dev 130 size timeout d1) as [[response|[text|text]] d2];
      rewrite H; eexists; eexists; (split; [reflexivity|]);
      cbn [Host.journal dev_state trace];
      rewrite host_writes_app, host_saves_app, host_writes_exchange,
        host_saves_exchange, app_nil_r; (split; [|reflexivity]);
      f_equal; try reflexivity.
    cbn. now destruct (contains _ _).
  - rewrite H. eexists; eexists. split; [reflexivity|].
    cbn [Host.journal dev_state trace].
    now rewrite host_writes_app, host_saves_app, host_writes_exchange,
      host_saves_exchange, app_nil_r.
Qed.

End JournalFacts.

(** X9.  Whatever the device does, one call of [send_and_receive] (either
    script) writes the frame exactly once, unchanged, to endpoint 0x01 and
    reads at most once, from endpoint 0x82 with the requested size and
    timeout, and only when the write returned; what was logged before the
    call is kept. *)
Theorem probe_writes_once_reads_at_most_once (D : Type) (dev : Usb.Device D)
    (cmd : list byte) (size timeout : Z) (description : string)
    (w : Usb.world D) :
  let after :=
    Usb.trace (snd (AdaptiveProbe.send_and_receive dev cmd size timeout
                      description w)) in
  Trace.writes_in after = Trace.writes_in (Usb.trace w) ++ [(1, cmd, timeout)]
  /\ Trace.reads_in after
     = Trace.reads_in (Usb.trace w)
       ++ match fst (Usb.write dev 1 cmd timeout (Usb.dev_state w)) with
          | Usb.Return _ => [(130, size, timeout)]
          | Usb.Raise _ => []
          end
  /\ (exists events, after = Usb.trace w ++ events)
  /\ Usb.trace (snd (CaptureFingerprint.send_and_receive dev cmd size timeout w))
     = Usb.trace (snd (AdaptiveProbe.send_and_receive dev cmd size timeout
                         "Sent" w)).
Proof.
  cbv zeta. split; [|split; [|split; [|reflexivity]]];
    pose proof (probe_cases D dev cmd size timeout description w) as H;
    destruct (Usb.write dev 1 cmd timeout (Usb.dev_state w)) as [[n|e] d1];
    try (destruct (Usb.read dev 130 size timeout d1) as [[response|[text|text]] d2]);
    rewrite H; cbn [snd fst Usb.trace];
    try (eexists; reflexivity);
    rewrite ?trace_writes_app, ?trace_reads_app; f_equal;
    cbn; try reflexivity; now destruct (Usb.contains _ _).
Qed.

(** ** The order of binary64 *)

Section Binary64Facts.
Import Binary64.

Ltac compare_cases :=
  repeat match goal with
  | |- context [Z.compare ?a ?b] => destruct (Z.compare_spec a b)
  | H : context [Z.compare ?a ?b] |- _ => destruct (Z.compare_spec a b)
  | |- context [Pos.compare_cont Eq ?a ?b] =>
      change (Pos.compare_cont Eq a b) with (Pos.compare a b) in *;
      destruct (Pos.compare_spec a b)
  | H : context [Pos.compare_cont Eq ?a ?b] |- _ =>
      change (Pos.compare_cont Eq a b) with (Pos.compare a b) in *;
      destruct (Pos.compare_spec a b)
  end.

Ltac float_cases :=
  intros; compare_cases; subst; simpl in *;
  try discriminate; try reflexivity; try lia; try congruence.

Lemma SFltb_trans (a b c : spec_float) :
  SFltb a b = true -> SFltb b c = true -> SFltb a c = true.
Proof.
  unfold SFltb, SFcompare.
  destruct a as [[]|[]| |[] ma ea], b as [[]|[]| |[] mb eb],
    c as [[]|[]| |[] mc ec]; float_cases.
Qed.

(** Where [s > b] fails for a number [b], [b] is at least [s]. *)
Lemma SFltb_above (c s b : spec_float) :
  SFltb c s = true -> SFltb b s = false -> SFeqb b b = true ->
  SFltb c b = true.
Proof.
  unfold SFltb, SFeqb, SFcompare.
  destruct c as [[]|[]| |[] mc ec], s as [[]|[]| |[] ms es],
    b as [[]|[]| |[] mb eb]; float_cases.
Qed.

Lemma SFltb_numbers (a b : spec_float) :
  SFltb a b = true -> SFeqb a a = true /\ SFeqb b b = true.
Proof.
  unfold SFltb, SFeqb, SFcompare.
  destruct a as [[]|[]| |[] ma ea], b as [[]|[]| |[] mb eb];
    intros H; try discriminate H; split; float_cases.
Qed.

Lemma lt_trans (a b c : float) : lt a b -> lt b c -> lt a c.
Proof. unfold lt. rewrite !ltb_spec. apply SFltb_trans. Qed.

Lemma gt_lt (a b : float) : gt a b = true <-> lt b a.
Proof. reflexivity. Qed.

Lemma lt_above (c s b : float) :
  lt c s -> gt s b = false -> is_number b = true -> lt c b.
Proof.
  unfold lt, gt, is_number. rewrite !ltb_spec, eqb_spec. apply SFltb_above.
Qed.

Lemma lt_is_number (a b : float) : lt a b -> is_number b = true.
Proof.
  unfold lt, is_number. rewrite ltb_spec, eqb_spec. intros H.
  now apply SFltb_numbers in H.
Qed.

Lemma lt_irrefl (a : float) : ~ lt a a.
Proof.
  unfold lt. rewrite ltb_spec. unfold SFltb, SFcompare.
  destruct (Prim2SF a) as [[]|[]| |[] ma ea]; float_cases.
Qed.

(** In a list sorted by [<], every element is the last one or below it. *)
Lemma sorted_last (earlier : list float) (best x : float) :
  StronglySorted lt (earlier ++ [best]) -> In x (earlier ++ [best]) ->
  x = best \/ lt x best.
Proof.
  induction earlier as [|y earlier IH]; cbn [app]; intros Hs Hin.
  - destruct Hin as [<-|[]]. now left.
  - inversion Hs as [|? ? Hs' Hy]; subst. destruct Hin as [<-|Hin].
    + right. rewrite Forall_forall in Hy. apply Hy, in_or_app. right. now left.
    + now apply IH.
Qed.

Lemma sorted_snoc (scores : list float) (s : float) :
  StronglySorted lt scores -> Forall (fun x => lt x s) scores ->
  StronglySorted lt (scores ++ [s]).
Proof.
  induction 1 as [|x l Hs IH Hx]; intros Hall; cbn [app].
  - repeat constructor.
  - inversion Hall as [|? ? Hxs Hrest]; subst. constructor.
    + now apply IH.
    + apply Forall_app. split; [exact Hx|]. now constructor.
Qed.

End Binary64Facts.

(** The classifier of the callers returns the score 0 on a short buffer. *)
Lemma analyze64_short (D : Type) (os : Host.Os D) (data : list byte) :
  (List.length data < 100)%nat ->
  Host.analyze_capture_quality os data
  = (0%float, AdaptiveCalibration64.No_data).
Proof.
  intros H. unfold Host.analyze_capture_quality,
    AdaptiveCalibration64.analyze_capture_quality.
  apply no_data_iff in H. now rewrite H.
Qed.

(** A capture that scores above 10 has at least 100 bytes. *)
Lemma scored_is_long (D : Type) (os : Host.Os D) (data : list byte) :
  Binary64.gt (fst (Host.analyze_capture_quality os data)) 10 = true ->
  (100 <= List.length data)%nat.
Proof.
  intros G. destruct (Nat.lt_ge_cases (List.length data) 100) as [Hl|Hl];
    [|exact Hl].
  rewrite (analyze64_short D os data Hl) in G. discriminate G.
Qed.

(** ** test_calibration_variant *)

Section Variant.
Import Host.
Context {D : Type}.
Variables (os : Os D) (dev : Usb.Device D).

Lemma bind_return (A B : Type) (m : M D A) (f : A -> M D B)
    (w w' : world D) (a : A) :
  m w = (Usb.Return a, w') -> bind m f w = f a w'.
Proof. intros H. unfold bind. now rewrite H. Qed.

Lemma pre_commands_loop_spec (pre_commands : list (list byte)) (i : nat)
    (w : world D) :
  exists w',
    AdaptiveVariant.pre_commands_loop os dev i pre_commands w = (Usb.Return tt, w')
    /\ writes_in (journal w')
       = writes_in (journal w) ++ map (fun cmd => (1, cmd, 3000)) pre_commands
    /\ saves_in (journal w') = saves_in (journal w).
Proof.
  revert i w. induction pre_commands as [|cmd rest IH]; intros i w.
  - exists w. cbn. now rewrite app_nil_r.
  - cbn [AdaptiveVariant.pre_commands_loop map].
    destruct (exchange_probe D dev cmd 64 3000
                ("Pre-cmd " ++ Usb.decimal (i + 1)) w)
      as (response & w1 & E1 & W1 & S1).
    rewrite (bind_return _ _ _ _ _ _ _ E1).
    unfold sleep at 1. unfold bind at 1.
    set (w2 := mk_world (sleep_for os 0.2 (state w1)) (journal w1 ++ [Sleep 0.2])).
    destruct (IH (S i) w2) as (w' & E & W & S).
    exists w'. split; [exact E|]. split.
    + rewrite W. subst w2. cbn [journal].
      rewrite host_writes_app, W1. cbn. rewrite app_nil_r, <- app_assoc.
      reflexivity.
    + rewrite S. subst w2. cbn [journal]. rewrite host_saves_app, S1.
      cbn. now rewrite app_nil_r.
Qed.

(** The run of [test_calibration_variant] up to the capture exchange, that
    exchange, and what is left to do with its response. *)
Lemma test_calibration_variant_capture (variant_name : string)
    (pre_commands : list (list byte)) (capture_command : list byte)
    (capture_size : Z) (w : world D) :
  exists (w3 : world D) (response : option (list byte)) (w4 : world D),
    exchange (AdaptiveProbe.send_and_receive dev capture_command capture_size
                5000 "CAPTURE") w3 = (Usb.Return response, w4)
    /\ writes_in (journal w4)
       = writes_in (journal w) ++ map (fun cmd => (1, cmd, 3000)) pre_commands
         ++ [(1, capture_command, 5000)]
    /\ saves_in (journal w4) = saves_in (journal w)
    /\ AdaptiveVariant.test_calibration_variant os dev variant_name pre_commands
         capture_command capture_size w
       = Effects.after_capture os variant_name response w4.
Proof.
  unfold AdaptiveVariant.test_calibration_variant.
  unfold say at 1 2. unfold bind at 1 2.
  set (w1 := mk_world _ _).
  destruct (pre_commands_loop_spec pre_commands 0 w1) as (w2 & E2 & W2 & S2).
  rewrite (bind_return _ _ _ _ _ _ _ E2).
  unfold say at 1 2. unfold sleep at 1. unfold bind at 1 2 3.
  set (w3 := mk_world _ _).
  destruct (exchange_probe D dev capture_command capture_size 5000 "CAPTURE" w3)
    as (response & w4 & E4 & W4 & S4).
  rewrite (bind_return _ _ _ _ _ _ _ E4).
  exists w3, response, w4. split; [exact E4|]. split; [|split; [|reflexivity]].
  - rewrite W4. subst w3. cbn [journal state].
    rewrite !host_writes_app, W2. subst w1. cbn [journal state].
    rewrite !host_writes_app. cbn. rewrite !app_nil_r, <- !app_assoc.
    reflexivity.
  - rewrite S4. subst w3. cbn [journal state].
    rewrite !host_saves_app, S2. subst w1. cbn [journal state].
    rewrite !host_saves_app. cbn. now rewrite !app_nil_r.
Qed.

Lemma test_calibration_variant_run (variant_name : string)
    (pre_commands : list (list byte)) (capture_command : list byte)
    (capture_size : Z) (w : world D) :
  exists (response : option (list byte)) (w4 : world D),
    writes_in (journal w4)
    = writes_in (journal w) ++ map (fun cmd => (1, cmd, 3000)) pre_commands
      ++ [(1, capture_command, 5000)]
    /\ saves_in (journal w4) = saves_in (journal w)
    /\ AdaptiveVariant.test_calibration_variant os dev variant_name pre_commands
         capture_command capture_size w
       = Effects.after_capture os variant_name response w4.
Proof.
  destruct (test_calibration_variant_capture variant_name pre_commands
              capture_command capture_size w) as (w3 & response & w4 & _ & H).
  now exists response, w4.
Qed.


End Variant.

(** X10.  [test_calibration_variant] writes every pre-command (timeout
    3000) and then the capture command (timeout 5000) to endpoint 0x01, in
    order and exactly once each, whatever the device answers: a failed or
    timed-out exchange does not stop the sequence. *)
Theorem test_variant_writes_every_frame (D : Type) (os : Host.Os D)
    (dev : Usb.Device D) (variant_name : string)
    (pre_commands : list (list byte)) (capture_command : list byte)
    (capture_size : Z) (w : Host.world D) :
  Host.writes_in
    (Host.journal
       (snd (AdaptiveVariant.test_calibration_variant os dev variant_name
               pre_commands capture_command capture_size w)))
  = Host.writes_in (Host.journal w)
    ++ map (fun cmd => (1, cmd, 3000)) pre_commands
    ++ [(1, capture_command, 5000)].
Proof.
  destruct (test_calibration_variant_run os dev variant_name pre_commands
              capture_command capture_size w) as (response & w4 & W & _ & E).
  rewrite E, <- W. clear E W. unfold Effects.after_capture.
  destruct response as [[|b rest]|]; try reflexivity.
  cbv zeta.
  destruct (Host.analyze_capture_quality os (b :: rest)) as [score quality].
  unfold Host.bind at 1. unfold Host.say at 1. unfold Host.bind at 1.
  destruct (Binary64.gt score 10).
  - unfold Host.bind at 1. unfold Host.now_HMS at 1. unfold Host.bind at 1.
    unfold Host.save at 1. cbn [Host.state Host.journal].
    destruct (Host.write_file os _ _ _) as [[[]|e] d]; cbn;
      rewrite !host_writes_app; cbn; now rewrite !app_nil_r.
  - cbn. rewrite host_writes_app. cbn. now rewrite app_nil_r.
Qed.



(** The files one call saves: none, or one whose content scored above 10. *)
Lemma test_variant_saves (D : Type) (os : Host.Os D)
    (dev : Usb.Device D) (variant_name : string)
    (pre_commands : list (list byte)) (capture_command : list byte)
    (capture_size : Z) (w : Host.world D) :
  let saved :=
    Host.saves_in
      (Host.journal
         (snd (AdaptiveVariant.test_calibration_variant os dev variant_name
                 pre_commands capture_command capture_size w))) in
  saved = Host.saves_in (Host.journal w)
  \/ exists filename data,
       saved = Host.saves_in (Host.journal w) ++ [(filename, data)]
       /\ Binary64.gt (fst (Host.analyze_capture_quality os data)) 10 = true.
Proof.
  cbv zeta.
  destruct (test_calibration_variant_run os dev variant_name pre_commands
              capture_command capture_size w) as (response & w4 & _ & S & E).
  rewrite E, <- S. clear E S. unfold Effects.after_capture.
  destruct response as [[|b rest]|]; try (left; reflexivity).
  cbv zeta.
  destruct (Host.analyze_capture_quality os (b :: rest))
    as [score quality] eqn:Q.
  unfold Host.bind, Host.say, Host.now_HMS, Host.save, Host.ret.
  cbn [Host.state Host.journal].
  destruct (Binary64.gt score 10) eqn:G.
  - right. eexists. exists (b :: rest). rewrite Q. cbn [fst]. split; [|exact G].
    destruct (Host.write_file os _ _ _) as [[[]|e] d]; cbn [fst snd Host.journal];
      rewrite !host_saves_app; cbn; now rewrite !app_nil_r.
  - left. cbn [fst snd Host.journal]. rewrite !host_saves_app. cbn.
    now rewrite !app_nil_r.
Qed.

(** X12.  [test_calibration_variant] never saves a capture shorter than
    100 bytes: every file it adds holds a response of at least 100 bytes
    whose quality score, as the platform computes it in binary64, exceeds
    10.  This holds whether the call returns or raises. *)
Theorem test_variant_saves_only_scored_captures (D : Type) (os : Host.Os D)
    (dev : Usb.Device D) (variant_name : string)
    (pre_commands : list (list byte)) (capture_command : list byte)
    (capture_size : Z) (w : Host.world D)
    (filename : string) (data : list byte) :
  In (filename, data)
     (Host.saves_in
        (Host.journal
           (snd (AdaptiveVariant.test_calibration_variant os dev variant_name
                   pre_commands capture_command capture_size w)))) ->
  In (filename, data) (Host.saves_in (Host.journal w))
  \/ ((100 <= List.length data)%nat
      /\ Binary64.lt 10 (fst (Host.analyze_capture_quality os data))).
Proof.
  intros H.
  destruct (test_variant_saves D os dev variant_name pre_commands
              capture_command capture_size w) as [E|(f & d & E & G)];
    rewrite E in H; [now left|].
  apply in_app_or in H. destruct H as [H|[H|[]]]; [now left|right].
  injection H as <- <-. split; [exact (scored_is_long D os d G)|exact G].
Qed.

Lemma test_variant_saves_only_scored_captures_witness :
  In ("eh576_original_120000.bin"%string, HostStub.faint) []
  \/ ((100 <= List.length HostStub.faint)%nat
      /\ Binary64.lt 10
           (fst (Host.analyze_capture_quality HostStub.os HostStub.faint))).
Proof.
  apply (test_variant_saves_only_scored_captures unit HostStub.os
           HostStub.faint_device "EH576 Original" [frame] frame 6000
           HostStub.fresh).
  vm_compute. left. reflexivity.
Defined.

(** ** How the observations compose *)

Section Composition.
Import Host Effects.
Context {D : Type}.
Variables (os : Os D) (dev : Usb.Device D).

Lemma total_ret (A : Type) (a : A) : total (@ret D A a).
Proof. intros w. now exists a, w. Qed.

Lemma total_bind (A B : Type) (m : M D A) (f : A -> M D B) :
  total m -> (forall a, total (f a)) -> total (bind m f).
Proof.
  intros Hm Hf w. destruct (Hm w) as (a & w1 & E).
  unfold bind. rewrite E. apply Hf.
Qed.

Lemma total_say (n : note) : total (@say D n).
Proof. intros w. eexists; eexists; reflexivity. Qed.

Lemma total_sleep (seconds : Q) : total (sleep os seconds).
Proof. intros w. eexists; eexists; reflexivity. Qed.

Lemma total_now : total (now_HMS os).
Proof. intros w. eexists; eexists; reflexivity. Qed.

Lemma total_exchange (cmd : list byte) (size timeout : Z) (label : string) :
  total (exchange (AdaptiveProbe.send_and_receive dev cmd size timeout label)).
Proof.
  intros w. destruct (exchange_probe D dev cmd size timeout label w)
    as (r & w' & E & _). now exists r, w'.
Qed.

Lemma total_for_each (A : Type) (xs : list A) (body : A -> M D unit) :
  (forall x, total (body x)) -> total (for_each xs body).
Proof.
  intros H. induction xs as [|x xs IH]; cbn [for_each].
  - apply total_ret.
  - apply total_bind; [apply H|intros _; exact IH].
Qed.

Lemma sends_ret (A : Type) (a : A) : sends (@ret D A a) [].
Proof. intros w b w' E. injection E as _ <-. now rewrite app_nil_r. Qed.

Lemma sends_bind (A B : Type) (m : M D A) (f : A -> M D B)
    (F1 F2 : list (Z * list byte * Z)) :
  sends m F1 -> (forall a, sends (f a) F2) -> sends (bind m f) (F1 ++ F2).
Proof.
  intros Hm Hf w b w' E. unfold bind in E.
  destruct (m w) as [[a|e] w1] eqn:E1; [|discriminate].
  rewrite (Hf a _ _ _ E), (Hm _ _ _ E1). now rewrite app_assoc.
Qed.

Lemma sends_say (n : note) : sends (@say D n) [].
Proof.
  intros w a w' E. injection E as _ <-. cbn [journal].
  rewrite host_writes_app. reflexivity.
Qed.

Lemma sends_sleep (seconds : Q) : sends (sleep os seconds) [].
Proof.
  intros w a w' E. injection E as _ <-. cbn [journal].
  rewrite host_writes_app. reflexivity.
Qed.

Lemma sends_now : sends (now_HMS os) [].
Proof. intros w a w' E. injection E as _ <-. now rewrite app_nil_r. Qed.

Lemma sends_input : sends (input os) [].
Proof.
  intros w a w' E. unfold input in E.
  destruct (input_line os (state w)) as [r d]. injection E as _ <-.
  cbn [journal]. rewrite host_writes_app. reflexivity.
Qed.

Lemma sends_save (filename : string) (data : list byte) :
  sends (save os filename data) [].
Proof.
  intros w a w' E. unfold save in E.
  destruct (write_file os filename data (state w)) as [r d]. injection E as _ <-.
  cbn [journal]. rewrite host_writes_app. reflexivity.
Qed.

Lemma sends_exchange (cmd : list byte) (size timeout : Z) (label : string) :
  sends (exchange (AdaptiveProbe.send_and_receive dev cmd size timeout label))
        [(1, cmd, timeout)].
Proof.
  intros w a w' E.
  destruct (exchange_probe D dev cmd size timeout label w)
    as (r & w1 & E1 & W & _).
  rewrite E1 in E. injection E as _ <-. exact W.
Qed.

Lemma sends_for_each (A : Type) (xs : list A) (body : A -> M D unit)
    (F : A -> list (Z * list byte * Z)) :
  (forall x, sends (body x) (F x)) -> sends (for_each xs body) (flat_map F xs).
Proof.
  intros H. induction xs as [|x xs IH]; cbn [for_each flat_map].
  - apply sends_ret.
  - apply sends_bind; [apply H|intros _; exact IH].
Qed.

Lemma sends_eq (A : Type) (m : M D A) (F F' : list (Z * list byte * Z)) :
  F = F' -> sends m F -> sends m F'.
Proof. now intros ->. Qed.

Section Keeps.
Variable P : string * list byte -> Prop.

Lemma keeps_ret (A : Type) (a : A) : keeps P (@ret D A a).
Proof. intros w H. exact H. Qed.

Lemma keeps_bind (A B : Type) (m : M D A) (f : A -> M D B) :
  keeps P m -> (forall a, keeps P (f a)) -> keeps P (bind m f).
Proof.
  intros Hm Hf w H. unfold bind. specialize (Hm w H).
  destruct (m w) as [[a|e] w1]; cbn [snd] in *.
  - now apply Hf.
  - exact Hm.
Qed.

Lemma keeps_say (n : note) : keeps P (@say D n).
Proof.
  intros w H. cbn [say snd journal]. rewrite host_saves_app. cbn.
  now rewrite app_nil_r.
Qed.

Lemma keeps_sleep (seconds : Q) : keeps P (sleep os seconds).
Proof.
  intros w H. cbn [sleep snd journal]. rewrite host_saves_app. cbn.
  now rewrite app_nil_r.
Qed.

Lemma keeps_now : keeps P (now_HMS os).
Proof. intros w H. exact H. Qed.

Lemma keeps_input : keeps P (input os).
Proof.
  intros w H. unfold input. destruct (input_line os (state w)) as [r d].
  cbn [snd journal]. rewrite host_saves_app. cbn. now rewrite app_nil_r.
Qed.

Lemma keeps_save (filename : string) (data : list byte) :
  P (filename, data) -> keeps P (save os filename data).
Proof.
  intros Hp w H. unfold save.
  destruct (write_file os filename data (state w)) as [r d].
  cbn [snd journal]. rewrite host_saves_app. apply Forall_app. split; [exact H|].
  cbn. now constructor.
Qed.

Lemma keeps_exchange (cmd : list byte) (size timeout : Z) (label : string) :
  keeps P (exchange (AdaptiveProbe.send_and_receive dev cmd size timeout label)).
Proof.
  intros w H.
  destruct (exchange_probe D dev cmd size timeout label w)
    as (r & w1 & E1 & _ & S).
  rewrite E1. cbn [snd]. now rewrite S.
Qed.

Lemma keeps_for_each (A : Type) (xs : list A) (body : A -> M D unit) :
  (forall x, keeps P (body x)) -> keeps P (for_each xs body).
Proof.
  intros H. induction xs as [|x xs IH]; cbn [for_each].
  - apply keeps_ret.
  - apply keeps_bind; [apply H|intros _; exact IH].
Qed.

End Keeps.

End Composition.

Section CompositionTactics.
Import Host Effects.
Context {D : Type}.

Lemma sends_bind_quiet (A B : Type) (m : M D A) (f : A -> M D B)
    (F : list (Z * list byte * Z)) :
  sends m [] -> (forall a, sends (f a) F) -> sends (bind m f) F.
Proof. intros Hm Hf. exact (sends_bind A B m f [] F Hm Hf). Qed.

Lemma sends_if (A : Type) (c : bool) (m1 m2 : M D A)
    (F : list (Z * list byte * Z)) :
  sends m1 F -> sends m2 F -> sends (if c then m1 else m2) F.
Proof. now destruct c. Qed.

Lemma total_if (A : Type) (c : bool) (m1 m2 : M D A) :
  total m1 -> total m2 -> total (if c then m1 else m2).
Proof. now destruct c. Qed.

Lemma total_save (os : Os D) (filename : string) (data : list byte) :
  (forall f d s, exists s', write_file os f d s = (Usb.Return tt, s')) ->
  total (save os filename data).
Proof.
  intros H w. unfold save. destruct (H filename data (state w)) as (s' & E).
  rewrite E. eexists; eexists; reflexivity.
Qed.

Lemma total_input (os : Os D) :
  (forall s, exists line s', input_line os s = (Usb.Return line, s')) ->
  total (input os).
Proof.
  intros H w. unfold input. destruct (H (state w)) as (line & s' & E).
  rewrite E. eexists; eexists; reflexivity.
Qed.

End CompositionTactics.

Ltac quiet_step os dev :=
  first
    [ apply sends_ret | apply sends_say | apply (sends_sleep os)
    | apply (sends_now os) | apply (sends_save os) | apply (sends_input os)
    | apply sends_if
    | apply sends_bind_quiet; [|intros ?] ].

Ltac total_step os dev :=
  first
    [ apply total_ret | apply total_say | apply (total_sleep os)
    | apply (total_now os) | apply (total_exchange dev)
    | apply total_if
    | apply total_bind; [|intros ?] ].

Ltac keeps_step os dev :=
  first
    [ apply keeps_ret | apply keeps_say | apply (keeps_sleep os)
    | apply (keeps_now os) | apply (keeps_input os) | apply (keeps_exchange dev)
    | apply keeps_bind; [|intros ?] ].

(** ** capture_fingerprint_sequence *)

Section CaptureSequenceFacts.
Import Host Effects.
Context {D : Type}.
Variables (os : Os D) (dev : Usb.Device D).

Lemma sends_capture_attempt (attempt : nat) :
  sends (CaptureSequence.capture_attempt os dev attempt)
        [(1, CaptureSequence.image_command, 5000)].
Proof.
  unfold CaptureSequence.capture_attempt.
  apply sends_bind_quiet; [apply sends_say|intros _].
  apply (sends_bind _ _ _ _ [(1, CaptureSequence.image_command, 5000)] []).
  - apply (sends_exchange dev).
  - intros response. destruct response as [data|]; repeat quiet_step os dev.
Qed.

Lemma sends_monitor_step (i : nat) :
  sends (CaptureSequence.monitor_step os dev i)
        [(1, CaptureSequence.image_command, 2000)].
Proof.
  unfold CaptureSequence.monitor_step.
  apply sends_bind_quiet; [apply sends_say|intros _].
  apply (sends_bind _ _ _ _ [(1, CaptureSequence.image_command, 2000)] []).
  - apply (sends_exchange dev).
  - intros response. destruct response as [data|]; repeat quiet_step os dev.
Qed.

Lemma sends_init_step (ic : nat * list byte) :
  sends (bind (say (Init_command (fst ic + 1))) (fun _ =>
         bind (exchange (CaptureFingerprint.send_and_receive dev (snd ic) 64 2000))
              (fun _ => sleep os 0.2)))
        [(1, snd ic, 2000)].
Proof.
  apply sends_bind_quiet; [apply sends_say|intros _].
  apply (sends_bind _ _ _ _ [(1, snd ic, 2000)] []).
  - apply (sends_exchange dev).
  - intros _. apply sends_sleep.
Qed.

Lemma sends_capture_sequence :
  sends (CaptureSequence.capture_fingerprint_sequence os dev)
        (map (fun cmd => (1, cmd, 2000)) CaptureSequence.init_commands
         ++ repeat (1, CaptureSequence.image_command, 5000) 3
         ++ repeat (1, CaptureSequence.image_command, 2000) 10).
Proof.
  unfold CaptureSequence.capture_fingerprint_sequence.
  do 3 (apply sends_bind_quiet; [apply sends_say|intros _]).
  apply sends_bind.
  { eapply sends_eq; [|apply sends_for_each; intros ic; apply sends_init_step].
    reflexivity. }
  intros _.
  do 3 (apply sends_bind_quiet; [apply sends_say|intros _]).
  apply sends_bind_quiet; [apply sends_input|intros _].
  apply sends_bind.
  { eapply sends_eq; [|apply sends_for_each; intros a; apply sends_capture_attempt].
    reflexivity. }
  intros _.
  do 2 (apply sends_bind_quiet; [apply sends_say|intros _]).
  eapply sends_eq; [|apply sends_for_each; intros a; apply sends_monitor_step].
  reflexivity.
Qed.

Lemma total_capture_sequence :
  (forall s, exists line s', input_line os s = (Usb.Return line, s')) ->
  (forall f d s, exists s', write_file os f d s = (Usb.Return tt, s')) ->
  total (CaptureSequence.capture_fingerprint_sequence os dev).
Proof.
  intros Hin Hw.
  unfold CaptureSequence.capture_fingerprint_sequence,
    CaptureSequence.capture_attempt, CaptureSequence.monitor_step.
  repeat first
    [ apply total_for_each; intros ?
    | apply (total_input os Hin)
    | apply (total_save os _ _ Hw)
    | match goal with |- total (match ?r with _ => _ end) => destruct r end
    | total_step os dev ].
Qed.

End CaptureSequenceFacts.

Section CaptureSequenceSaves.
Import Host Effects.
Context {D : Type}.
Variables (os : Os D) (dev : Usb.Device D).
Variable old : list (string * list byte).

Let saved_ok := capture_file_ok old.

Lemma long_response (response : option (list byte)) (data : list byte) :
  truthy response && (Py.len data >? 100) = true -> (100 < List.length data)%nat.
Proof.
  intros H. apply andb_prop in H. destruct H as [_ H].
  unfold Py.len in H. apply Z.gtb_lt in H. lia.
Qed.

Lemma above_fifth (data : list byte) :
  Py.gt (inject_Z (CaptureSequence.non_zero_count data))
        (inject_Z (Py.len data) * 0.2) = true ->
  Z.of_nat (List.length data)
  < 5 * Z.of_nat (List.length (filter Py.nonzero data)).
Proof.
  intros H. apply gt_iff in H. unfold CaptureSequence.non_zero_count in H.
  rewrite sum_ones in H. unfold Py.len in H.
  unfold Qlt, Qmult, inject_Z in H. cbn [Qnum Qden] in H.
  change (Qnum 0.2) with 2 in H. change (QDen 0.2) with 10 in H.
  change (Z.pos (1 * Qden 0.2)) with 10 in H. lia.
Qed.

Lemma keeps_capture_attempt (attempt : nat) :
  keeps saved_ok (CaptureSequence.capture_attempt os dev attempt).
Proof.
  unfold CaptureSequence.capture_attempt.
  apply keeps_bind; [apply keeps_say|intros _].
  apply keeps_bind; [apply (keeps_exchange dev)|intros response].
  apply keeps_bind; [|intros _; apply keeps_sleep].
  destruct response as [data|]; [|apply keeps_ret].
  destruct (truthy (Some data) && (Py.len data >? 100)) eqn:C; [|apply keeps_ret].
  apply keeps_bind; [apply keeps_now|intros stamp].
  apply keeps_bind.
  - apply keeps_save. right. cbn [fst snd]. split.
    + exact (long_response _ _ C).
    + cbn. discriminate.
  - intros _. apply keeps_bind; [apply keeps_say|intros _].
    destruct (Py.gt _ _); apply keeps_say.
Qed.

Lemma keeps_monitor_step (i : nat) :
  keeps saved_ok (CaptureSequence.monitor_step os dev i).
Proof.
  unfold CaptureSequence.monitor_step.
  apply keeps_bind; [apply keeps_say|intros _].
  apply keeps_bind; [apply (keeps_exchange dev)|intros response].
  apply keeps_bind; [|intros _; apply keeps_sleep].
  destruct response as [data|]; [|apply keeps_ret].
  destruct (truthy (Some data) && (Py.len data >? 100)) eqn:C; [|apply keeps_ret].
  cbv zeta.
  destruct (Py.gt (inject_Z (CaptureSequence.non_zero_count data))
                  (inject_Z (Py.len data) * 0.2)) eqn:G; [|apply keeps_ret].
  apply keeps_bind; [apply keeps_now|intros stamp].
  apply keeps_bind; [|intros _; apply keeps_say].
  apply keeps_save. right. cbn [fst snd]. split.
  - exact (long_response _ _ C).
  - intros _. exact (above_fifth data G).
Qed.

Lemma keeps_capture_sequence :
  keeps saved_ok (CaptureSequence.capture_fingerprint_sequence os dev).
Proof.
  unfold CaptureSequence.capture_fingerprint_sequence.
  repeat first
    [ apply keeps_for_each; intros ?
    | apply keeps_capture_attempt
    | apply keeps_monitor_step
    | keeps_step os dev ].
Qed.

End CaptureSequenceSaves.

(** X13.  Every file [capture_fingerprint_sequence] saves holds a response
    of more than 100 bytes; a file of the monitoring phase (its name starts
    with "fingerprint_monitor_") moreover holds more than 20% non-zero
    bytes.  This holds whether the call returns or raises. *)
Theorem capture_sequence_saves_long_responses (D : Type) (os : Host.Os D)
    (dev : Usb.Device D) (w : Host.world D)
    (filename : string) (data : list byte) :
  In (filename, data)
     (Host.saves_in
        (Host.journal
           (snd (CaptureSequence.capture_fingerprint_sequence os dev w)))) ->
  In (filename, data) (Host.saves_in (Host.journal w))
  \/ ((100 < List.length data)%nat
      /\ (String.prefix "fingerprint_monitor_" filename = true ->
          Z.of_nat (List.length data)
          < 5 * Z.of_nat (List.length (filter Py.nonzero data)))).
Proof.
  intros H.
  pose proof (keeps_capture_sequence os dev (Host.saves_in (Host.journal w)) w) as K.
  assert (H0 : Forall (fun fd => In fd (Host.saves_in (Host.journal w))
                 \/ ((100 < List.length (snd fd))%nat
                     /\ (String.prefix "fingerprint_monitor_" (fst fd) = true ->
                         Z.of_nat (List.length (snd fd))
                         < 5 * Z.of_nat (List.length (filter Py.nonzero (snd fd))))))
               (Host.saves_in (Host.journal w))).
  { apply Forall_forall. intros fd Hfd. now left. }
  specialize (K H0). rewrite Forall_forall in K. exact (K _ H).
Qed.

Lemma capture_sequence_saves_long_responses_witness :
  In ("fingerprint_monitor_1_120000.bin"%string, Py.all_bytes) []
  \/ ((100 < List.length Py.all_bytes)%nat
      /\ (String.prefix "fingerprint_monitor_" "fingerprint_monitor_1_120000.bin" = true ->
          Z.of_nat (List.length Py.all_bytes)
          < 5 * Z.of_nat (List.length (filter Py.nonzero Py.all_bytes)))).
Proof.
  apply (capture_sequence_saves_long_responses unit HostStub.os HostStub.imaging
           HostStub.fresh).
  vm_compute. do 3 right. left. reflexivity.
Defined.

(** X14.  Provided [input()] and the file writes do not raise,
    [capture_fingerprint_sequence] returns, whatever the device does, and
    has then written exactly 18 frames to endpoint 0x01: the five
    initialisation commands with timeout 2000, the image command three
    times with timeout 5000 and ten times with timeout 2000. *)
Theorem capture_sequence_sends_18_frames (D : Type) (os : Host.Os D)
    (dev : Usb.Device D) (w : Host.world D) :
  (forall s, exists line s', Host.input_line os s = (Usb.Return line, s')) ->
  (forall f d s, exists s', Host.write_file os f d s = (Usb.Return tt, s')) ->
  exists w',
    CaptureSequence.capture_fingerprint_sequence os dev w = (Usb.Return tt, w')
    /\ Host.writes_in (Host.journal w')
       = Host.writes_in (Host.journal w)
         ++ map (fun cmd => (1, cmd, 2000)) CaptureSequence.init_commands
         ++ repeat (1, CaptureSequence.image_command, 5000) 3
         ++ repeat (1, CaptureSequence.image_command, 2000) 10.
Proof.
  intros Hin Hw.
  destruct (total_capture_sequence os dev Hin Hw w) as ([] & w' & E).
  exists w'. split; [exact E|].
  exact (sends_capture_sequence os dev w tt w' E).
Qed.

Lemma capture_sequence_sends_18_frames_witness :
  exists w',
    CaptureSequence.capture_fingerprint_sequence HostStub.os Stub.silent
      HostStub.fresh = (Usb.Return tt, w')
    /\ Host.writes_in (Host.journal w')
       = Host.writes_in (Host.journal HostStub.fresh)
         ++ map (fun cmd => (1, cmd, 2000)) CaptureSequence.init_commands
         ++ repeat (1, CaptureSequence.image_command, 5000) 3
         ++ repeat (1, CaptureSequence.image_command, 2000) 10.
Proof.
  apply (capture_sequence_sends_18_frames unit HostStub.os Stub.silent
           HostStub.fresh).
  - intros s. eexists. eexists. reflexivity.
  - intros f d s. eexists. reflexivity.
Defined.

(** ** test_parameter_variations *)

Section ParameterVariations.
Import Host Effects.
Context {D : Type}.
Variables (os : Os D) (dev : Usb.Device D).

Lemma say_eq (n : note) (w : world D) :
  say n w = (Usb.Return tt, mk_world (state w) (journal w ++ [Say n])).
Proof. reflexivity. Qed.

Lemma sleep_eq (seconds : Q) (w : world D) :
  sleep os seconds w
  = (Usb.Return tt,
     mk_world (sleep_for os seconds (state w)) (journal w ++ [Sleep seconds])).
Proof. reflexivity. Qed.

Lemma now_eq (w : world D) :
  now_HMS os w = (Usb.Return (strftime_HMS os (state w)), w).
Proof. reflexivity. Qed.

Lemma ret_eq (A : Type) (a : A) (w : world D) : ret a w = (Usb.Return a, w).
Proof. reflexivity. Qed.

Lemma bind_raise (A B : Type) (m : M D A) (f : A -> M D B)
    (w w' : world D) (e : Usb.exception) :
  m w = (Usb.Raise e, w') -> bind m f w = (Usb.Raise e, w').
Proof. intros H. unfold bind. now rewrite H. Qed.

Lemma bind_bind_return (A B C : Type) (m : M D A) (k : A -> M D B)
    (f : B -> M D C) (w w' : world D) (a : A) :
  m w = (Usb.Return a, w') -> bind (bind m k) f w = bind (k a) f w'.
Proof. intros H. unfold bind. now rewrite H. Qed.

Lemma bind_bind_raise (A B C : Type) (m : M D A) (k : A -> M D B)
    (f : B -> M D C) (w w' : world D) (e : Usb.exception) :
  m w = (Usb.Raise e, w') -> bind (bind m k) f w = (Usb.Raise e, w').
Proof. intros H. unfold bind. now rewrite H. Qed.

Lemma save_cases (filename : string) (data : list byte) (w : world D) :
  exists r d,
    save os filename data w
    = (r, mk_world d (journal w ++ [Save filename data])).
Proof.
  unfold save. destruct (write_file os filename data (state w)) as [r d].
  now exists r, d.
Qed.

Lemma best_so_far_improved (best_score score : float) (scores : list float) :
  best_so_far best_score scores -> Binary64.gt score best_score = true ->
  best_so_far score (scores ++ [score]).
Proof.
  intros (Hs & Hpos & Hlast) G. apply gt_lt in G.
  assert (Hlt : Forall (fun x => Binary64.lt x score) scores).
  { destruct Hlast as [[-> _]|(earlier & ->)]; [constructor|].
    apply Forall_forall. intros x Hx.
    destruct (sorted_last earlier best_score x Hs Hx) as [->|Hx'];
      [exact G|exact (lt_trans _ _ _ Hx' G)]. }
  split; [now apply sorted_snoc|]. split.
  - apply Forall_app. split; [exact Hpos|]. constructor; [|constructor].
    destruct Hlast as [[_ ->]|(earlier & ->)]; [exact G|].
    apply Forall_app in Hpos. destruct Hpos as [_ Hb].
    inversion Hb as [|? ? H0 _]; subst. exact (lt_trans _ _ _ H0 G).
  - right. now exists scores.
Qed.

Lemma capture_variants_loop_spec (variants : list (list byte * string)) :
  forall (best : float * option string) (w w' : world D)
         (r : float * option string) (scores : list float),
    AdaptiveVariant.capture_variants_loop os dev variants best w
    = (Usb.Return r, w') ->
    best_so_far (fst best) scores ->
    exists new,
      saves_in (journal w') = saves_in (journal w) ++ new
      /\ best_so_far (fst r) (scores ++ map (score_of os) new).
Proof.
  induction variants as [|[cmd name] rest IH]; intros best w w' r scores E Hb.
  - cbn in E. injection E as <- <-. exists []. cbn.
    now rewrite !app_nil_r.
  - cbn [AdaptiveVariant.capture_variants_loop] in E.
    rewrite (bind_return _ _ _ _ _ _ _ (say_eq _ _)) in E.
    rewrite (bind_return _ _ _ _ _ _ _ (say_eq _ _)) in E.
    rewrite (bind_return _ _ _ _ _ _ _ (sleep_eq _ _)) in E.
    match type of E with bind (exchange _) _ ?w0 = _ =>
      destruct (exchange_probe D dev cmd 6000 5000 name w0)
        as (response & w1 & E1 & _ & S1)
    end.
    rewrite (bind_return _ _ _ _ _ _ _ E1) in E.
    cbn [journal] in S1. rewrite !host_saves_app in S1. cbn in S1.
    rewrite !app_nil_r in S1.
    assert (Quiet : forall w2 : world D,
              saves_in (journal w2) = saves_in (journal w1) ->
              AdaptiveVariant.capture_variants_loop os dev rest best
                (mk_world (sleep_for os 1 (state w2)) (journal w2 ++ [Sleep 1]))
              = (Usb.Return r, w') ->
              exists new,
                saves_in (journal w') = saves_in (journal w) ++ new
                /\ best_so_far (fst r) (scores ++ map (score_of os) new)).
    { intros w2 S2 E2. destruct (IH _ _ _ _ scores E2 Hb) as (new & Sn & Bn).
      exists new. split; [|exact Bn]. rewrite Sn. cbn [journal].
      rewrite host_saves_app, S2, S1. cbn. now rewrite app_nil_r. }
    destruct response as [[|b tail]|].
    + cbv iota in E. rewrite (bind_return _ _ _ _ _ _ _ (ret_eq _ _ _)) in E.
      rewrite (bind_return _ _ _ _ _ _ _ (sleep_eq _ _)) in E.
      now apply (Quiet w1).
    + cbv iota zeta in E.
      destruct (analyze_capture_quality os (b :: tail))
        as [score quality] eqn:Q.
      destruct (Binary64.gt score (fst best)) eqn:G.
      * rewrite (bind_bind_return _ _ _ _ _ _ _ _ _ (say_eq _ _)) in E.
        rewrite (bind_bind_return _ _ _ _ _ _ _ _ _ (now_eq _)) in E.
        cbv beta zeta in E.
        match type of E with bind (bind (save os ?f ?d) _) _ ?w0 = _ =>
          destruct (save_cases f d w0) as ([[]|e] & s & Ev)
        end.
        -- rewrite (bind_bind_return _ _ _ _ _ _ _ _ _ Ev) in E.
           rewrite (bind_bind_return _ _ _ _ _ _ _ _ _ (say_eq _ _)) in E.
           rewrite (bind_return _ _ _ _ _ _ _ (ret_eq _ _ _)) in E.
           rewrite (bind_return _ _ _ _ _ _ _ (sleep_eq _ _)) in E.
           match type of E with
             AdaptiveVariant.capture_variants_loop _ _ _ _ ?w0 = _ =>
               destruct (IH _ w0 _ _ (scores ++ [score]) E) as (new & Sn & Bn)
           end.
           { cbn [fst]. exact (best_so_far_improved _ _ _ Hb G). }
           eexists (_ :: new). split.
           ++ rewrite Sn. cbn [journal state]. rewrite !host_saves_app, S1.
              cbn. rewrite !app_nil_r. rewrite <- app_assoc. reflexivity.
           ++ cbn [map app]. unfold score_of at 1. cbn [snd]. rewrite Q.
              cbn [fst]. rewrite <- app_assoc in Bn. exact Bn.
        -- rewrite (bind_bind_raise _ _ _ _ _ _ _ _ _ Ev) in E. discriminate E.
      * rewrite (bind_bind_return _ _ _ _ _ _ _ _ _ (say_eq _ _)) in E.
        rewrite (bind_return _ _ _ _ _ _ _ (ret_eq _ _ _)) in E.
        rewrite (bind_return _ _ _ _ _ _ _ (sleep_eq _ _)) in E.
        match type of E with
          AdaptiveVariant.capture_variants_loop _ _ _ _ ?w0 = _ =>
            destruct (IH _ w0 _ _ scores E Hb) as (new & Sn & Bn)
        end.
        exists new. split; [|exact Bn]. rewrite Sn. cbn [journal state].
        rewrite !host_saves_app, S1. cbn. now rewrite !app_nil_r.
    + cbv iota in E. rewrite (bind_return _ _ _ _ _ _ _ (ret_eq _ _ _)) in E.
      rewrite (bind_return _ _ _ _ _ _ _ (sleep_eq _ _)) in E.
      now apply (Quiet w1).
Qed.

End ParameterVariations.

Section ParameterVariationsFrames.
Import Host Effects.
Context {D : Type}.
Variables (os : Os D) (dev : Usb.Device D).

Lemma sends_capture_variants_loop (variants : list (list byte * string)) :
  forall best,
    sends (AdaptiveVariant.capture_variants_loop os dev variants best)
          (map (fun v => (1, fst v, 5000)) variants).
Proof.
  induction variants as [|[cmd name] rest IH]; intros best;
    cbn [AdaptiveVariant.capture_variants_loop map fst].
  - apply sends_ret.
  - do 3 (apply sends_bind_quiet; [repeat quiet_step os dev|intros _]).
    apply (sends_bind _ _ _ _ [(1, cmd, 5000)]
             (map (fun v => (1, fst v, 5000)) rest)).
    { apply (sends_exchange dev). }
    intros response. apply sends_bind_quiet.
    + destruct response as [[|b tail]|]; try apply sends_ret.
      cbv zeta. destruct (analyze_capture_quality os _).
      repeat quiet_step os dev.
    + intros best'. apply sends_bind_quiet; [apply sends_sleep|intros _].
      apply IH.
Qed.

Lemma sends_test_parameter_variations :
  sends (AdaptiveVariant.test_parameter_variations os dev)
        (map (fun cmd => (1, cmd, 3000)) AdaptiveVariant.base_setup
         ++ map (fun v => (1, fst v, 5000)) AdaptiveVariant.capture_variants).
Proof.
  unfold AdaptiveVariant.test_parameter_variations.
  do 2 (apply sends_bind_quiet; [apply sends_say|intros _]).
  apply sends_bind.
  - eapply sends_eq; [|apply sends_for_each; intros cmd].
    2: { apply (sends_bind _ _ _ _ [(1, cmd, 3000)] []);
         [apply (sends_exchange dev)|intros _; apply sends_sleep]. }
    reflexivity.
  - intros _.
    rewrite <- (app_nil_r (map _ AdaptiveVariant.capture_variants)).
    apply sends_bind; [apply sends_capture_variants_loop|intros best].
    repeat quiet_step os dev.
Qed.

End ParameterVariationsFrames.

Section SavesNothing.
Import Host Effects.
Context {D : Type}.
Variables (os : Os D) (dev : Usb.Device D).

Lemma nothing_ret (A : Type) (a : A) : saves_nothing (@ret D A a).
Proof. intros w. reflexivity. Qed.

Lemma nothing_bind (A B : Type) (m : M D A) (f : A -> M D B) :
  saves_nothing m -> (forall a, saves_nothing (f a)) -> saves_nothing (bind m f).
Proof.
  intros Hm Hf w. unfold bind. specialize (Hm w).
  destruct (m w) as [[a|e] w1]; cbn [snd] in *.
  - now rewrite Hf.
  - exact Hm.
Qed.

Lemma nothing_say (n : note) : saves_nothing (@say D n).
Proof.
  intros w. cbn [say snd journal]. rewrite host_saves_app. cbn.
  now rewrite app_nil_r.
Qed.

Lemma nothing_sleep (seconds : Q) : saves_nothing (sleep os seconds).
Proof.
  intros w. cbn [sleep snd journal]. rewrite host_saves_app. cbn.
  now rewrite app_nil_r.
Qed.

Lemma nothing_exchange (cmd : list byte) (size timeout : Z) (label : string) :
  saves_nothing
    (exchange (AdaptiveProbe.send_and_receive dev cmd size timeout label)).
Proof.
  intros w.
  destruct (exchange_probe D dev cmd size timeout label w)
    as (r & w1 & E1 & _ & S).
  now rewrite E1.
Qed.

Lemma nothing_for_each (A : Type) (xs : list A) (body : A -> M D unit) :
  (forall x, saves_nothing (body x)) -> saves_nothing (for_each xs body).
Proof.
  intros H. induction xs as [|x xs IH]; cbn [for_each].
  - apply nothing_ret.
  - apply nothing_bind; [apply H|intros _; exact IH].
Qed.

(** A loop of exchanges, each followed by a pause: it returns and saves
    nothing. *)
Lemma exchanges_loop (A : Type) (xs : list A) (cmd : A -> list byte)
    (size timeout : Z) (label : A -> string) (pause : Q) (w : world D) :
  exists w',
    for_each xs (fun x =>
      bind (exchange (AdaptiveProbe.send_and_receive dev (cmd x) size timeout
                        (label x)))
           (fun _ => sleep os pause)) w
    = (Usb.Return tt, w')
    /\ saves_in (journal w') = saves_in (journal w).
Proof.
  match goal with |- exists w', ?m w = _ /\ _ =>
    assert (T : total m);
    [|assert (N : saves_nothing m); [|destruct (T w) as ([] & w' & E)]]
  end.
  - apply total_for_each. intros x.
    apply total_bind; [apply (total_exchange dev)|intros _; apply total_sleep].
  - apply nothing_for_each. intros x.
    apply nothing_bind; [apply nothing_exchange|intros _; apply nothing_sleep].
  - exists w'. split; [exact E|]. specialize (N w). now rewrite E in N.
Qed.

End SavesNothing.

(** X15.  When [test_parameter_variations] returns, the files it has saved
    during the call hold captures whose quality scores, as the platform
    computes them in binary64, are positive and strictly increasing in the
    order of saving (a capture is saved only when it beats the best score
    so far), and the result is [True] exactly when one of them scores
    above 15. *)
Theorem parameter_variations_keep_improving (D : Type) (os : Host.Os D)
    (dev : Usb.Device D) (w w' : Host.world D) (result : bool) :
  AdaptiveVariant.test_parameter_variations os dev w = (Usb.Return result, w') ->
  exists new,
    Host.saves_in (Host.journal w') = Host.saves_in (Host.journal w) ++ new
    /\ StronglySorted Binary64.lt (map (Effects.score_of os) new)
    /\ Forall (fun fd => Binary64.lt 0 (Effects.score_of os fd)) new
    /\ (result = true
        <-> Exists (fun fd => Binary64.lt 15 (Effects.score_of os fd)) new).
Proof.
  intros E. unfold AdaptiveVariant.test_parameter_variations in E.
  rewrite (bind_return _ _ _ _ _ _ _ (say_eq _ _)) in E.
  rewrite (bind_return _ _ _ _ _ _ _ (say_eq _ _)) in E.
  match type of E with Host.bind (Host.for_each _ _) _ ?w0 = _ =>
    destruct (exchanges_loop os dev _ AdaptiveVariant.base_setup (fun cmd => cmd)
                64 3000 (fun _ => EmptyString) 0.2 w0) as (w1 & E1 & S1)
  end.
  rewrite (bind_return _ _ _ _ _ _ _ E1) in E.
  cbn [Host.journal] in S1. rewrite !host_saves_app in S1. cbn in S1.
  rewrite !app_nil_r in S1.
  match type of E with
    Host.bind (AdaptiveVariant.capture_variants_loop _ _ ?vs ?b) _ _ = _ =>
      destruct (AdaptiveVariant.capture_variants_loop os dev vs b w1)
        as [[best|e] w2] eqn:E2
  end.
  2: { rewrite (bind_raise _ _ _ _ _ _ _ E2) in E. discriminate E. }
  rewrite (bind_return _ _ _ _ _ _ _ E2) in E.
  rewrite (bind_return _ _ _ _ _ _ _ (say_eq _ _)) in E.
  injection E as <- <-.
  assert (B0 : Effects.best_so_far (fst (0%float, @None string)) []).
  { unfold Effects.best_so_far. cbn [fst].
    split; [constructor|split; [constructor|now left]]. }
  destruct (capture_variants_loop_spec os dev _ _ _ _ _ [] E2 B0)
    as (new & Sn & Hs & Hpos & Hlast).
  cbn [app] in Hs, Hpos, Hlast.
  exists new. split.
  { cbn [Host.journal]. rewrite host_saves_app. cbn.
    now rewrite app_nil_r, Sn, S1. }
  split; [exact Hs|]. split.
  { apply Forall_forall. intros fd Hfd. rewrite Forall_forall in Hpos.
    apply Hpos. now apply in_map. }
  rewrite gt_lt. split.
  - intros Hgt. destruct Hlast as [[_ H0]|(earlier & Hin)].
    + rewrite H0 in Hgt. discriminate Hgt.
    + assert (Hb : In (fst best) (map (Effects.score_of os) new)).
      { rewrite Hin. apply in_or_app. right. now left. }
      apply in_map_iff in Hb. destruct Hb as (fd & Hfd & Hb).
      apply Exists_exists. exists fd. split; [exact Hb|]. now rewrite Hfd.
  - intros Hex. apply Exists_exists in Hex. destruct Hex as (fd & Hin & Hfd).
    destruct Hlast as [[Hnil _]|(earlier & Hl)].
    + destruct new; [destruct Hin|discriminate Hnil].
    + rewrite Hl in Hs.
      assert (Hx : In (Effects.score_of os fd) (earlier ++ [fst best])).
      { rewrite <- Hl. now apply in_map. }
      destruct (sorted_last earlier (fst best) _ Hs Hx) as [<-|Hlt];
        [exact Hfd|exact (lt_trans _ _ _ Hfd Hlt)].
Qed.

Lemma parameter_run_returns :
  AdaptiveVariant.test_parameter_variations HostStub.os HostStub.imaging
    HostStub.fresh
  = (Usb.Return true, snd HostStub.parameter_run).
Proof. vm_compute. reflexivity. Qed.

Lemma rising_run_returns :
  AdaptiveVariant.test_parameter_variations (HostStub.os_over nat)
    HostStub.rising_device (Host.mk_world 0%nat [])
  = (Usb.Return true, snd HostStub.rising_run).
Proof. vm_compute. reflexivity. Qed.

Lemma parameter_variations_keep_improving_witness :
  exists new,
    Host.saves_in (Host.journal (snd HostStub.rising_run))
    = Host.saves_in (Host.journal (Host.mk_world 0%nat [])) ++ new
    /\ StronglySorted Binary64.lt
         (map (Effects.score_of (HostStub.os_over nat)) new)
    /\ Forall (fun fd => Binary64.lt 0
                           (Effects.score_of (HostStub.os_over nat) fd)) new
    /\ (true = true
        <-> Exists (fun fd => Binary64.lt 15
                               (Effects.score_of (HostStub.os_over nat) fd))
              new).
Proof.
  exact (parameter_variations_keep_improving nat (HostStub.os_over nat)
           HostStub.rising_device (Host.mk_world 0%nat [])
           (snd HostStub.rising_run) true rising_run_returns).
Defined.

(** X16.  When [test_parameter_variations] returns it has written exactly
    eight frames to endpoint 0x01: the three set-up commands with timeout
    3000 and then the five capture variants with timeout 5000, in the
    order of the tables, whatever the device answered. *)
Theorem parameter_variations_send_8_frames (D : Type) (os : Host.Os D)
    (dev : Usb.Device D) (w w' : Host.world D) (result : bool) :
  AdaptiveVariant.test_parameter_variations os dev w = (Usb.Return result, w') ->
  Host.writes_in (Host.journal w')
  = Host.writes_in (Host.journal w)
    ++ map (fun cmd => (1, cmd, 3000)) AdaptiveVariant.base_setup
    ++ map (fun v => (1, fst v, 5000)) AdaptiveVariant.capture_variants.
Proof. apply sends_test_parameter_variations. Qed.

Lemma parameter_variations_send_8_frames_witness :
  Host.writes_in (Host.journal (snd HostStub.parameter_run))
  = Host.writes_in (Host.journal HostStub.fresh)
    ++ map (fun cmd => (1, cmd, 3000)) AdaptiveVariant.base_setup
    ++ map (fun v => (1, fst v, 5000)) AdaptiveVariant.capture_variants.
Proof.
  exact (parameter_variations_send_8_frames unit HostStub.os HostStub.imaging
           HostStub.fresh (snd HostStub.parameter_run) true parameter_run_returns).
Defined.

(** ** run_adaptive_calibration *)

Section AdaptiveCalibrationRun.
Import Host Effects.
Context {D : Type}.
Variables (os : Os D) (dev : Usb.Device D).

Lemma bind_assoc (A B C : Type) (m : M D A) (k : A -> M D B)
    (f : B -> M D C) (w : world D) :
  bind (bind m k) f w = bind m (fun a => bind (k a) f) w.
Proof. unfold bind. now destruct (m w) as [[a|e] w1]. Qed.

(** What one calibration variant saves, by the score it returns. *)
Lemma test_variant_saved_iff (variant_name : string)
    (pre_commands : list (list byte)) (capture_command : list byte)
    (capture_size : Z) (w w' : world D) (score : float)
    (response : option (list byte)) :
  AdaptiveVariant.test_calibration_variant os dev variant_name pre_commands
    capture_command capture_size w = (Usb.Return (score, response), w') ->
  exists new,
    saves_in (journal w') = saves_in (journal w) ++ new
    /\ Forall (fun fd => Binary64.lt 10 (score_of os fd)) new
    /\ (new <> [] <-> Binary64.gt score 10 = true).
Proof.
  intros E.
  destruct (test_calibration_variant_run os dev variant_name pre_commands
              capture_command capture_size w) as (resp & w4 & _ & S & E4).
  rewrite E4 in E. clear E4. rewrite <- S. clear S. unfold after_capture in E.
  destruct resp as [[|b rest]|].
  - injection E as <- _ <-. exists []. rewrite app_nil_r.
    split; [reflexivity|]. split; [constructor|].
    split; [congruence|discriminate].
  - cbv zeta in E.
    destruct (analyze_capture_quality os (b :: rest)) as [sc quality] eqn:Q.
    unfold bind, say, now_HMS, save, ret in E. cbn [state journal] in E.
    destruct (Binary64.gt sc 10) eqn:G.
    + destruct (write_file os _ _ _) as [[[]|e] d]; [|discriminate E].
      injection E as <- _ <-. eexists [_]. cbn [journal].
      rewrite !host_saves_app. cbn. rewrite !app_nil_r.
      split; [reflexivity|]. split.
      * constructor; [|constructor]. unfold score_of. cbn [snd]. rewrite Q.
        exact G.
      * split; [intros _; exact G|discriminate].
    + injection E as <- _ <-. exists []. cbn [journal].
      rewrite !host_saves_app. cbn. rewrite !app_nil_r.
      split; [reflexivity|]. split; [constructor|].
      split; [congruence|rewrite G; discriminate].
  - injection E as <- _ <-. exists []. rewrite app_nil_r.
    split; [reflexivity|]. split; [constructor|].
    split; [congruence|discriminate].
Qed.

Lemma keep_best_matches (score : float) (name : string)
    (data : option (list byte))
    (best : float * option string * option (list byte))
    (saved new : list (string * list byte)) :
  best_matches_saved best saved ->
  (new <> [] <-> Binary64.gt score 10 = true) ->
  best_matches_saved (AdaptiveVariant.keep_best score name data best)
                     (saved ++ new).
Proof.
  intros (Hb & Hn & Hnum) Hnew. unfold AdaptiveVariant.keep_best.
  assert (Happ : saved ++ new <> [] <-> saved <> [] \/ new <> []).
  { destruct saved, new; cbn; split; intros H; try congruence;
      try (now left); try (now right); try discriminate.
    destruct H; congruence. }
  destruct (Binary64.gt score (fst (fst best))) eqn:G;
    (split; [|split]); cbn [fst snd].
  - rewrite Happ, Hnew. split; [now right|].
    intros [Hs|Hg]; [|exact Hg].
    apply Hb in Hs. exact (lt_trans _ _ _ Hs G).
  - discriminate.
  - exact (lt_is_number _ _ G).
  - rewrite Happ, Hnew, <- Hb. split; [now left|].
    intros [Hs|Hg]; [exact Hs|].
    exact (lt_above _ _ _ Hg G Hnum).
  - exact Hn.
  - exact Hnum.
Qed.

End AdaptiveCalibrationRun.

(** X17.  When [run_adaptive_calibration] returns, it reports success
    exactly when it has saved at least one capture during the call; every
    capture it saved scores above 10 as the platform computes the score in
    binary64, and a reported success always names the best variant. *)
Theorem adaptive_calibration_success_iff_saved (D : Type) (os : Host.Os D)
    (dev : Usb.Device D) (w w' : Host.world D)
    (success : bool) (best_variant : option string) :
  AdaptiveVariant.run_adaptive_calibration os dev w
  = (Usb.Return (success, best_variant), w') ->
  exists new,
    Host.saves_in (Host.journal w') = Host.saves_in (Host.journal w) ++ new
    /\ Forall (fun fd => Binary64.lt 10 (Effects.score_of os fd)) new
    /\ (success = true <-> new <> [])
    /\ (success = true -> best_variant <> None).
Proof.
  intros E. unfold AdaptiveVariant.run_adaptive_calibration in E.
  cbv zeta in E.
  do 3 rewrite (bind_return _ _ _ _ _ _ _ (say_eq _ _)) in E.
  (* the three variants *)
  match type of E with
    Host.bind (AdaptiveVariant.test_calibration_variant _ _ ?n ?p ?c ?s) _ ?w0 = _ =>
      destruct (AdaptiveVariant.test_calibration_variant os dev n p c s w0)
        as [[[s1 d1]|e1] w1] eqn:E1;
      [|rewrite (bind_raise _ _ _ _ _ _ _ E1) in E; discriminate E]
  end.
  rewrite (bind_return _ _ _ _ _ _ _ E1) in E. cbn [fst snd] in E.
  rewrite (bind_return _ _ _ _ _ _ _ (sleep_eq _ _ _)) in E.
  match type of E with
    Host.bind (AdaptiveVariant.test_calibration_variant _ _ ?n ?p ?c ?s) _ ?w0 = _ =>
      destruct (AdaptiveVariant.test_calibration_variant os dev n p c s w0)
        as [[[s2 d2]|e2] w2] eqn:E2;
      [|rewrite (bind_raise _ _ _ _ _ _ _ E2) in E; discriminate E]
  end.
  rewrite (bind_return _ _ _ _ _ _ _ E2) in E. cbn [fst snd] in E.
  rewrite (bind_return _ _ _ _ _ _ _ (sleep_eq _ _ _)) in E.
  match type of E with
    Host.bind (AdaptiveVariant.test_calibration_variant _ _ ?n ?p ?c ?s) _ ?w0 = _ =>
      destruct (AdaptiveVariant.test_calibration_variant os dev n p c s w0)
        as [[[s3 d3]|e3] w3] eqn:E3;
      [|rewrite (bind_raise _ _ _ _ _ _ _ E3) in E; discriminate E]
  end.
  rewrite (bind_return _ _ _ _ _ _ _ E3) in E. cbn [fst snd] in E.
  rewrite (bind_return _ _ _ _ _ _ _ (sleep_eq _ _ _)) in E.
  do 2 rewrite (bind_return _ _ _ _ _ _ _ (say_eq _ _)) in E.
  (* the fourth, timing-sensitive variant *)
  match type of E with Host.bind (Host.for_each _ _) _ ?w0 = _ =>
    destruct (exchanges_loop os dev _ (Host.enumerate AdaptiveVariant.variant4_pre)
                (fun ic => snd ic) 64 3000
                (fun ic => ("Timing-cmd " ++ Usb.decimal (fst ic + 1))%string)
                1 w0) as (w4 & E4 & S4)
  end.
  rewrite (bind_return _ _ _ _ _ _ _ E4) in E.
  rewrite (bind_return _ _ _ _ _ _ _ (say_eq _ _)) in E.
  match type of E with Host.bind (Host.for_each _ _) _ ?w0 = _ =>
    destruct (exchanges_loop os dev _ (Host.range 3)
                (fun _ => AdaptiveVariant.background_ec) 6000 5000
                (fun i => ("Background " ++ Usb.decimal (i + 1))%string)
                0.5 w0) as (w5 & E5 & S5)
  end.
  rewrite (bind_return _ _ _ _ _ _ _ E5) in E.
  rewrite (bind_return _ _ _ _ _ _ _ (say_eq _ _)) in E.
  rewrite (bind_return _ _ _ _ _ _ _ (sleep_eq _ _ _)) in E.
  match type of E with Host.bind (Host.exchange _) _ ?w0 = _ =>
    destruct (exchange_probe D dev AdaptiveVariant.capture_ec 6000 5000
                "CAPTURE" w0) as (response & w6 & E6 & _ & S6)
  end.
  rewrite (bind_return _ _ _ _ _ _ _ E6) in E.
  (* what has been saved so far *)
  destruct (test_variant_saved_iff os dev _ _ _ _ _ _ _ _ E1)
    as (n1 & Sv1 & F1 & I1).
  destruct (test_variant_saved_iff os dev _ _ _ _ _ _ _ _ E2)
    as (n2 & Sv2 & F2 & I2).
  destruct (test_variant_saved_iff os dev _ _ _ _ _ _ _ _ E3)
    as (n3 & Sv3 & F3 & I3).
  cbn [Host.journal Host.state] in Sv1, Sv2, Sv3, S4, S5, S6.
  repeat rewrite host_saves_app in Sv1. repeat rewrite host_saves_app in Sv2.
  repeat rewrite host_saves_app in Sv3. repeat rewrite host_saves_app in S4.
  repeat rewrite host_saves_app in S5. repeat rewrite host_saves_app in S6.
  cbn [Host.saves_in flat_map app] in Sv1, Sv2, Sv3, S4, S5, S6.
  repeat rewrite app_nil_r in Sv1. repeat rewrite app_nil_r in Sv2.
  repeat rewrite app_nil_r in Sv3. repeat rewrite app_nil_r in S4.
  repeat rewrite app_nil_r in S5. repeat rewrite app_nil_r in S6.
  assert (Sv6 : Host.saves_in (Host.journal w6)
                = Host.saves_in (Host.journal w) ++ (n1 ++ n2) ++ n3).
  { rewrite S6, S5, S4, Sv3, Sv2, Sv1. now rewrite <- !app_assoc. }
  set (best3 := AdaptiveVariant.keep_best s3 _ d3
                  (AdaptiveVariant.keep_best s2 _ d2
                     (AdaptiveVariant.keep_best s1 _ d1 _))) in E.
  assert (B3 : Effects.best_matches_saved best3 ((n1 ++ n2) ++ n3)).
  { subst best3. change (n1 ++ n2) with (([] ++ n1) ++ n2).
    repeat apply keep_best_matches; try assumption.
    split; [|split]; cbn [fst snd]; [|reflexivity|reflexivity].
    split; [discriminate|congruence]. }
  assert (Final : forall (best : float * option string * option (list byte))
                    (n4 : list (string * list byte)) (w7 : Host.world D),
            Effects.best_matches_saved best (((n1 ++ n2) ++ n3) ++ n4) ->
            Forall (fun fd => Binary64.lt 10 (Effects.score_of os fd)) n4 ->
            Host.saves_in (Host.journal w7)
            = Host.saves_in (Host.journal w6) ++ n4 ->
            Host.bind (Host.say Host.Calibration_results) (fun _ =>
            Host.bind (Host.say (Host.Rule 50)) (fun _ =>
            Host.bind (Host.say (Host.Best_approach (snd (fst best)))) (fun _ =>
            Host.bind (Host.say (Host.Best_score (fst (fst best)))) (fun _ =>
            if Binary64.gt (fst (fst best)) 20
            then Host.bind (Host.say Host.Found_good)
                   (fun _ => Host.ret (true, snd (fst best)))
            else if Binary64.gt (fst (fst best)) 10
            then Host.bind (Host.say Host.Found_decent)
                   (fun _ => Host.ret (true, snd (fst best)))
            else Host.bind (Host.say Host.All_poor)
                   (fun _ => Host.ret (false, snd (fst best))))))) w7
            = (Usb.Return (success, best_variant), w') ->
            exists new,
              Host.saves_in (Host.journal w')
              = Host.saves_in (Host.journal w) ++ new
              /\ Forall (fun fd => Binary64.lt 10 (Effects.score_of os fd)) new
              /\ (success = true <-> new <> [])
              /\ (success = true -> best_variant <> None)).
  { intros best n4 w7 (Hb & Hn & Hnum) F4 S7 E7.
    exists (((n1 ++ n2) ++ n3) ++ n4).
    assert (Hsaved : Host.saves_in (Host.journal w')
                     = Host.saves_in (Host.journal w) ++ ((n1 ++ n2) ++ n3) ++ n4).
    { unfold Host.bind, Host.say, Host.ret in E7. cbn [Host.state Host.journal] in E7.
      destruct (Binary64.gt (fst (fst best)) 20);
        [|destruct (Binary64.gt (fst (fst best)) 10)];
        injection E7 as _ _ <-; cbn [Host.journal];
        rewrite !host_saves_app; cbn; rewrite !app_nil_r, S7, Sv6;
        now rewrite <- !app_assoc. }
    split; [exact Hsaved|]. split.
    { repeat (apply Forall_app; split); assumption. }
    assert (H20 : Binary64.gt (fst (fst best)) 20 = true ->
                  Binary64.gt (fst (fst best)) 10 = true).
    { intros H. apply gt_lt in H. apply gt_lt.
      eapply lt_trans; [|exact H]. reflexivity. }
    assert (Hnone : Binary64.gt (fst (fst best)) 10 = true ->
                    snd (fst best) <> None).
    { intros H Hnone. rewrite (Hn Hnone) in H. discriminate H. }
    unfold Host.bind, Host.say, Host.ret in E7. cbn [Host.state Host.journal] in E7.
    destruct (Binary64.gt (fst (fst best)) 20) eqn:G20;
      [|destruct (Binary64.gt (fst (fst best)) 10) eqn:G10];
      injection E7 as <- <- _.
    - split; [|intros _; now apply Hnone, H20].
      split; [intros _; now apply Hb, H20|reflexivity].
    - split; [|intros _; now apply Hnone].
      split; [intros _; now apply Hb|reflexivity].
    - split; [|discriminate].
      split; [discriminate|]. intros H. apply Hb in H. discriminate H. }
  destruct response as [[|b tail]|].
  - rewrite (bind_return _ _ _ _ _ _ _ (ret_eq _ _ _)) in E.
    apply (Final best3 [] w6);
      [now rewrite app_nil_r|constructor|now rewrite app_nil_r|exact E].
  - cbv iota zeta in E.
    destruct (Host.analyze_capture_quality os (b :: tail))
      as [score4 quality] eqn:Q4.
    repeat rewrite bind_assoc in E.
    rewrite (bind_return _ _ _ _ _ _ _ (say_eq _ _)) in E.
    destruct (Binary64.gt score4 10) eqn:G4.
    + repeat rewrite bind_assoc in E.
      rewrite (bind_return _ _ _ _ _ _ _ (now_eq _ _)) in E.
      cbv beta zeta in E. repeat rewrite bind_assoc in E.
      match type of E with Host.bind (Host.save os ?f ?d) _ ?w0 = _ =>
        destruct (save_cases os f d w0) as ([[]|e] & s & Ev)
      end.
      2: { rewrite (bind_raise _ _ _ _ _ _ _ Ev) in E. discriminate E. }
      rewrite (bind_return _ _ _ _ _ _ _ Ev) in E.
      rewrite (bind_return _ _ _ _ _ _ _ (say_eq _ _)) in E.
      rewrite (bind_return _ _ _ _ _ _ _ (ret_eq _ _ _)) in E.
      match type of E with _ ?w7 = _ =>
        eapply (Final _ [_] w7); [| | |exact E]
      end.
      3: { cbn [Host.journal Host.state]. repeat rewrite host_saves_app.
           cbn [Host.saves_in flat_map app]. now repeat rewrite app_nil_r. }
      * apply keep_best_matches; [exact B3|]. split; [intros _; exact G4|discriminate].
      * constructor; [|constructor]. unfold Effects.score_of. cbn [snd].
        rewrite Q4. cbn [fst]. exact G4.
    + cbv iota in E. repeat rewrite bind_assoc in E.
      rewrite (bind_return _ _ _ _ _ _ _ (ret_eq _ _ _)) in E.
      rewrite (bind_return _ _ _ _ _ _ _ (ret_eq _ _ _)) in E.
      match type of E with _ ?w7 = _ =>
        eapply (Final _ [] w7); [| | |exact E]
      end.
      * apply keep_best_matches; [exact B3|].
        split; [congruence|rewrite G4; discriminate].
      * constructor.
      * cbn [Host.journal Host.state]. repeat rewrite host_saves_app.
        cbn [Host.saves_in flat_map app]. now repeat rewrite app_nil_r.
  - rewrite (bind_return _ _ _ _ _ _ _ (ret_eq _ _ _)) in E.
    apply (Final best3 [] w6);
      [now rewrite app_nil_r|constructor|now rewrite app_nil_r|exact E].
Qed.

Lemma calibration_run_returns :
  AdaptiveVariant.run_adaptive_calibration HostStub.os HostStub.imaging
    HostStub.fresh
  = (Usb.Return (true, Some "EH576 Original"%string),
     snd HostStub.calibration_run).
Proof. vm_compute. reflexivity. Qed.

Lemma faint_calibration_run_returns :
  AdaptiveVariant.run_adaptive_calibration HostStub.os HostStub.faint_device
    HostStub.fresh
  = (Usb.Return (true, Some "EH576 Original"%string),
     snd HostStub.faint_calibration_run).
Proof. vm_compute. reflexivity. Qed.

Lemma adaptive_calibration_success_iff_saved_witness :
  exists new,
    Host.saves_in (Host.journal (snd HostStub.faint_calibration_run))
    = Host.saves_in (Host.journal HostStub.fresh) ++ new
    /\ Forall (fun fd => Binary64.lt 10 (Effects.score_of HostStub.os fd)) new
    /\ (true = true <-> new <> [])
    /\ (true = true -> Some "EH576 Original"%string <> None).
Proof.
  exact (adaptive_calibration_success_iff_saved unit HostStub.os
           HostStub.faint_device HostStub.fresh
           (snd HostStub.faint_calibration_run)
           true (Some "EH576 Original"%string) faint_calibration_run_returns).
Defined.

Section AdaptiveCalibrationFrames.
Import Host Effects.
Context {D : Type}.
Variables (os : Os D) (dev : Usb.Device D).

Lemma sends_pre_commands_loop (pre_commands : list (list byte)) :
  forall i,
    sends (AdaptiveVariant.pre_commands_loop os dev i pre_commands)
          (map (fun cmd => (1, cmd, 3000)) pre_commands).
Proof.
  induction pre_commands as [|cmd rest IH]; intros i;
    cbn [AdaptiveVariant.pre_commands_loop map].
  - apply sends_ret.
  - apply (sends_bind _ _ _ _ [(1, cmd, 3000)]
             (map (fun c => (1, c, 3000)) rest)).
    + apply (sends_exchange dev).
    + intros _. apply sends_bind_quiet; [apply sends_sleep|intros _]. apply IH.
Qed.

Lemma sends_test_calibration_variant (variant_name : string)
    (pre_commands : list (list byte)) (capture_command : list byte)
    (capture_size : Z) :
  sends (AdaptiveVariant.test_calibration_variant os dev variant_name
           pre_commands capture_command capture_size)
        (map (fun cmd => (1, cmd, 3000)) pre_commands
         ++ [(1, capture_command, 5000)]).
Proof.
  unfold AdaptiveVariant.test_calibration_variant.
  do 2 (apply sends_bind_quiet; [apply sends_say|intros _]).
  apply sends_bind; [apply sends_pre_commands_loop|intros _].
  do 2 (apply sends_bind_quiet; [apply sends_say|intros _]).
  apply sends_bind_quiet; [apply sends_sleep|intros _].
  rewrite <- (app_nil_r [(1, capture_command, 5000)]).
  apply sends_bind; [apply (sends_exchange dev)|intros response].
  destruct response as [[|b rest]|]; try apply sends_ret.
  cbv zeta. destruct (analyze_capture_quality os _).
  repeat quiet_step os dev.
Qed.

(** The frames of one run of [run_adaptive_calibration], in order. *)
Lemma sends_run_adaptive_calibration :
  sends (AdaptiveVariant.run_adaptive_calibration os dev)
        ((map (fun cmd => (1, cmd, 3000)) AdaptiveVariant.variant1_pre
          ++ [(1, AdaptiveVariant.capture_ec, 5000)])
         ++ (map (fun cmd => (1, cmd, 3000)) AdaptiveVariant.variant2_pre
             ++ [(1, AdaptiveVariant.capture_ec, 5000)])
         ++ (map (fun cmd => (1, cmd, 3000)) AdaptiveVariant.variant3_pre
             ++ [(1, AdaptiveVariant.capture_ec, 5000)])
         ++ map (fun cmd => (1, cmd, 3000)) AdaptiveVariant.variant4_pre
         ++ repeat (1, AdaptiveVariant.background_ec, 5000) 3
         ++ [(1, AdaptiveVariant.capture_ec, 5000)]).
Proof.
  unfold AdaptiveVariant.run_adaptive_calibration. cbv zeta.
  do 3 (apply sends_bind_quiet; [apply sends_say|intros _]).
  apply sends_bind; [apply sends_test_calibration_variant|intros r1].
  apply sends_bind_quiet; [apply sends_sleep|intros _].
  apply sends_bind; [apply sends_test_calibration_variant|intros r2].
  apply sends_bind_quiet; [apply sends_sleep|intros _].
  apply sends_bind; [apply sends_test_calibration_variant|intros r3].
  apply sends_bind_quiet; [apply sends_sleep|intros _].
  do 2 (apply sends_bind_quiet; [apply sends_say|intros _]).
  apply sends_bind.
  { eapply sends_eq; [|apply sends_for_each; intros ic].
    2: { apply (sends_bind _ _ _ _ [(1, snd ic, 3000)] []);
         [apply (sends_exchange dev)|intros _; apply sends_sleep]. }
    reflexivity. }
  intros _. apply sends_bind_quiet; [apply sends_say|intros _].
  apply sends_bind.
  { eapply sends_eq; [|apply sends_for_each; intros i].
    2: { apply (sends_bind _ _ _ _ [(1, AdaptiveVariant.background_ec, 5000)] []);
         [apply (sends_exchange dev)|intros _; apply sends_sleep]. }
    reflexivity. }
  intros _. apply sends_bind_quiet; [apply sends_say|intros _].
  apply sends_bind_quiet; [apply sends_sleep|intros _].
  rewrite <- (app_nil_r [(1, AdaptiveVariant.capture_ec, 5000)]).
  apply sends_bind; [apply (sends_exchange dev)|intros response].
  apply sends_bind_quiet.
  - destruct response as [[|b rest]|]; try apply sends_ret.
    cbv zeta. destruct (analyze_capture_quality os _).
    repeat quiet_step os dev.
  - intros best. repeat quiet_step os dev.
Qed.

End AdaptiveCalibrationFrames.

(** X18.  When [run_adaptive_calibration] returns it has written exactly 26
    frames to endpoint 0x01, in this order whatever the device answered:
    for each of the three table-driven variants its pre-commands (timeout
    3000) followed by the capture command (timeout 5000), then the three
    timing commands (3000), three background captures (5000) and the
    final capture command (5000). *)
Theorem adaptive_calibration_sends_26_frames (D : Type) (os : Host.Os D)
    (dev : Usb.Device D) (w w' : Host.world D)
    (result : bool * option string) :
  AdaptiveVariant.run_adaptive_calibration os dev w = (Usb.Return result, w') ->
  Host.writes_in (Host.journal w')
  = Host.writes_in (Host.journal w)
    ++ (map (fun cmd => (1, cmd, 3000)) AdaptiveVariant.variant1_pre
        ++ [(1, AdaptiveVariant.capture_ec, 5000)])
    ++ (map (fun cmd => (1, cmd, 3000)) AdaptiveVariant.variant2_pre
        ++ [(1, AdaptiveVariant.capture_ec, 5000)])
    ++ (map (fun cmd => (1, cmd, 3000)) AdaptiveVariant.variant3_pre
        ++ [(1, AdaptiveVariant.capture_ec, 5000)])
    ++ map (fun cmd => (1, cmd, 3000)) AdaptiveVariant.variant4_pre
    ++ repeat (1, AdaptiveVariant.background_ec, 5000) 3
    ++ [(1, AdaptiveVariant.capture_ec, 5000)]
  /\ List.length (Host.writes_in (Host.journal w'))
     = (List.length (Host.writes_in (Host.journal w)) + 26)%nat.
Proof.
  intros E. pose proof (sends_run_adaptive_calibration os dev w result w' E) as H.
  split; [exact H|]. rewrite H, length_app. reflexivity.
Qed.

Lemma adaptive_calibration_sends_26_frames_witness :
  Host.writes_in (Host.journal (snd HostStub.calibration_run))
  = Host.writes_in (Host.journal HostStub.fresh)
    ++ (map (fun cmd => (1, cmd, 3000)) AdaptiveVariant.variant1_pre
        ++ [(1, AdaptiveVariant.capture_ec, 5000)])
    ++ (map (fun cmd => (1, cmd, 3000)) AdaptiveVariant.variant2_pre
        ++ [(1, AdaptiveVariant.capture_ec, 5000)])
    ++ (map (fun cmd => (1, cmd, 3000)) AdaptiveVariant.variant3_pre
        ++ [(1, AdaptiveVariant.capture_ec, 5000)])
    ++ map (fun cmd => (1, cmd, 3000)) AdaptiveVariant.variant4_pre
    ++ repeat (1, AdaptiveVariant.background_ec, 5000) 3
    ++ [(1, AdaptiveVariant.capture_ec, 5000)]
  /\ List.length (Host.writes_in (Host.journal (snd HostStub.calibration_run)))
     = (List.length (Host.writes_in (Host.journal HostStub.fresh)) + 26)%nat.
Proof.
  exact (adaptive_calibration_sends_26_frames unit HostStub.os HostStub.imaging
           HostStub.fresh (snd HostStub.calibration_run)
           (true, Some "EH576 Original"%string) calibration_run_returns).
Defined.

(** * eh575_calibration_protocol.py: the probe and the protocol phases *)

Section Eh575Probe.
Import Host Effects.
Context {D : Type}.
Variable slice_equals : list byte -> list byte -> bool.
Variables (os : Os D) (dev : Usb.Device D).

Lemma eh575_probe_unfold (cmd : list byte) (size timeout : Z)
    (description : string) (w : world D) :
  Eh575Protocol.send_and_receive slice_equals dev cmd size timeout description w
  = bind (exchange (AdaptiveProbe.send_and_receive dev cmd size timeout
                      description))
      (fun response =>
         bind (sige_line slice_equals response) (fun _ => ret response)) w.
Proof.
  unfold bind at 1, exchange.
  pose proof (probe_cases D dev cmd size timeout description
                (Usb.mk_world (state w) [])) as H.
  cbn [Usb.dev_state Usb.trace app] in H.
  unfold Eh575Protocol.send_and_receive, try_except, bind, call_write,
    call_read, print, ret.
  cbn [state journal].
  destruct (Usb.write dev 1 cmd timeout (state w)) as [[n|e] d1].
  - cbn [state journal].
    destruct (Usb.read dev 130 size timeout d1) as [[response|[text|text]] d2];
      rewrite H; cbn [state journal Usb.dev_state Usb.trace map Usb.is_USBError
                        Usb.str sige_line].
    + destruct ((Py.len response >=? 4)
                && slice_equals (firstn 4 response) Eh575Protocol.sige);
        cbn [say ret state journal]; rewrite <- ?app_assoc; reflexivity.
    + destruct (Usb.contains "timeout" (Usb.lower text));
        cbn [negb state journal map app]; rewrite <- ?app_assoc; reflexivity.
    + rewrite <- ?app_assoc; reflexivity.
  - rewrite H. cbn [state journal Usb.dev_state Usb.trace map sige_line].
    rewrite <- ?app_assoc; reflexivity.
Qed.

End Eh575Probe.

Section Eh575Facts.
Import Host Effects.
Context {D : Type}.
Variable slice_equals : list byte -> list byte -> bool.
Variables (os : Os D) (dev : Usb.Device D).

Lemma sige_line_cases (response : option (list byte)) (w : world D) :
  sige_line slice_equals response w = (Usb.Return tt, w)
  \/ sige_line slice_equals response w
     = (Usb.Return tt, mk_world (state w) (journal w ++ [Say Valid_SIGE])).
Proof.
  unfold sige_line. destruct response as [data|]; [|now left].
  destruct (_ && _); [now right|now left].
Qed.

(** One exchange of eh575_calibration_protocol.py, as its caller sees it. *)
Lemma eh575_probe_spec (cmd : list byte) (size timeout : Z)
    (description : string) (w : world D) :
  exists (response : option (list byte)) (w' : world D),
    Eh575Protocol.send_and_receive slice_equals dev cmd size timeout
      description w = (Usb.Return response, w')
    /\ writes_in (journal w') = writes_in (journal w) ++ [(1, cmd, timeout)]
    /\ saves_in (journal w') = saves_in (journal w).
Proof.
  rewrite eh575_probe_unfold.
  destruct (exchange_probe D dev cmd size timeout description w)
    as (response & w1 & E & W & S).
  unfold bind at 1. rewrite E. exists response. unfold bind.
  destruct (sige_line_cases response w1) as [-> | ->].
  - exists w1. now repeat split.
  - eexists. split; [reflexivity|]. cbn [journal].
    rewrite host_writes_app, host_saves_app, W, S. cbn.
    now rewrite !app_nil_r.
Qed.

Lemma total_probe575 (cmd : list byte) (size timeout : Z) (description : string) :
  total (Eh575Protocol.send_and_receive slice_equals dev cmd size timeout
           description).
Proof.
  intros w. destruct (eh575_probe_spec cmd size timeout description w)
    as (r & w' & E & _). now exists r, w'.
Qed.

Lemma sends_probe575 (cmd : list byte) (size timeout : Z) (description : string) :
  sends (Eh575Protocol.send_and_receive slice_equals dev cmd size timeout
           description)
        [(1, cmd, timeout)].
Proof.
  intros w a w' E.
  destruct (eh575_probe_spec cmd size timeout description w)
    as (r & w1 & E1 & W & _).
  rewrite E1 in E. injection E as _ <-. exact W.
Qed.

Lemma quiet_probe575 (cmd : list byte) (size timeout : Z) (description : string) :
  saves_nothing (Eh575Protocol.send_and_receive slice_equals dev cmd size
                   timeout description).
Proof.
  intros w.
  destruct (eh575_probe_spec cmd size timeout description w)
    as (r & w1 & E1 & _ & S).
  rewrite E1. exact S.
Qed.

Lemma keeps_probe575 (P : string * list byte -> Prop) (cmd : list byte)
    (size timeout : Z) (description : string) :
  keeps P (Eh575Protocol.send_and_receive slice_equals dev cmd size timeout
             description).
Proof. intros w H. now rewrite quiet_probe575. Qed.

(** *** execute_eh575_calibration *)

Lemma sends_pre_init_step (ip : nat * (list byte * Z * string)) :
  sends (Eh575Protocol.pre_init_step slice_equals os dev ip)
        [(1, fst (fst (snd ip)), 5000)].
Proof.
  destruct ip as [i [[cmd size] description]].
  unfold Eh575Protocol.pre_init_step. cbn [fst snd].
  apply sends_bind_quiet; [apply sends_say|intros _].
  apply (sends_bind _ _ _ _ [(1, cmd, 5000)] []).
  - apply sends_probe575.
  - intros response. destruct response as [data|]; repeat quiet_step os dev.
Qed.

Lemma sends_post_init_step (ip : nat * (list byte * Z * string)) :
  sends (Eh575Protocol.post_init_step slice_equals os dev ip)
        [(1, fst (fst (snd ip)), 5000)].
Proof.
  destruct ip as [i [[cmd size] description]].
  unfold Eh575Protocol.post_init_step. cbn [fst snd].
  apply sends_bind_quiet; [apply sends_say|intros _].
  apply (sends_bind _ _ _ _ [(1, cmd, 5000)] []).
  - apply sends_probe575.
  - intros response. destruct response as [data|]; repeat quiet_step os dev.
Qed.

Lemma flat_map_enumerate (A B : Type) (f : A -> B) (xs : list A) (i : nat) :
  flat_map (fun ip : nat * A => [f (snd ip)]) (combine (seq i (List.length xs)) xs)
  = map f xs.
Proof.
  revert i. induction xs as [|x xs IH]; intros i; [reflexivity|].
  cbn. now rewrite IH.
Qed.

Lemma sends_eh575_calibration :
  sends (Eh575Protocol.execute_eh575_calibration slice_equals os dev)
        (map (fun p => (1, fst (fst p), 5000))
             (Eh575Protocol.pre_init_packets ++ Eh575Protocol.post_init_packets)).
Proof.
  unfold Eh575Protocol.execute_eh575_calibration. rewrite map_app.
  do 2 (apply sends_bind_quiet; [apply sends_say|intros _]).
  apply sends_bind.
  { eapply sends_eq; [|apply sends_for_each; intros ip; apply sends_pre_init_step].
    apply (flat_map_enumerate _ _ (fun p => (1, fst (fst p), 5000))). }
  intros _.
  do 3 (apply sends_bind_quiet; [apply sends_say|intros _]).
  rewrite <- (app_nil_r (map _ Eh575Protocol.post_init_packets)).
  apply sends_bind.
  { eapply sends_eq; [|apply sends_for_each; intros ip; apply sends_post_init_step].
    apply (flat_map_enumerate _ _ (fun p => (1, fst (fst p), 5000))). }
  intros _. repeat quiet_step os dev.
Qed.

Hypothesis writes_succeed :
  forall f d s, exists s', write_file os f d s = (Usb.Return tt, s').

Lemma total_pre_init_step (ip : nat * (list byte * Z * string)) :
  total (Eh575Protocol.pre_init_step slice_equals os dev ip).
Proof.
  destruct ip as [i [[cmd size] description]].
  unfold Eh575Protocol.pre_init_step.
  repeat first
    [ apply total_probe575
    | apply (total_save os _ _ writes_succeed)
    | match goal with |- total (match ?r with _ => _ end) => destruct r end
    | total_step os dev ].
Qed.

Lemma total_post_init_step (ip : nat * (list byte * Z * string)) :
  total (Eh575Protocol.post_init_step slice_equals os dev ip).
Proof.
  destruct ip as [i [[cmd size] description]].
  unfold Eh575Protocol.post_init_step.
  repeat first
    [ apply total_probe575
    | apply (total_save os _ _ writes_succeed)
    | match goal with |- total (match ?r with _ => _ end) => destruct r end
    | total_step os dev ].
Qed.

Lemma bind_yields (A B : Type) (m : M D A) (f : A -> M D B) (P : B -> Prop) :
  (forall a w b w', f a w = (Usb.Return b, w') -> P b) ->
  forall w b w', bind m f w = (Usb.Return b, w') -> P b.
Proof.
  intros H w b w' E. unfold bind in E.
  destruct (m w) as [[a|e] w1]; [|discriminate]. exact (H _ _ _ _ E).
Qed.

Lemma total_eh575_calibration :
  total (Eh575Protocol.execute_eh575_calibration slice_equals os dev).
Proof.
  unfold Eh575Protocol.execute_eh575_calibration.
  repeat first
    [ apply total_for_each; intros ?
    | apply total_pre_init_step
    | apply total_post_init_step
    | total_step os dev ].
Qed.

Lemma eh575_calibration_yields_true (w w' : world D) (b : bool) :
  Eh575Protocol.execute_eh575_calibration slice_equals os dev w
  = (Usb.Return b, w') -> b = true.
Proof.
  unfold Eh575Protocol.execute_eh575_calibration. revert w b w'.
  repeat (apply bind_yields; intros _).
  intros w b w' E. now injection E as <- _.
Qed.

End Eh575Facts.

Section Eh575Files.
Import Host Effects.
Context {D : Type}.
Variable slice_equals : list byte -> list byte -> bool.
Variables (os : Os D) (dev : Usb.Device D).
Variable old : list (string * list byte).

Lemma prefix_append (p s : string) : String.prefix p (p ++ s) = true.
Proof.
  induction p as [|c p IH]; cbn.
  - now destruct s.
  - destruct (ascii_dec c c); [exact IH|congruence].
Qed.

Lemma mentions_good (quality : Eh575CalibrationProtocol.message) :
  Eh575Protocol.mentions EXCELLENT quality
  || Eh575Protocol.mentions GOOD quality = true ->
  eh575_status quality = Some EXCELLENT \/ eh575_status quality = Some GOOD.
Proof.
  destruct quality as [|[] p e]; cbn; intros H; try discriminate; auto.
Qed.

Lemma mentions_fair (quality : Eh575CalibrationProtocol.message) :
  Eh575Protocol.mentions FAIR quality = true ->
  eh575_status quality = Some FAIR.
Proof.
  destruct quality as [|[] p e]; cbn; intros H; try discriminate; auto.
Qed.

Lemma keeps_pre_init_step (ip : nat * (list byte * Z * string)) :
  keeps (calibration_file_ok old)
    (Eh575Protocol.pre_init_step slice_equals os dev ip).
Proof.
  destruct ip as [i [[cmd size] description]].
  unfold Eh575Protocol.pre_init_step.
  apply keeps_bind; [apply keeps_say|intros _].
  apply keeps_bind; [apply keeps_probe575|intros response].
  apply keeps_bind; [|intros _; apply keeps_sleep].
  destruct response as [data|]; [|apply keeps_ret].
  destruct ((i =? 15)%nat && truthy (Some data)); [|apply keeps_ret].
  cbv zeta. apply keeps_bind; [apply keeps_say|intros _].
  destruct (_ || _) eqn:M; [|apply keeps_ret].
  apply keeps_bind; [apply keeps_now|intros stamp].
  apply keeps_bind; [|intros _; apply keeps_say].
  apply keeps_save. right. exact (mentions_good _ M).
Qed.

Lemma keeps_post_init_step (ip : nat * (list byte * Z * string)) :
  keeps (calibration_file_ok old)
    (Eh575Protocol.post_init_step slice_equals os dev ip).
Proof.
  destruct ip as [i [[cmd size] description]].
  unfold Eh575Protocol.post_init_step.
  apply keeps_bind; [apply keeps_say|intros _].
  apply keeps_bind; [apply keeps_probe575|intros response].
  apply keeps_bind; [|intros _; apply keeps_sleep].
  destruct response as [data|]; [|apply keeps_ret].
  destruct ((i =? 17)%nat && truthy (Some data)); [|apply keeps_ret].
  cbv zeta. apply keeps_bind; [apply keeps_say|intros _].
  destruct (_ || _) eqn:M; [|apply keeps_ret].
  apply keeps_bind; [apply keeps_now|intros stamp].
  apply keeps_bind; [|intros _; apply keeps_say].
  apply keeps_save. right. exact (mentions_good _ M).
Qed.

Lemma keeps_eh575_calibration :
  keeps (calibration_file_ok old)
    (Eh575Protocol.execute_eh575_calibration slice_equals os dev).
Proof.
  unfold Eh575Protocol.execute_eh575_calibration.
  repeat first
    [ apply keeps_for_each; intros ?
    | apply keeps_pre_init_step
    | apply keeps_post_init_step
    | keeps_step os dev ].
Qed.

Lemma keeps_repeat_packets_loop
    (packets : list (nat * (list byte * Z * string))) (cycle_count : nat) :
  forall successful_captures,
    keeps (cycle_file_ok old)
      (Eh575Protocol.repeat_packets_loop slice_equals os dev packets cycle_count
         successful_captures).
Proof.
  induction packets as [|[i [[cmd size] description]] rest IH];
    intros n; cbn [Eh575Protocol.repeat_packets_loop].
  - apply keeps_ret.
  - apply keeps_bind; [apply keeps_probe575|intros response].
    apply keeps_bind;
      [|intros n'; apply keeps_bind; [apply keeps_sleep|intros _; apply IH]].
    destruct response as [data|]; [|apply keeps_ret].
    destruct ((i =? 8)%nat && truthy (Some data)); [|apply keeps_ret].
    cbv zeta. apply keeps_bind; [apply keeps_say|intros _].
    destruct (_ || _) eqn:M.
    + apply keeps_bind; [apply keeps_now|intros stamp].
      apply keeps_bind; [|intros _; repeat keeps_step os dev].
      apply keeps_save. right. left. cbn [fst]. split.
      * apply prefix_append.
      * exact (mentions_good _ M).
    + destruct (Eh575Protocol.mentions FAIR _) eqn:F; [|apply keeps_ret].
      apply keeps_bind; [apply keeps_now|intros stamp].
      apply keeps_bind; [|intros _; repeat keeps_step os dev].
      apply keeps_save. right. right. cbn [fst]. split.
      * apply prefix_append.
      * exact (mentions_fair _ F).
Qed.

Lemma keeps_cycles_loop (fuel : nat) :
  forall cycle_count successful_captures,
    keeps (cycle_file_ok old)
      (Eh575Protocol.cycles_loop slice_equals os dev fuel cycle_count
         successful_captures).
Proof.
  induction fuel as [|fuel IH]; intros c n; cbn [Eh575Protocol.cycles_loop].
  - apply keeps_ret.
  - destruct (c <? 10)%nat; [|apply keeps_ret]. cbv zeta.
    apply keeps_bind; [apply keeps_say|intros _].
    apply keeps_bind; [apply keeps_repeat_packets_loop|intros n'].
    apply keeps_bind; [apply keeps_sleep|intros _; apply IH].
Qed.

Lemma keeps_repeat_cycle :
  keeps (cycle_file_ok old)
    (Eh575Protocol.execute_repeat_cycle slice_equals os dev).
Proof.
  unfold Eh575Protocol.execute_repeat_cycle.
  do 3 (apply keeps_bind; [apply keeps_say|intros _]).
  apply keeps_bind; [apply keeps_cycles_loop|intros counts].
  repeat keeps_step os dev.
Qed.

End Eh575Files.

Section Eh575Cycles.
Import Host Effects.
Context {D : Type}.
Variable slice_equals : list byte -> list byte -> bool.
Variables (os : Os D) (dev : Usb.Device D).

Let frames : list (Z * list byte * Z) :=
  map (fun p => (1, fst (fst p), 3000)) Eh575Protocol.repeat_packets.

Lemma sends_repeat_packets_loop
    (packets : list (nat * (list byte * Z * string))) (cycle_count : nat) :
  forall successful_captures,
    sends (Eh575Protocol.repeat_packets_loop slice_equals os dev packets
             cycle_count successful_captures)
          (map (fun ip => (1, fst (fst (snd ip)), 3000)) packets).
Proof.
  induction packets as [|[i [[cmd size] description]] rest IH];
    intros n; cbn [Eh575Protocol.repeat_packets_loop map fst snd].
  - apply sends_ret.
  - apply (sends_bind _ _ _ _ [(1, cmd, 3000)]); [apply sends_probe575|].
    intros response. apply sends_bind_quiet.
    + destruct response as [data|]; repeat quiet_step os dev.
    + intros n'. apply sends_bind_quiet; [apply sends_sleep|intros _; apply IH].
Qed.

Lemma map_enumerate (A B : Type) (f : A -> B) (xs : list A) (i : nat) :
  map (fun ip : nat * A => f (snd ip)) (combine (seq i (List.length xs)) xs)
  = map f xs.
Proof.
  revert i. induction xs as [|x xs IH]; intros i; [reflexivity|].
  cbn. now rewrite IH.
Qed.

Lemma sends_cycles_loop (fuel : nat) :
  forall cycle_count successful_captures,
    sends (Eh575Protocol.cycles_loop slice_equals os dev fuel cycle_count
             successful_captures)
          (List.concat (repeat frames (Nat.min fuel (10 - cycle_count)))).
Proof.
  induction fuel as [|fuel IH]; intros c n; cbn [Eh575Protocol.cycles_loop].
  - apply sends_ret.
  - destruct (c <? 10)%nat eqn:C.
    + apply Nat.ltb_lt in C. cbv zeta.
      replace (Nat.min (S fuel) (10 - c))
        with (S (Nat.min fuel (10 - (c + 1)))) by lia.
      cbn [repeat List.concat].
      apply sends_bind_quiet; [apply sends_say|intros _].
      apply sends_bind.
      * eapply sends_eq; [|apply sends_repeat_packets_loop].
        apply (map_enumerate _ _ (fun p => (1, fst (fst p), 3000))).
      * intros n'. apply sends_bind_quiet; [apply sends_sleep|intros _; apply IH].
    + apply Nat.ltb_ge in C.
      replace (Nat.min (S fuel) (10 - c)) with 0%nat by lia.
      apply sends_ret.
Qed.

Lemma sends_repeat_cycle :
  sends (Eh575Protocol.execute_repeat_cycle slice_equals os dev)
        (List.concat (repeat frames 10)).
Proof.
  unfold Eh575Protocol.execute_repeat_cycle.
  do 3 (apply sends_bind_quiet; [apply sends_say|intros _]).
  rewrite <- (app_nil_r (List.concat _)).
  apply sends_bind; [apply (sends_cycles_loop 10 0 0)|intros counts].
  repeat quiet_step os dev.
Qed.

(** The loop leaves by its condition. *)
Lemma cycles_loop_ten (fuel : nat) :
  forall cycle_count successful_captures w counts w',
    (cycle_count <= 10)%nat -> (10 - cycle_count <= fuel)%nat ->
    Eh575Protocol.cycles_loop slice_equals os dev fuel cycle_count
      successful_captures w = (Usb.Return counts, w') ->
    fst counts = 10%nat.
Proof.
  induction fuel as [|fuel IH]; intros c n w counts w' Hc Hf;
    cbn [Eh575Protocol.cycles_loop].
  - intros E. injection E as <- _. cbn. lia.
  - destruct (c <? 10)%nat eqn:C.
    + apply Nat.ltb_lt in C. cbv zeta. revert w counts w'.
      apply bind_yields; intros _. apply bind_yields; intros n'.
      apply bind_yields; intros _. intros w counts w'. apply IH; lia.
    + apply Nat.ltb_ge in C. intros E. injection E as <- _. cbn. lia.
Qed.

(** *** The counter of successful captures *)

Lemma tallies_ret (A : Type) (count : A -> nat) (a : A) :
  tallies count (@ret D A a) (count a).
Proof. intros w b w' E. now injection E as <- <-. Qed.

Lemma tallies_bind (A B : Type) (c1 : A -> nat) (c2 : B -> nat)
    (m : M D A) (f : A -> M D B) (n : nat) :
  tallies c1 m n -> (forall a, tallies c2 (f a) (c1 a)) ->
  tallies c2 (bind m f) n.
Proof.
  intros Hm Hf w b w' E. unfold bind in E.
  destruct (m w) as [[a|e] w1] eqn:E1; [|discriminate].
  specialize (Hm _ _ _ E1). specialize (Hf a _ _ _ E). lia.
Qed.

Lemma tallies_quiet (A : Type) (m : M D A) (n : nat) :
  saves_nothing m -> tallies (fun _ => n) m n.
Proof.
  intros H w a w' E. specialize (H w). rewrite E in H. cbn [snd] in H.
  unfold successes. now rewrite H.
Qed.

Lemma quiet_say (n : note) : saves_nothing (@say D n).
Proof.
  intros w. cbn [say snd journal]. rewrite host_saves_app. cbn.
  now rewrite app_nil_r.
Qed.

Lemma quiet_sleep (seconds : Q) : saves_nothing (sleep os seconds).
Proof.
  intros w. cbn [sleep snd journal]. rewrite host_saves_app. cbn.
  now rewrite app_nil_r.
Qed.

Lemma quiet_now : saves_nothing (now_HMS os).
Proof. intros w. reflexivity. Qed.

Lemma tallies_after (A B : Type) (count : B -> nat) (m : M D A)
    (f : A -> M D B) (n : nat) :
  saves_nothing m -> (forall a, tallies count (f a) n) ->
  tallies count (bind m f) n.
Proof.
  intros Hm Hf. apply (tallies_bind A B (fun _ => n)); [|exact Hf].
  now apply tallies_quiet.
Qed.

Lemma successes_save (filename : string) (data : list byte) (w w' : world D) :
  save os filename data w = (Usb.Return tt, w') ->
  successes w'
  = (successes w
     + if String.prefix "fingerprint_cycle_" filename then 1 else 0)%nat.
Proof.
  unfold save. destruct (write_file os filename data (state w)) as [r d].
  intros E. injection E as _ <-. unfold successes, cycle_files.
  cbn [journal]. rewrite host_saves_app, filter_app, length_app.
  cbn [saves_in flat_map app filter fst].
  now destruct (String.prefix _ filename).
Qed.

Lemma tallies_repeat_packets_loop
    (packets : list (nat * (list byte * Z * string))) (cycle_count : nat) :
  forall successful_captures,
    tallies (fun n => n)
      (Eh575Protocol.repeat_packets_loop slice_equals os dev packets cycle_count
         successful_captures)
      successful_captures.
Proof.
  induction packets as [|[i [[cmd size] description]] rest IH];
    intros n; cbn [Eh575Protocol.repeat_packets_loop].
  - apply (tallies_ret nat (fun n => n)).
  - apply tallies_after; [apply quiet_probe575|intros response].
    apply (tallies_bind _ _ (fun n => n));
      [|intros n'; apply tallies_after; [apply quiet_sleep|intros _; apply IH]].
    destruct response as [data|]; [|apply (tallies_ret nat (fun n => n))].
    destruct ((i =? 8)%nat && truthy (Some data));
      [|apply (tallies_ret nat (fun n => n))].
    cbv zeta. apply tallies_after; [apply quiet_say|intros _].
    destruct (_ || _).
    + apply tallies_after; [apply quiet_now|intros stamp].
      apply (tallies_bind _ _ (fun _ => (n + 1)%nat)).
      * intros w [] w' E. rewrite (successes_save _ _ _ _ E).
        rewrite prefix_append. lia.
      * intros _. apply tallies_after; [apply quiet_say|intros _].
        apply (tallies_ret nat (fun n => n)).
    + destruct (Eh575Protocol.mentions FAIR _);
        [|apply (tallies_ret nat (fun n => n))].
      apply tallies_after; [apply quiet_now|intros stamp].
      apply (tallies_bind _ _ (fun _ => n)).
      * intros w [] w' E. rewrite (successes_save _ _ _ _ E). cbn. lia.
      * intros _. apply tallies_after; [apply quiet_say|intros _].
        apply (tallies_ret nat (fun n => n)).
Qed.

Lemma tallies_cycles_loop (fuel : nat) :
  forall cycle_count successful_captures,
    tallies snd
      (Eh575Protocol.cycles_loop slice_equals os dev fuel cycle_count
         successful_captures)
      successful_captures.
Proof.
  induction fuel as [|fuel IH]; intros c n; cbn [Eh575Protocol.cycles_loop].
  - apply (tallies_ret _ snd (c, n)).
  - destruct (c <? 10)%nat; [|apply (tallies_ret _ snd (c, n))]. cbv zeta.
    apply tallies_after; [apply quiet_say|intros _].
    apply (tallies_bind _ _ (fun n => n));
      [apply tallies_repeat_packets_loop|intros n'].
    apply tallies_after; [apply quiet_sleep|intros _; apply IH].
Qed.

Lemma repeat_cycle_result (w w' : world D) (r : bool) :
  Eh575Protocol.execute_repeat_cycle slice_equals os dev w = (Usb.Return r, w') ->
  exists k before,
    successes w' = (successes w + k)%nat
    /\ journal w' = before ++ [Say (Results k 10)]
    /\ r = (0 <? k)%nat.
Proof.
  unfold Eh575Protocol.execute_repeat_cycle. intros E.
  rewrite (bind_return _ _ _ _ _ _ _ (say_eq _ _)) in E.
  rewrite (bind_return _ _ _ _ _ _ _ (say_eq _ _)) in E.
  rewrite (bind_return _ _ _ _ _ _ _ (say_eq _ _)) in E.
  unfold bind at 1 in E.
  match type of E with
    (let (_, _) := ?m ?w0 in _) = _ =>
      destruct (m w0) as [[[c k]|e] w4] eqn:L; [|discriminate];
      pose proof (tallies_cycles_loop 10 0 0 w0 _ _ L) as T;
      pose proof (cycles_loop_ten 10 0 0 w0 _ _ ltac:(lia) ltac:(lia) L) as C
  end.
  cbn [fst snd] in *. subst c. cbn in E. injection E as <- <-.
  exists k, (journal w4). repeat split.
  unfold successes in *. cbn [journal state] in *.
  rewrite !host_saves_app in *. cbn in *. rewrite !app_nil_r in *. lia.
Qed.

Hypothesis writes_succeed :
  forall f d s, exists s', write_file os f d s = (Usb.Return tt, s').

Lemma total_repeat_packets_loop
    (packets : list (nat * (list byte * Z * string))) (cycle_count : nat) :
  forall successful_captures,
    total (Eh575Protocol.repeat_packets_loop slice_equals os dev packets
             cycle_count successful_captures).
Proof.
  induction packets as [|[i [[cmd size] description]] rest IH];
    intros n; cbn [Eh575Protocol.repeat_packets_loop].
  - apply total_ret.
  - apply total_bind; [apply total_probe575|intros response].
    apply total_bind;
      [|intros n'; apply total_bind; [apply total_sleep|intros _; apply IH]].
    destruct response as [data|];
      repeat first
        [ apply (total_save os _ _ writes_succeed)
        | total_step os dev ].
Qed.

Lemma total_cycles_loop (fuel : nat) :
  forall cycle_count successful_captures,
    total (Eh575Protocol.cycles_loop slice_equals os dev fuel cycle_count
             successful_captures).
Proof.
  induction fuel as [|fuel IH]; intros c n; cbn [Eh575Protocol.cycles_loop].
  - apply total_ret.
  - destruct (c <? 10)%nat; [|apply total_ret]. cbv zeta.
    apply total_bind; [apply total_say|intros _].
    apply total_bind; [apply total_repeat_packets_loop|intros n'].
    apply total_bind; [apply total_sleep|intros _; apply IH].
Qed.

Lemma total_repeat_cycle :
  total (Eh575Protocol.execute_repeat_cycle slice_equals os dev).
Proof.
  unfold Eh575Protocol.execute_repeat_cycle.
  do 3 (apply total_bind; [apply total_say|intros _]).
  apply total_bind; [apply total_cycles_loop|intros counts].
  repeat total_step os dev.
Qed.

End Eh575Cycles.
(** X19.  The probe of eh575_calibration_protocol.py is the probe of
    adaptive_calibration.py followed by at most one more printed line: it
    makes the same calls on the device, prints the same lines, returns the
    same value, and then prints "Valid SIGE response received" when the
    response has at least 4 bytes and its first four compare equal to the
    header.  So it never raises either, and where that comparison is never
    true (a response handed over as an [array]) the two probes cannot be
    told apart. *)
Theorem eh575_probe_adds_one_line (D : Type)
    (slice_equals : list byte -> list byte -> bool) (dev : Usb.Device D)
    (cmd : list byte) (size timeout : Z) (description : string)
    (w : Host.world D) :
  let eh575 :=
    Eh575Protocol.send_and_receive slice_equals dev cmd size timeout
      description in
  let adaptive :=
    Host.exchange (AdaptiveProbe.send_and_receive dev cmd size timeout
                     description) in
  eh575 w
  = Host.bind adaptive
      (fun response =>
         Host.bind (Effects.sige_line slice_equals response)
           (fun _ => Host.ret response)) w
  /\ (exists response w', eh575 w = (Usb.Return response, w'))
  /\ ((forall slice header, slice_equals slice header = false) ->
      eh575 w = adaptive w).
Proof.
  cbv zeta. split; [apply eh575_probe_unfold|split].
  - destruct (eh575_probe_spec slice_equals dev cmd size timeout description w)
      as (response & w' & E & _). now exists response, w'.
  - intros Never. rewrite eh575_probe_unfold. unfold Host.bind.
    destruct (Host.exchange _ w) as [[[data|]|e] w1]; try reflexivity.
    unfold Effects.sige_line. rewrite Never, andb_false_r. reflexivity.
Qed.

(** X20.  Provided the file writes do not raise, [execute_eh575_calibration]
    returns True whatever the device does, also when every exchange fails,
    and has then written exactly 47 frames to endpoint 0x01 with timeout
    5000: the 29 PRE_INIT commands followed by the 18 POST_INIT commands,
    in the order of the tables. *)
Theorem eh575_calibration_always_true (D : Type)
    (slice_equals : list byte -> list byte -> bool) (os : Host.Os D)
    (dev : Usb.Device D) (w : Host.world D) :
  (forall f d s, exists s', Host.write_file os f d s = (Usb.Return tt, s')) ->
  exists w',
    Eh575Protocol.execute_eh575_calibration slice_equals os dev w
    = (Usb.Return true, w')
    /\ Host.writes_in (Host.journal w')
       = Host.writes_in (Host.journal w)
         ++ map (fun p => (1, fst (fst p), 5000))
              (Eh575Protocol.pre_init_packets ++ Eh575Protocol.post_init_packets)
    /\ List.length (Host.writes_in (Host.journal w'))
       = (List.length (Host.writes_in (Host.journal w)) + 47)%nat.
Proof.
  intros Hw.
  destruct (total_eh575_calibration slice_equals os dev Hw w) as (b & w' & E).
  pose proof (eh575_calibration_yields_true slice_equals os dev w w' b E) as ->.
  pose proof (sends_eh575_calibration slice_equals os dev w true w' E) as H.
  exists w'. split; [exact E|]. split; [exact H|].
  rewrite H, length_app. reflexivity.
Qed.

Lemma eh575_calibration_always_true_witness :
  exists w',
    Eh575Protocol.execute_eh575_calibration HostStub.array_equals HostStub.os
      Stub.silent HostStub.fresh
    = (Usb.Return true, w')
    /\ Host.writes_in (Host.journal w')
       = Host.writes_in (Host.journal HostStub.fresh)
         ++ map (fun p => (1, fst (fst p), 5000))
              (Eh575Protocol.pre_init_packets ++ Eh575Protocol.post_init_packets)
    /\ List.length (Host.writes_in (Host.journal w'))
       = (List.length (Host.writes_in (Host.journal HostStub.fresh)) + 47)%nat.
Proof.
  apply (eh575_calibration_always_true unit HostStub.array_equals HostStub.os
           Stub.silent HostStub.fresh).
  intros f d s. eexists. reflexivity.
Defined.

(** X21.  Every file [execute_eh575_calibration] saves holds a capture that
    the classifier of the same script calls EXCELLENT or GOOD; a FAIR or
    POOR capture, or one of fewer than 100 bytes, is never saved.  This
    holds whether the call returns or raises. *)
Theorem eh575_calibration_saves_good_captures (D : Type)
    (slice_equals : list byte -> list byte -> bool) (os : Host.Os D)
    (dev : Usb.Device D) (w : Host.world D)
    (filename : string) (data : list byte) :
  In (filename, data)
     (Host.saves_in
        (Host.journal
           (snd (Eh575Protocol.execute_eh575_calibration slice_equals os dev w)))) ->
  In (filename, data) (Host.saves_in (Host.journal w))
  \/ eh575_status (Eh575CalibrationProtocol.analyze_capture_quality data)
     = Some EXCELLENT
  \/ eh575_status (Eh575CalibrationProtocol.analyze_capture_quality data)
     = Some GOOD.
Proof.
  intros H.
  pose proof (keeps_eh575_calibration slice_equals os dev
                (Host.saves_in (Host.journal w)) w) as K.
  assert (H0 : Forall (Effects.calibration_file_ok (Host.saves_in (Host.journal w)))
                 (Host.saves_in (Host.journal w))).
  { apply Forall_forall. intros fd Hfd. now left. }
  specialize (K H0). rewrite Forall_forall in K. exact (K _ H).
Qed.

Lemma eh575_calibration_saves_good_captures_witness :
  In ("post_init_image_120000.bin"%string, Py.all_bytes) []
  \/ eh575_status (Eh575CalibrationProtocol.analyze_capture_quality Py.all_bytes)
     = Some EXCELLENT
  \/ eh575_status (Eh575CalibrationProtocol.analyze_capture_quality Py.all_bytes)
     = Some GOOD.
Proof.
  apply (eh575_calibration_saves_good_captures unit HostStub.array_equals
           HostStub.os HostStub.imaging HostStub.fresh).
  vm_compute. right. left. reflexivity.
Defined.

(** X22.  When [execute_repeat_cycle] returns, the loop has run its ten
    cycles, the number of successful captures it reports on its last line
    is the number of files named "fingerprint_cycle_..." that it saved, and
    it returns True exactly when that number is positive. *)
Theorem repeat_cycle_counts_saved_files (D : Type)
    (slice_equals : list byte -> list byte -> bool) (os : Host.Os D)
    (dev : Usb.Device D) (w w' : Host.world D) (result : bool) :
  Eh575Protocol.execute_repeat_cycle slice_equals os dev w
  = (Usb.Return result, w') ->
  exists k before,
    Effects.successes w' = (Effects.successes w + k)%nat
    /\ Host.journal w' = before ++ [Host.Say (Host.Results k 10)]
    /\ result = (0 <? k)%nat.
Proof. apply repeat_cycle_result. Qed.

Lemma repeat_cycle_run_returns :
  Eh575Protocol.execute_repeat_cycle HostStub.array_equals HostStub.os
    HostStub.imaging HostStub.fresh
  = (Usb.Return true, snd HostStub.repeat_cycle_run).
Proof. vm_compute. reflexivity. Qed.

Lemma repeat_cycle_counts_saved_files_witness :
  exists k before,
    Effects.successes (snd HostStub.repeat_cycle_run)
    = (Effects.successes HostStub.fresh + k)%nat
    /\ Host.journal (snd HostStub.repeat_cycle_run)
       = before ++ [Host.Say (Host.Results k 10)]
    /\ true = (0 <? k)%nat.
Proof.
  exact (repeat_cycle_counts_saved_files unit HostStub.array_equals HostStub.os
           HostStub.imaging HostStub.fresh (snd HostStub.repeat_cycle_run) true
           repeat_cycle_run_returns).
Defined.

(** X23.  Provided the file writes do not raise, [execute_repeat_cycle]
    returns, whatever the device does, and has then written exactly 90
    frames to endpoint 0x01 with timeout 3000: the nine REPEAT commands in
    the order of the table, ten times over. *)
Theorem repeat_cycle_sends_90_frames (D : Type)
    (slice_equals : list byte -> list byte -> bool) (os : Host.Os D)
    (dev : Usb.Device D) (w : Host.world D) :
  (forall f d s, exists s', Host.write_file os f d s = (Usb.Return tt, s')) ->
  exists result w',
    Eh575Protocol.execute_repeat_cycle slice_equals os dev w
    = (Usb.Return result, w')
    /\ Host.writes_in (Host.journal w')
       = Host.writes_in (Host.journal w)
         ++ List.concat
              (repeat (map (fun p => (1, fst (fst p), 3000))
                         Eh575Protocol.repeat_packets) 10)
    /\ List.length (Host.writes_in (Host.journal w'))
       = (List.length (Host.writes_in (Host.journal w)) + 90)%nat.
Proof.
  intros Hw.
  destruct (total_repeat_cycle slice_equals os dev Hw w) as (b & w' & E).
  pose proof (sends_repeat_cycle slice_equals os dev w b w' E) as H.
  exists b, w'. split; [exact E|]. split; [exact H|].
  rewrite H, length_app. reflexivity.
Qed.

Lemma repeat_cycle_sends_90_frames_witness :
  exists result w',
    Eh575Protocol.execute_repeat_cycle HostStub.array_equals HostStub.os
      Stub.silent HostStub.fresh
    = (Usb.Return result, w')
    /\ Host.writes_in (Host.journal w')
       = Host.writes_in (Host.journal HostStub.fresh)
         ++ List.concat
              (repeat (map (fun p => (1, fst (fst p), 3000))
                         Eh575Protocol.repeat_packets) 10)
    /\ List.length (Host.writes_in (Host.journal w'))
       = (List.length (Host.writes_in (Host.journal HostStub.fresh)) + 90)%nat.
Proof.
  apply (repeat_cycle_sends_90_frames unit HostStub.array_equals HostStub.os
           Stub.silent HostStub.fresh).
  intros f d s. eexists. reflexivity.
Defined.

(** X24.  The name under which [execute_repeat_cycle] saves a capture tells
    its status: a file it saves is named "fingerprint_cycle_..." and holds
    an EXCELLENT or GOOD capture, or is named "fingerprint_fair_..." and
    holds a FAIR one; POOR captures and responses of fewer than 100 bytes
    are never saved.  This holds whether the call returns or raises. *)
Theorem repeat_cycle_names_tell_status (D : Type)
    (slice_equals : list byte -> list byte -> bool) (os : Host.Os D)
    (dev : Usb.Device D) (w : Host.world D)
    (filename : string) (data : list byte) :
  In (filename, data)
     (Host.saves_in
        (Host.journal
           (snd (Eh575Protocol.execute_repeat_cycle slice_equals os dev w)))) ->
  let status_of_data :=
    eh575_status (Eh575CalibrationProtocol.analyze_capture_quality data) in
  In (filename, data) (Host.saves_in (Host.journal w))
  \/ (String.prefix "fingerprint_cycle_" filename = true
      /\ (status_of_data = Some EXCELLENT \/ status_of_data = Some GOOD))
  \/ (String.prefix "fingerprint_fair_" filename = true
      /\ status_of_data = Some FAIR).
Proof.
  intros H.
  pose proof (keeps_repeat_cycle slice_equals os dev
                (Host.saves_in (Host.journal w)) w) as K.
  assert (H0 : Forall (Effects.cycle_file_ok (Host.saves_in (Host.journal w)))
                 (Host.saves_in (Host.journal w))).
  { apply Forall_forall. intros fd Hfd. now left. }
  specialize (K H0). rewrite Forall_forall in K. exact (K _ H).
Qed.

Lemma repeat_cycle_names_tell_status_witness :
  let status_of_data :=
    eh575_status (Eh575CalibrationProtocol.analyze_capture_quality Py.all_bytes) in
  In ("fingerprint_cycle_3_120000.bin"%string, Py.all_bytes) []
  \/ (String.prefix "fingerprint_cycle_" "fingerprint_cycle_3_120000.bin" = true
      /\ (status_of_data = Some EXCELLENT \/ status_of_data = Some GOOD))
  \/ (String.prefix "fingerprint_fair_" "fingerprint_cycle_3_120000.bin" = true
      /\ status_of_data = Some FAIR).
Proof.
  apply (repeat_cycle_names_tell_status unit HostStub.array_equals HostStub.os
           HostStub.imaging HostStub.fresh).
  vm_compute. do 2 right. left. reflexivity.
Defined.
